(** * modify_dspreset: the control transformer of a Decent Sampler preset editor

    A shallow embedding of [modify_dspreset.py] (class [DSPresetModifier]) and
    the properties of its loader, its transformer and its persistence layer.

    - [PyFloat]: the built-ins [float(s)], [str(f)] and [format(f, '>8.1f')]
      of CPython on binary64 values, over Rocq's primitive floats;
    - [PyText]: what text-mode files do to bytes (strict UTF-8, newline
      translation);
    - exceptions, the file system and standard output as a state and error
      monad [Py];
    - the element tree of [xml.etree.ElementTree], with paths from the root as
      references to elements;
    - the methods [_load_file], [create_backup], [modify_controls],
      [_print_changes] and [save];
    - the notions that the properties speak of and the sample documents;
    - the properties: dictionaries and trees, the transformer, the loader,
      persistence, and the theorems at the sample documents;
    - the command-line session [main] over a terminal, and further
      properties of the loader, the transformer, text files, saving, the
      report and the session. *)

From Stdlib Require Import Floats ZArith Ascii String.
From Stdlib.Strings Require Import Byte.
From stdpp Require Import base list list_numbers strings pretty gmap.

(** ** Python's float built-ins *)

Module PyFloat.
Local Open Scope Z_scope.

Definition prec : Z := 53.
Definition emax : Z := 1024.

(** The binary64 value nearest to [p/q] (ties to even), for [0 < p] and
    [0 < q]: the quotient is taken with 64 bits more than [q] has, so that
    the remainder only decides the rounding. *)
Definition round_ratio (neg : bool) (p q : Z) : spec_float :=
  let s := Z.log2_up q + 64 in
  let '(quo, r) := Z.div_eucl (Z.shiftl p s) q in
  binary_round_aux prec emax neg quo (- s) (new_location q r).

(** The binary64 value nearest to [n * 10^k], for [0 <= n]. *)
Definition round_decimal (neg : bool) (n k : Z) : spec_float :=
  if n =? 0 then S754_zero neg
  else if 0 <=? k then round_ratio neg (n * 10 ^ k) 1
  else round_ratio neg n (10 ^ (- k)).

(** *** [float(s)] for a [str] argument *)

Definition code (c : ascii) : Z := Z.of_nat (nat_of_ascii c).

(* Py_ISSPACE: space, \t, \n, \v, \f, \r *)
Definition is_space (c : ascii) : bool :=
  (code c =? 32) || ((9 <=? code c) && (code c <=? 13)).

Definition is_digit (c : ascii) : bool :=
  (48 <=? code c) && (code c <=? 57).

Definition lower (c : ascii) : ascii :=
  if (65 <=? code c) && (code c <=? 90)
  then ascii_of_nat (nat_of_ascii c + 32) else c.

Fixpoint drop_while {A} (f : A -> bool) (l : list A) : list A :=
  match l with
  | [] => []
  | a :: l' => if f a then drop_while f l' else l
  end.

Fixpoint span {A} (f : A -> bool) (l : list A) : list A * list A :=
  match l with
  | [] => ([], [])
  | a :: l' => if f a then let '(u, v) := span f l' in (a :: u, v) else ([], l)
  end.

Definition strip (l : list ascii) : list ascii :=
  rev (drop_while is_space (rev (drop_while is_space l))).

(* PEP 515: an underscore stands between two digits *)
Fixpoint underscores_ok (prev : ascii) (l : list ascii) : bool :=
  match l with
  | [] => negb (Ascii.eqb prev "_")
  | c :: l' =>
      (if Ascii.eqb c "_" then is_digit prev
       else negb (Ascii.eqb prev "_") || is_digit c)
      && underscores_ok c l'
  end.

Definition digits_value (ds : list ascii) : Z :=
  fold_left (fun acc c => 10 * acc + (code c - 48)) ds 0.

Definition parse_sign (l : list ascii) : bool * list ascii :=
  match l with
  | "+"%char :: r => (false, r)
  | "-"%char :: r => (true, r)
  | _ => (false, l)
  end.

(* the exponent part; not consumed unless it has a digit *)
Definition parse_exponent (l : list ascii) : Z * list ascii :=
  match l with
  | c :: t =>
      if Ascii.eqb (lower c) "e" then
        let '(eneg, t1) := parse_sign t in
        let '(ed, t2) := span is_digit t1 in
        match ed with
        | [] => (0, l)
        | _ => ((if eneg then - digits_value ed else digits_value ed), t2)
        end
      else (0, l)
  | [] => (0, l)
  end.

Definition parse_number (l : list ascii) : option spec_float :=
  let '(neg, r) := parse_sign l in
  let name := string_of_list_ascii (map lower r) in
  if String.eqb name "inf" || String.eqb name "infinity"
  then Some (S754_infinity neg)
  else if String.eqb name "nan" then Some S754_nan
  else
    let '(ip, r1) := span is_digit r in
    let '(fp, r2) := match r1 with
                     | "."%char :: t => span is_digit t
                     | _ => ([], r1)
                     end in
    match ip ++ fp with
    | [] => None
    | ds =>
        let '(ex, r3) := parse_exponent r2 in
        match r3 with
        | [] => Some (round_decimal neg (digits_value ds)
                        (ex - Z.of_nat (length fp)))
        | _ => None
        end
    end.

(** [float(s)]: the value, or the message of the [ValueError].  The message
    quotes [s] as [repr] does for printable ASCII without quotes or
    backslashes. *)
Definition float_of_str (s : string) : string + float :=
  let l := strip (list_ascii_of_string s) in
  let number :=
    if underscores_ok "000"%char l
    then parse_number (filter (fun c => negb (Ascii.eqb c "_")) l)
    else None in
  match number with
  | Some f => inr (SF2Prim f)
  | None => inl ("could not convert string to float: '" ++ s ++ "'")%string
  end.

(** *** [repr(f)] and [str(f)] *)

(* [f] is [num/den] exactly *)
Definition ratio_of (m : positive) (e : Z) : Z * Z :=
  if 0 <=? e then (Z.pos m * 2 ^ e, 1) else (Z.pos m, 2 ^ (- e)).

Definition scale10 (nd : Z * Z) (q : Z) : Z * Z :=
  let '(n, d) := nd in
  if 0 <=? q then (n, d * 10 ^ q) else (n * 10 ^ (- q), d).

Fixpoint count_up (fuel : nat) (n d x : Z) : Z :=
  match fuel with
  | O => x
  | S fuel' => if d * 10 <=? n then count_up fuel' n (d * 10) (x + 1) else x
  end.

Fixpoint count_down (fuel : nat) (n d x : Z) : Z :=
  match fuel with
  | O => x
  | S fuel' => if n <? d then count_down fuel' (n * 10) d (x - 1) else x
  end.

(** The decimal exponent [x] of [n/d]: [10^x <= n/d < 10^(x+1)]. *)
Definition decimal_exponent (nd : Z * Z) : Z :=
  let '(n, d) := nd in
  if d <=? n then count_up 400 n d 0 else count_down 400 n d 0.

Definition reads_back (m : positive) (e : Z) (c q : Z) : bool :=
  match round_decimal false c q with
  | S754_finite _ m' e' => Pos.eqb m' m && (e' =? e)
  | _ => false
  end.

(** The shortest decimal [c * 10^q] that [float] reads back as [m * 2^e],
    the nearest one when two of that length do; 17 digits always do. *)
Fixpoint shortest (fuel : nat) (m : positive) (e : Z) (x : Z) (n : Z) : Z * Z :=
  let q := x - (n - 1) in
  let '(num, den) := scale10 (ratio_of m e) q in
  let '(lo, r) := Z.div_eucl num den in
  let '(c1, c2) := if 2 * r <=? den then (lo, lo + 1) else (lo + 1, lo) in
  match fuel with
  | O => (c1, q)
  | S fuel' =>
      if reads_back m e c1 q then (c1, q)
      else if reads_back m e c2 q then (c2, q)
      else shortest fuel' m e x (n + 1)
  end.

Fixpoint strip_zeros (fuel : nat) (c q : Z) : Z * Z :=
  match fuel with
  | O => (c, q)
  | S fuel' =>
      if (c mod 10 =? 0) && negb (c =? 0)
      then strip_zeros fuel' (c / 10) (q + 1) else (c, q)
  end.

Definition digit_char (d : Z) : ascii := ascii_of_nat (Z.to_nat (48 + d)).

Fixpoint digits_of (fuel : nat) (n : Z) (acc : list ascii) : list ascii :=
  match fuel with
  | O => acc
  | S fuel' =>
      let acc' := digit_char (n mod 10) :: acc in
      if n <? 10 then acc' else digits_of fuel' (n / 10) acc'
  end.

(** The decimal digits of [0 <= n]. *)
Definition decimal (n : Z) : list ascii :=
  digits_of (S (Z.to_nat (Z.log2 n))) n [].

Definition zeros (n : Z) : list ascii := repeat "0"%char (Z.to_nat n).

(* format_float_short, mode 'r' with Py_DTSF_ADD_DOT_0 *)
Definition format_repr (ds : list ascii) (decpt : Z) : list ascii :=
  let n := Z.of_nat (length ds) in
  if (decpt <=? -4) || (16 <? decpt) then
    let ex := decpt - 1 in
    let mant := match ds with
                | d :: (_ :: _) as rest => d :: "."%char :: rest
                | _ => ds
                end in
    let exd := decimal (Z.abs ex) in
    mant ++ "e"%char :: (if ex <? 0 then "-"%char else "+"%char)
         :: (if Z.abs ex <? 10 then "0"%char :: exd else exd)
  else if decpt <=? 0 then
    "0"%char :: "."%char :: zeros (- decpt) ++ ds
  else if decpt <? n then
    take (Z.to_nat decpt) ds ++ "."%char :: drop (Z.to_nat decpt) ds
  else ds ++ zeros (decpt - n) ++ ["."; "0"]%char.

Definition sign_str (neg : bool) : string := if neg then "-"%string else EmptyString.

Definition str_of_float (f : float) : string :=
  match Prim2SF f with
  | S754_nan => "nan"%string
  | S754_infinity s => (sign_str s ++ "inf")%string
  | S754_zero s => (sign_str s ++ "0.0")%string
  | S754_finite s m e =>
      let x := decimal_exponent (ratio_of m e) in
      let '(c0, q0) := shortest 16 m e x 1 in
      let '(c, q) := strip_zeros 17 c0 q0 in
      let ds := decimal c in
      String.append (sign_str s)
        (string_of_list_ascii (format_repr ds (q + Z.of_nat (length ds))))
  end.

(** *** [format(f, ">8.1f")] *)

Definition rjust (w : nat) (s : string) : string :=
  string_of_list_ascii (repeat " "%char (w - String.length s)%nat) ++ s.

(* the number of tenths nearest to [num/den], ties to even *)
Definition round_tenths (nd : Z * Z) : Z :=
  let '(num, den) := nd in
  let '(lo, r) := Z.div_eucl (num * 10) den in
  match 2 * r ?= den with
  | Lt => lo
  | Gt => lo + 1
  | Eq => if Z.even lo then lo else lo + 1
  end.

Definition format_1f (f : float) : string :=
  match Prim2SF f with
  | S754_nan => "nan"%string
  | S754_infinity s => (sign_str s ++ "inf")%string
  | S754_zero s => (sign_str s ++ "0.0")%string
  | S754_finite s m e =>
      let t := round_tenths (ratio_of m e) in
      String.append (sign_str s)
        (string_of_list_ascii
           (decimal (t / 10) ++ ["."%char; digit_char (t mod 10)]))
  end.

Definition format_8_1f (f : float) : string := rjust 8 (format_1f f).

End PyFloat.

(** ** Text files: [open(path, mode, encoding='utf-8')] *)

Module PyText.
Local Open Scope N_scope.

(** [os.name], which fixes [os.linesep]. *)
Inductive os_name := posix | nt.

Definition linesep (os : os_name) : list N :=
  match os with posix => [10] | nt => [13; 10] end.

(* the six payload bits of a continuation byte 10xxxxxx *)
Definition cont (b : byte) : option N :=
  let n := Byte.to_N b in
  if (128 <=? n) && (n <? 192) then Some (n - 128) else None.

Definition scalar (least cp : N) : bool :=
  (least <=? cp) && (cp <=? 1114111) && negb ((55296 <=? cp) && (cp <=? 57343)).

(** The strict UTF-8 decoder: [None] is a [UnicodeDecodeError]. *)
Fixpoint decode (bs : list byte) : option (list N) :=
  match bs with
  | [] => Some []
  | b0 :: r0 =>
      let n0 := Byte.to_N b0 in
      if n0 <? 128 then cons n0 <$> decode r0
      else if n0 <? 192 then None
      else if n0 <? 224 then
        match r0 with
        | b1 :: r1 =>
            match cont b1 with
            | Some c1 =>
                let cp := (n0 - 192) * 64 + c1 in
                if scalar 128 cp then cons cp <$> decode r1 else None
            | None => None
            end
        | _ => None
        end
      else if n0 <? 240 then
        match r0 with
        | b1 :: b2 :: r2 =>
            match cont b1, cont b2 with
            | Some c1, Some c2 =>
                let cp := ((n0 - 224) * 64 + c1) * 64 + c2 in
                if scalar 2048 cp then cons cp <$> decode r2 else None
            | _, _ => None
            end
        | _ => None
        end
      else if n0 <? 248 then
        match r0 with
        | b1 :: b2 :: b3 :: r3 =>
            match cont b1, cont b2, cont b3 with
            | Some c1, Some c2, Some c3 =>
                let cp := (((n0 - 240) * 64 + c1) * 64 + c2) * 64 + c3 in
                if scalar 65536 cp then cons cp <$> decode r3 else None
            | _, _, _ => None
            end
        | _ => None
        end
      else None
  end.

Definition byte_of (n : N) : byte := default Byte.x00 (Byte.of_N n).

Definition encode1 (cp : N) : list byte :=
  if cp <? 128 then [byte_of cp]
  else if cp <? 2048 then [byte_of (192 + cp / 64); byte_of (128 + cp mod 64)]
  else if cp <? 65536 then
    [byte_of (224 + cp / 4096); byte_of (128 + (cp / 64) mod 64);
     byte_of (128 + cp mod 64)]
  else
    [byte_of (240 + cp / 262144); byte_of (128 + (cp / 4096) mod 64);
     byte_of (128 + (cp / 64) mod 64); byte_of (128 + cp mod 64)].

Definition encode (t : list N) : list byte := flat_map encode1 t.

(** Reading with [newline=None]: universal newlines, every "\r\n" and every
    other "\r" arrives as "\n". *)
Fixpoint translate_in (t : list N) : list N :=
  match t with
  | [] => []
  | 13 :: 10 :: r => 10 :: translate_in r
  | 13 :: r => 10 :: translate_in r
  | c :: r => c :: translate_in r
  end.

(** Writing with [newline=None]: every "\n" leaves as [os.linesep]. *)
Definition translate_out (os : os_name) (t : list N) : list N :=
  flat_map (fun c => if c =? 10 then linesep os else [c]) t.

(** [f.read()] of a file opened with [open(p, 'r', encoding='utf-8')]. *)
Definition read_text (bs : list byte) : option (list N) :=
  translate_in <$> decode bs.

(** The bytes [f.write(t)] puts on a file opened with
    [open(p, 'w', encoding='utf-8')]. *)
Definition write_text (os : os_name) (t : list N) : list byte :=
  encode (translate_out os t).

End PyText.

(** ** Exceptions, the file system and standard output *)

Inductive exn_class :=
| ValueError | OSError | FileNotFoundError | PermissionError
| ParseError | UnicodeDecodeError.

Record exn := Exn { exn_type : exn_class; exn_msg : string }.

(** [except IOError]: [IOError] is [OSError], with its subclasses. *)
Definition is_IOError (e : exn) : bool :=
  match exn_type e with
  | OSError | FileNotFoundError | PermissionError => true
  | _ => false
  end.

(** [except ET.ParseError] *)
Definition is_ParseError (e : exn) : bool :=
  match exn_type e with ParseError => true | _ => false end.

(** Regular files by path, the paths that cannot be opened for writing, and
    what was printed so far.  Directories and unreadable files are left out. *)
Record World := {
  files : gmap string (list byte);
  readonly : gset string;
  stdout : list string
}.

Definition Py (A : Type) : Type := World -> (exn + A) * World.

Definition ret {A} (a : A) : Py A := fun w => (inr a, w).

Definition bind {A B} (c : Py A) (k : A -> Py B) : Py B :=
  fun w => match c w with
           | (inr a, w') => k a w'
           | (inl e, w') => (inl e, w')
           end.

Definition raise {A} (e : exn) : Py A := fun w => (inl e, w).

(** [try: body  except <class> as e: handler e] *)
Definition try_except {A} (body : Py A) (catches : exn -> bool)
    (handler : exn -> Py A) : Py A :=
  fun w => match body w with
           | (inl e, w') => if catches e then handler e w' else (inl e, w')
           | r => r
           end.

#[global] Instance Py_ret : MRet Py := @ret.
#[global] Instance Py_bind : MBind Py := fun A B k c => bind c k.

Definition print (s : string) : Py unit :=
  fun w => (inr tt, {| files := files w; readonly := readonly w;
                       stdout := stdout w ++ [s] |}).

Definition os_path_exists (p : string) : Py bool :=
  fun w => (inr (bool_decide (is_Some (files w !! p))), w).

(** The content of the file at [p], as any way of opening it for reading
    sees it.  The message quotes [p] as [repr] does for plain paths. *)
Definition read_bytes (p : string) : Py (list byte) :=
  fun w => match files w !! p with
           | Some bs => (inr bs, w)
           | None => (inl (Exn FileNotFoundError
                        ("[Errno 2] No such file or directory: '" ++ p ++ "'")), w)
           end.

(** Opening [p] for writing creates it or empties it. *)
Definition open_w (p : string) : Py unit :=
  fun w => if bool_decide (p ∈ readonly w)
           then (inl (Exn PermissionError
                   ("[Errno 13] Permission denied: '" ++ p ++ "'")), w)
           else (inr tt, {| files := <[p := []]> (files w);
                            readonly := readonly w; stdout := stdout w |}).

Definition write_bytes (p : string) (bs : list byte) : Py unit :=
  fun w => (inr tt, {| files := <[p := default [] (files w !! p) ++ bs]> (files w);
                       readonly := readonly w; stdout := stdout w |}).

(** ** xml.etree.ElementTree *)

(** A Python [dict] with [str] keys: keys are unique and keep the order in
    which they were first set. *)
Fixpoint dict_get {V} (k : string) (d : list (string * V)) : option V :=
  match d with
  | [] => None
  | (k', v) :: d' => if String.eqb k' k then Some v else dict_get k d'
  end.

Fixpoint dict_set {V} (k : string) (v : V) (d : list (string * V))
    : list (string * V) :=
  match d with
  | [] => [(k, v)]
  | (k', v') :: d' =>
      if String.eqb k' k then (k, v) :: d' else (k', v') :: dict_set k v d'
  end.

(** An [Element]: its tag, its attribute dictionary, its text and tail
    ([None] when there is none) and its children. *)
Unset Elimination Schemes.
Inductive Element : Type := mkElement {
  tag : string;
  attrib : list (string * string);
  text : option string;
  tail : option string;
  children : list Element
}.
Set Elimination Schemes.

(** Induction over the tree, with the claim for every child at hand. *)
Fixpoint Element_ind (P : Element → Prop)
    (step : ∀ t a tx tl cs, Forall P cs → P (mkElement t a tx tl cs))
    (e : Element) : P e :=
  match e with
  | mkElement t a tx tl cs =>
      step t a tx tl cs
        ((fix go (l : list Element) : Forall P l :=
            match l with
            | [] => List.Forall_nil P
            | c :: l' => List.Forall_cons P c l' (Element_ind P step c) (go l')
            end) cs)
  end.

(** Elements are objects that the tree and the list of controls share: a
    reference to an element is its path from the root, child index by child
    index. *)
Abbreviation path := (list nat).

Fixpoint elem_at (e : Element) (p : path) : option Element :=
  match p with
  | [] => Some e
  | i :: p' =>
      match children e !! i with
      | Some c => elem_at c p'
      | None => None
      end
  end.

(** The attributes of the element that [p] refers to. *)
Definition attrib_at (e : Element) (p : path) : option (list (string * string)) :=
  attrib <$> elem_at e p.

(** [Element.get(key)] on the element that [p] refers to *)
Definition get_at (e : Element) (p : path) (k : string) : option string :=
  match elem_at e p with
  | Some c => dict_get k (attrib c)
  | None => None
  end.

(** [Element.set(key, value)] on the element that [p] refers to *)
Fixpoint set_at (e : Element) (p : path) (k v : string) : Element :=
  match p with
  | [] => mkElement (tag e) (dict_set k v (attrib e)) (text e) (tail e) (children e)
  | i :: p' =>
      match children e !! i with
      | Some c =>
          mkElement (tag e) (attrib e) (text e) (tail e)
            (<[i := set_at c p' k v]> (children e))
      | None => e
      end
  end.

Definition iter_children (below : Element -> list path)
    : nat -> list Element -> list path :=
  fix go (i : nat) (cs : list Element) : list path :=
    match cs with
    | [] => []
    | c :: cs' => ([i] :: (cons i <$> below c)) ++ go (S i) cs'
    end.

(** [e.iter()] without [e] itself: the elements below [e] in document order *)
Fixpoint iter_below (e : Element) : list path :=
  match e with
  | mkElement _ _ _ _ cs => iter_children iter_below 0 cs
  end.

Definition has_tag (t : string) (e : Element) (p : path) : Prop :=
  tag <$> elem_at e p = Some t.

#[global] Instance has_tag_dec t e p : Decision (has_tag t e p) :=
  decide (tag <$> elem_at e p = Some t).

(** [e.findall('.//t')] *)
Definition findall (t : string) (e : Element) : list path :=
  filter (has_tag t e) (iter_below e).

(** The number of elements named [t] in the tree of [e], [e] included. *)
Fixpoint count_tag (t : string) (e : Element) : nat :=
  match e with
  | mkElement t' _ _ _ cs =>
      ((if String.eqb t' t then 1 else 0) + sum_list_with (count_tag t) cs)%nat
  end.

(** ** class DSPresetModifier *)

Record DSPresetModifier := {
  file_path : string;
  root : Element;                              (* self.tree, self.root *)
  ui_controls : list path;
  control_types_found : list (string * nat)
}.

Record Rect := { r_x : float; r_y : float; r_width : float; r_height : float }.

(** A record of the list [changes]: the keys 'id', 'type', 'old', 'new' and
    'element'. *)
Record Change := {
  c_id : string;
  c_type : string;
  c_old : Rect;
  c_new : Rect;
  c_element : path
}.

Record Stats := { found : nat; modified : nat; skipped : nat }.

(** What the loop over [self.ui_controls] has built so far. *)
Record Scan := {
  s_found : nat;
  s_skipped : nat;
  s_changes : list Change;
  s_printed : list string
}.

(** What a call of [modify_controls] leaves: the object, the returned
    [stats], the local list [changes], the lines that the loop printed and
    the lines that [_print_changes] printed after it. *)
Record Modified := {
  m_self : DSPresetModifier;
  m_stats : Stats;
  m_changes : list Change;
  m_warnings : list string;
  m_report : list string
}.

(** All that a call printed, in order. *)
Definition m_printed (r : Modified) : list string := m_warnings r ++ m_report r.

Definition nl : string := String "010"%char EmptyString.

Definition dashes (n : nat) : string := string_of_list_ascii (repeat "-"%char n).

Definition endswith (s suffix : string) : bool :=
  (String.length suffix <=? String.length s)%nat
  && String.eqb
       (substring (String.length s - String.length suffix) (String.length suffix) s)
       suffix.

(** [x in selected_types] for [x = control.get('type')], which is [None]
    when the attribute is absent. *)
Definition type_in (x : option string) (selected_types : list string) : bool :=
  match x with
  | Some t => existsb (String.eqb t) selected_types
  | None => false
  end.

(** [bool(output_path)]: [None] and the empty string are false. *)
Definition truthy (output_path : option string) : bool :=
  match output_path with
  | Some (String _ _) => true
  | _ => false
  end.

(** The built-ins that the methods call on floats: [float(s)] for a string
    ([inl] carries the message of the [ValueError]), [str(f)] and
    [format(f, '>8.1f')]. *)
Class Builtins := {
  py_float : string -> string + float;
  py_str : float -> string;
  py_format : float -> string
}.

(** What the methods take from the platform: the parser behind [ET.parse]
    ([inl] carries the message of the [ParseError]), the bytes that
    [tree.write(_, encoding='utf-8', xml_declaration=True)] produces, and
    [os.name]. *)
Class Platform := {
  ET_parse : list byte -> string + Element;
  ET_tostring : Element -> list byte;
  os : PyText.os_name
}.

Section Methods.

Context {py : Builtins} {platform : Platform}.

Definition ET_parse_file (p : string) : Py Element :=
  bs ← read_bytes p;
  match ET_parse bs with
  | inr e => mret e
  | inl msg => raise (Exn ParseError msg)
  end.

Definition tree_write (p : string) (e : Element) : Py unit :=
  open_w p;; write_bytes p (ET_tostring e).

(** The loop that fills [self.control_types_found]. *)
Definition count_type (rt : Element) (found : list (string * nat)) (p : path)
    : list (string * nat) :=
  match elem_at rt p with
  | Some control =>
      let control_type := default "unknown" (dict_get "type" (attrib control)) in
      dict_set control_type (default 0 (dict_get control_type found) + 1)%nat found
  | None => found
  end.

Definition _load_file (file_path : string) : Py DSPresetModifier :=
  if negb (endswith file_path ".dspreset") then
    raise (Exn ValueError "File must have .dspreset extension")
  else
    there ← os_path_exists file_path;
    if negb there then
      raise (Exn FileNotFoundError ("File not found: " ++ file_path))
    else
      try_except
        (rt ← ET_parse_file file_path;
         if negb (String.eqb (tag rt) "DecentSampler") then
           raise (Exn ValueError
             "Not a valid Decent Sampler preset file (missing DecentSampler root)")
         else
           let controls := findall "control" rt in
           match controls with
           | [] =>
               print "Warning: No control elements found in the preset";;
               mret {| file_path := file_path; root := rt;
                       ui_controls := controls; control_types_found := [] |}
           | _ =>
               mret {| file_path := file_path; root := rt;
                       ui_controls := controls;
                       control_types_found :=
                         fold_left (count_type rt) controls [] |}
           end)
        is_ParseError
        (fun e => raise (Exn ValueError
           ("Invalid XML format in " ++ file_path ++ ": " ++ exn_msg e))).

Definition create_backup (self : DSPresetModifier) : Py string :=
  let backup_path := (file_path self ++ ".backup")%string in
  try_except
    (read_bytes (file_path self);;              (* open(self.file_path, 'r') *)
     open_w backup_path;;                       (* open(backup_path, 'w') *)
     bs ← read_bytes (file_path self);          (* source.read() *)
     match PyText.read_text bs with
     | None => raise (Exn UnicodeDecodeError "'utf-8' codec can't decode")
     | Some text =>
         write_bytes backup_path (PyText.write_text os text);;
         print ("Created backup at: " ++ backup_path);;
         mret backup_path
     end)
    is_IOError
    (fun e => raise (Exn OSError ("Error creating backup: " ++ exn_msg e))).

(** [float(control.get(k, 0))] *)
Definition float_attr (control : Element) (k : string) : string + float :=
  match dict_get k (attrib control) with
  | Some s => py_float s
  | None => inr 0%float
  end.

(** The four conversions of the [try] block, in their order; [inl] is the
    message of the first [ValueError]. *)
Definition read_rect (control : Element) : string + Rect :=
  match float_attr control "x" with
  | inl e => inl e
  | inr x =>
  match float_attr control "y" with
  | inl e => inl e
  | inr y =>
  match float_attr control "width" with
  | inl e => inl e
  | inr width =>
  match float_attr control "height" with
  | inl e => inl e
  | inr height => inr {| r_x := x; r_y := y; r_width := width; r_height := height |}
  end end end end.

Definition offset (old : Rect) (x_offset y_offset width_offset height_offset : float)
    : Rect :=
  {| r_x := r_x old + x_offset; r_y := r_y old + y_offset;
     r_width := r_width old + width_offset;
     r_height := r_height old + height_offset |}%float.

(** One turn of [for control in self.ui_controls]. *)
Definition scan_control (rt : Element) (selected_types : list string)
    (x_offset y_offset width_offset height_offset : float)
    (acc : Scan) (p : path) : Scan :=
  match elem_at rt p with
  | None => acc
  | Some control =>
      let control_type_attr := dict_get "type" (attrib control) in
      if type_in control_type_attr selected_types then
        match read_rect control with
        | inr old =>
            let change :=
              {| c_id := default (default "unnamed" (dict_get "label" (attrib control)))
                                 (dict_get "id" (attrib control));
                 c_type := default EmptyString control_type_attr;
                 c_old := old;
                 c_new := offset old x_offset y_offset width_offset height_offset;
                 c_element := p |} in
            {| s_found := S (s_found acc); s_skipped := s_skipped acc;
               s_changes := s_changes acc ++ [change];
               s_printed := s_printed acc |}
        | inl e =>
            {| s_found := S (s_found acc); s_skipped := S (s_skipped acc);
               s_changes := s_changes acc;
               s_printed := s_printed acc ++
                 [("Warning: Invalid values for control "
                   ++ default "unnamed" (dict_get "id" (attrib control))
                   ++ ": " ++ e)%string] |}
        end
      else acc
  end.

(** [for attr, value in new_vals.items(): control.set(attr, str(value))] *)
Definition apply_change (rt : Element) (change : Change) : Element :=
  let p := c_element change in
  let new_vals := c_new change in
  set_at (set_at (set_at (set_at rt
    p "x" (py_str (r_x new_vals)))
    p "y" (py_str (r_y new_vals)))
    p "width" (py_str (r_width new_vals)))
    p "height" (py_str (r_height new_vals)).

(** One turn of [for change in changes], with [stats['modified'] += 1]. *)
Definition apply_step (acc : Element * nat) (change : Change) : Element * nat :=
  (apply_change (fst acc) change, S (snd acc)).

Definition attr_line (attr : string) (old_val new_val : float) : list string :=
  if negb (PrimFloat.eqb old_val new_val)
  then [("  " ++ attr ++ ": " ++ py_format old_val ++ " → " ++ py_format new_val)%string]
  else [].

Definition change_lines (change : Change) : list string :=
  [("Control ID: " ++ c_id change ++ " (Type: " ++ c_type change ++ ")")%string]
  ++ attr_line "x" (r_x (c_old change)) (r_x (c_new change))
  ++ attr_line "y" (r_y (c_old change)) (r_y (c_new change))
  ++ attr_line "width" (r_width (c_old change)) (r_width (c_new change))
  ++ attr_line "height" (r_height (c_old change)) (r_height (c_new change))
  ++ [dashes 30].

(** The lines that [_print_changes] prints. *)
Definition _print_changes (changes : list Change) (preview : bool) : list string :=
  match changes with
  | [] => [(nl ++ "No controls selected for modification.")%string]
  | _ =>
      let mode := if preview then "Preview of changes" else "Applied changes" in
      [(nl ++ mode ++ ":")%string; dashes 50] ++ flat_map change_lines changes
  end.

Definition modify_controls (self : DSPresetModifier) (selected_types : list string)
    (x_offset y_offset width_offset height_offset : float) (preview : bool)
    : Modified :=
  let scan :=
    fold_left
      (scan_control (root self) selected_types
         x_offset y_offset width_offset height_offset)
      (ui_controls self)
      {| s_found := 0; s_skipped := 0; s_changes := []; s_printed := [] |} in
  let changes := s_changes scan in
  let '(rt, modified) :=
    if negb preview && negb (bool_decide (changes = []))
    then fold_left apply_step changes (root self, 0%nat)
    else (root self, 0%nat) in
  {| m_self := {| file_path := file_path self; root := rt;
                  ui_controls := ui_controls self;
                  control_types_found := control_types_found self |};
     m_stats := {| found := s_found scan; modified := modified;
                   skipped := s_skipped scan |};
     m_changes := changes;
     m_warnings := s_printed scan;
     m_report := _print_changes changes preview |}.

Definition save (self : DSPresetModifier) (output_path : option string) : Py unit :=
  let save_path :=
    if truthy output_path then default EmptyString output_path else file_path self in
  try_except
    ((if negb (truthy output_path)
      then create_backup self;; mret tt
      else mret tt);;
     tree_write save_path (root self);;
     print ("Successfully saved to: " ++ save_path))
    is_IOError
    (fun e => raise (Exn OSError ("Error saving file: " ++ exn_msg e))).

End Methods.


(** ** Notions used by the properties *)

Section Notions.

Context {py : Builtins}.

(** The state that [_load_file] leaves and that [modify_controls] keeps:
    [self.ui_controls] holds the controls of the tree, in document order. *)
Definition loaded (self : DSPresetModifier) : Prop :=
  ui_controls self = findall "control" (root self).

(** [p] refers to a control that [modify_controls] counts as found: its
    type is a member of [selected_types]. *)
Definition matched (rt : Element) (selected_types : list string) (p : path) : bool :=
  match elem_at rt p with
  | Some control => type_in (dict_get "type" (attrib control)) selected_types
  | None => false
  end.

(** The old values of the control that [p] refers to, when its four
    attributes convert. *)
Definition rect_at (rt : Element) (p : path) : option Rect :=
  match elem_at rt p with
  | Some control =>
      match read_rect control with
      | inr old => Some old
      | inl _ => None
      end
  | None => None
  end.

(** [p] refers to a control that is found and then skipped. *)
Definition skipped_at (rt : Element) (selected_types : list string) (p : path) : bool :=
  matched rt selected_types p && bool_decide (rect_at rt p = None).

(** [p] refers to a control that is found and gets a change record. *)
Definition changed_at (rt : Element) (selected_types : list string) (p : path) : bool :=
  matched rt selected_types p && bool_decide (is_Some (rect_at rt p)).

(** The change record of the control that [p] refers to, if it gets one. *)
Definition change_at (rt : Element) (selected_types : list string)
    (x_offset y_offset width_offset height_offset : float) (p : path)
    : option Change :=
  match elem_at rt p with
  | Some control =>
      if type_in (dict_get "type" (attrib control)) selected_types then
        match read_rect control with
        | inr old =>
            Some {| c_id := default (default "unnamed" (dict_get "label" (attrib control)))
                                    (dict_get "id" (attrib control));
                    c_type := default EmptyString (dict_get "type" (attrib control));
                    c_old := old;
                    c_new := offset old x_offset y_offset width_offset height_offset;
                    c_element := p |}
        | inl _ => None
        end
      else None
  | None => None
  end.

(** The attributes of a control once [new_vals] are written to it. *)
Definition set_rect (new_vals : Rect) (a : list (string * string))
    : list (string * string) :=
  dict_set "height" (py_str (r_height new_vals))
    (dict_set "width" (py_str (r_width new_vals))
       (dict_set "y" (py_str (r_y new_vals))
          (dict_set "x" (py_str (r_x new_vals)) a))).

(** [float(str(v)) == v] on the four values of [r], with [v] itself as the
    result. *)
Definition reads_back (r : Rect) : Prop :=
  py_float (py_str (r_x r)) = inr (r_x r)
  ∧ py_float (py_str (r_y r)) = inr (r_y r)
  ∧ py_float (py_str (r_width r)) = inr (r_width r)
  ∧ py_float (py_str (r_height r)) = inr (r_height r).

End Notions.

(** The key under which [_load_file] counts a control. *)
Definition type_key (rt : Element) (p : path) : string :=
  default "unknown" (get_at rt p "type").

(** The sum of the counts of [self.control_types_found]. *)
Definition total_count (d : list (string * nat)) : nat := sum_list_with snd d.

(** The error kinds of the specification, as the exceptions of the code. *)
Definition StructureError : exn :=
  Exn ValueError "Not a valid Decent Sampler preset file (missing DecentSampler root)".

(** The count that a lookup in [self.control_types_found] grows to when [n]
    more controls of that type are counted. *)
Definition bump (o : option nat) (n : nat) : option nat :=
  match n with
  | O => o
  | S _ => Some (default 0 o + n)
  end.

(** ** Instances and sample documents *)

(** The built-ins of CPython on strings of ASCII characters. *)
Definition cpython : Builtins := {|
  py_float := PyFloat.float_of_str;
  py_str := PyFloat.str_of_float;
  py_format := PyFloat.format_8_1f
|}.

(** A platform whose parser knows the documents of a table and takes any
    other input as malformed, and whose serializer writes nothing but the
    XML declaration. *)
Definition xml_declaration : list byte :=
  list_byte_of_string "<?xml version='1.0' encoding='utf-8'?>".

Fixpoint bytes_eqb (a b : list byte) : bool :=
  match a, b with
  | [], [] => true
  | x :: a', y :: b' => Byte.eqb x y && bytes_eqb a' b'
  | _, _ => false
  end.

Fixpoint table_parse (table : list (list byte * Element)) (bs : list byte)
    : string + Element :=
  match table with
  | [] => inl "syntax error: line 1, column 0"%string
  | (key, doc) :: table' =>
      if bytes_eqb key bs then inr doc else table_parse table' bs
  end.

Definition table_platform (table : list (list byte * Element))
    (name : PyText.os_name) : Platform := {|
  ET_parse := table_parse table;
  ET_tostring := fun _ => xml_declaration;
  os := name
|}.

Definition cr : byte := Byte.x0d.
Definition lf : byte := Byte.x0a.

(** An element without text, as the parser returns it for a layout written
    without white space between the tags. *)
Definition node (t : string) (a : list (string * string)) (cs : list Element)
    : Element :=
  mkElement t a None None cs.

(** A layout with four controls: a knob, a knob whose width is not a
    number, a label and a control without a type. *)
Definition demo_knob : Element :=
  node "control"
    [("type", "knob"); ("id", "gain"); ("x", "10"); ("y", "20");
     ("width", "30"); ("height", "30")]%string [].

Definition demo_wide : Element :=
  node "control"
    [("type", "knob"); ("id", "tone"); ("x", "10"); ("width", "wide")]%string [].

Definition demo_label : Element :=
  node "control" [("type", "label"); ("label", "Title"); ("x", "4")]%string [].

Definition demo_untyped : Element :=
  node "control" [("x", "1")]%string [].

Definition demo_doc : Element :=
  node "DecentSampler" []
    [node "ui" []
       [node "tab" [] [demo_knob; demo_wide; demo_label; demo_untyped]]].

Definition demo_bytes : list byte := list_byte_of_string "<DecentSampler>...".

Definition demo_self : DSPresetModifier := {|
  file_path := "demo.dspreset";
  root := demo_doc;
  ui_controls := [[0; 0; 0]; [0; 0; 1]; [0; 0; 2]; [0; 0; 3]];
  control_types_found := [("knob", 2); ("label", 1); ("unknown", 1)]%string
|}.

(** A document with another root. *)
Definition other_doc : Element :=
  node "Sampler" [] [node "ui" [] [demo_knob]].

Definition other_bytes : list byte := list_byte_of_string "<Sampler>...".

Definition demo_platform : Platform :=
  table_platform [(demo_bytes, demo_doc); (other_bytes, other_doc)] PyText.posix.

Definition demo_world : World := {|
  files := {[ "demo.dspreset"%string := demo_bytes;
              "other.dspreset"%string := other_bytes ]};
  readonly := ∅;
  stdout := []
|}.

(** The example of the specification: one knob at (10, 20), 30 by 30. *)
Definition knob_control : Element :=
  node "control"
    [("type", "knob"); ("x", "10"); ("y", "20"); ("width", "30");
     ("height", "30")]%string [].

Definition knob_doc : Element :=
  node "DecentSampler" [] [node "ui" [] [knob_control]].

Definition knob_self : DSPresetModifier := {|
  file_path := "knob.dspreset";
  root := knob_doc;
  ui_controls := [[0; 0]];
  control_types_found := [("knob", 1)]%string
|}.







(** A preset with Windows line ends, one with Unix line ends, and the
    object loaded from either. *)
Definition crlf_bytes : list byte :=
  list_byte_of_string "<DecentSampler>" ++ [cr; lf]
  ++ list_byte_of_string "</DecentSampler>" ++ [cr; lf].

Definition lf_bytes : list byte :=
  list_byte_of_string "<DecentSampler>" ++ [lf]
  ++ list_byte_of_string "</DecentSampler>" ++ [lf].

Definition empty_self : DSPresetModifier := {|
  file_path := "empty.dspreset";
  root := node "DecentSampler" [] [];
  ui_controls := [];
  control_types_found := []
|}.

Definition preset_world (content : list byte) : World := {|
  files := {[ "empty.dspreset"%string := content ]};
  readonly := ∅;
  stdout := []
|}.

(** ** Further notions *)

(** The warning of [_load_file] for a preset without controls. *)
Definition no_controls_warning : string :=
  "Warning: No control elements found in the preset".

(** The notice of [_print_changes] for an empty list of changes. *)
Definition no_changes_notice : string :=
  (nl ++ "No controls selected for modification.")%string.

(** What [set_at] leaves alone at every element: its tag, its text, its
    tail and the number of its children. *)
Definition node_shape (e : Element) : string * option string * option string * nat :=
  (tag e, text e, tail e, length (children e)).

(** A text in which every line ends with "\r\n": no "\r" without a "\n"
    after it and no "\n" without a "\r" before it. *)
Fixpoint crlf_only (t : list N) : bool :=
  match t with
  | [] => true
  | 13%N :: 10%N :: r => crlf_only r
  | 13%N :: _ => false
  | 10%N :: _ => false
  | _ :: r => crlf_only r
  end.

(** ** The command-line session: [main]

    A [str] is a Rocq [string] here, a character being a code point below
    256. *)

Module PyStr.

Definition quote : ascii := Ascii.ascii_of_nat 34.

(** [str.isspace] of one character *)
Definition isspace (c : ascii) : bool :=
  let n := nat_of_ascii c in
  ((9 <=? n) && (n <=? 13)) || ((28 <=? n) && (n <=? 32))
  || (n =? 133) || (n =? 160).

Definition lower_char (c : ascii) : ascii :=
  let n := nat_of_ascii c in
  if ((65 <=? n) && (n <=? 90))
     || ((192 <=? n) && (n <=? 222) && negb (n =? 215))
  then ascii_of_nat (n + 32) else c.

(** [s.lower()] *)
Fixpoint lower (s : string) : string :=
  match s with
  | EmptyString => EmptyString
  | String c s' => String (lower_char c) (lower s')
  end.

Fixpoint lstrip (drop : ascii -> bool) (s : string) : string :=
  match s with
  | EmptyString => EmptyString
  | String c s' => if drop c then lstrip drop s' else s
  end.

Definition rstrip (drop : ascii -> bool) (s : string) : string :=
  String.rev (lstrip drop (String.rev s)).

(** [s.strip()] is [strip isspace s], and [s.strip(c)] for a one-character
    [c] is [strip (Ascii.eqb c) s]. *)
Definition strip (drop : ascii -> bool) (s : string) : string :=
  rstrip drop (lstrip drop s).

End PyStr.

(** The terminal of a session: the world, the lines that [input] has still
    to read, and the prompts that [input] has shown.  What [print] writes is
    on [stdout] of the world. *)
Record Terminal := {
  world : World;
  stdin : list string;
  prompts : list string
}.

(** What a statement of [main] can raise: an exception of the methods, or
    the [EOFError] of [input]. *)
Inductive raised :=
| Raised (e : exn)
| EOFError.

(** [str(e)] *)
Definition str_of (r : raised) : string :=
  match r with
  | Raised e => exn_msg e
  | EOFError => "EOF when reading a line"
  end.

Definition Tty (A : Type) : Type := Terminal -> (raised + A) * Terminal.

#[global] Instance Tty_ret : MRet Tty := fun A a t => (inr a, t).
#[global] Instance Tty_bind : MBind Tty := fun A B k c t =>
  match c t with
  | (inr a, t') => k a t'
  | (inl r, t') => (inl r, t')
  end.

Definition throw {A} (r : raised) : Tty A := fun t => (inl r, t).

(** A method call in a session. *)
Definition lift {A} (c : Py A) : Tty A := fun t =>
  match c (world t) with
  | (r, w') =>
      (match r with inl e => inl (Raised e) | inr a => inr a end,
       {| world := w'; stdin := stdin t; prompts := prompts t |})
  end.

(** [input(prompt)]: the prompt is shown, then a line is read. *)
Definition input (prompt : string) : Tty string := fun t =>
  match stdin t with
  | [] =>
      (inl EOFError,
       {| world := world t; stdin := []; prompts := prompts t ++ [prompt] |})
  | line :: rest =>
      (inr line,
       {| world := world t; stdin := rest; prompts := prompts t ++ [prompt] |})
  end.

(** [try: body  except Exception as e: handler e] *)
Definition except_Exception {A} (body : Tty A) (handler : raised -> Tty A) : Tty A :=
  fun t => match body t with
           | (inl r, t') => handler r t'
           | res => res
           end.

Fixpoint print_all (lines : list string) : Py unit :=
  match lines with
  | [] => mret tt
  | line :: rest => print line;; print_all rest
  end.

Definition path_prompt : string := "Enter path to .dspreset file: ".
Definition path_error : string := "Error: Please enter a valid .dspreset file path".
Definition banner : list string :=
  ["Decent Sampler .dspreset Control Modifier";
   "----------------------------------------"].

Section Main.

Context {py : Builtins} {platform : Platform}.

(** [float(input(prompt))] *)
Definition float_input (prompt : string) : Tty float :=
  line ← input prompt;
  match py_float line with
  | inr x => mret x
  | inl msg => throw (Raised (Exn ValueError msg))
  end.

(** The loop [while True] that asks for the path: [None] is the [return]
    after "exit", [Some file_path] the [break].  A turn reads a line, so
    that [fuel] above the number of lines left is never used up. *)
Fixpoint path_loop (fuel : nat) : Tty (option string) :=
  line ← input path_prompt;
  let file_path := PyStr.strip (Ascii.eqb PyStr.quote) line in
  if String.eqb (PyStr.lower file_path) "exit" then mret None
  else
    there ← lift (os_path_exists file_path);
    if there && endswith file_path ".dspreset" then mret (Some file_path)
    else
      lift (print path_error);;
      match fuel with
      | O => throw EOFError
      | S fuel' => path_loop fuel'
      end.

(** The loop over [modifier.control_types_found.keys()]. *)
Fixpoint select_types (types selected_types : list string) : Tty (list string) :=
  match types with
  | [] => mret selected_types
  | control_type :: rest =>
      line ← input ("Modify controls of type '" ++ control_type ++ "'? (y/n): ");
      let choice := PyStr.lower (PyStr.strip PyStr.isspace line) in
      select_types rest
        (if String.eqb choice "y" then selected_types ++ [control_type]
         else selected_types)
  end.

Definition type_line (item : string * nat) : string :=
  ("- " ++ item.1 ++ ": " ++ pretty item.2 ++ " found")%string.

(** The body of [try] in [main]. *)
Definition session (file_path : string) : Tty unit :=
  modifier ← lift (_load_file file_path);
  lift (print (nl ++ "Available control types:"));;
  lift (print_all (type_line <$> control_types_found modifier));;
  lift (print (nl ++ "Select control types to modify:"));;
  selected_types ← select_types (fst <$> control_types_found modifier) [];
  match selected_types with
  | [] => lift (print "No control types selected for modification. Exiting.")
  | _ =>
      lift (print (nl ++ "Enter offset values (use negative values to decrease):"));;
      x_offset ← float_input "X offset (left/right): ";
      y_offset ← float_input "Y offset (up/down): ";
      width_offset ← float_input "Width change: ";
      height_offset ← float_input "Height change: ";
      let pre := modify_controls modifier selected_types
                   x_offset y_offset width_offset height_offset true in
      lift (print_all (m_printed pre));;
      if (found (m_stats pre) =? 0)%nat then
        lift (print (nl ++ "No controls found for the selected types."))
      else
        line ← input (nl ++ "Apply these changes? (y/n): ");
        if String.eqb (PyStr.lower line) "y" then
          let app := modify_controls (m_self pre) selected_types
                       x_offset y_offset width_offset height_offset false in
          lift (print_all (m_printed app));;
          lift (save (m_self app) None)
        else mret tt
  end.

Definition main : Tty unit :=
  lift (print_all banner);;
  file_path ← (fun t => path_loop (length (stdin t)) t);
  match file_path with
  | None => mret tt
  | Some file_path =>
      except_Exception (session file_path)
        (fun e => lift (print ("Error: " ++ str_of e)))
  end.

End Main.

(** *** Notions for the session *)

(** What the path loop makes of a line: the path between the quotes. *)
Definition path_answer (line : string) : string :=
  PyStr.strip (Ascii.eqb PyStr.quote) line.

Definition is_exit (line : string) : bool :=
  String.eqb (PyStr.lower (path_answer line)) "exit".

(** The line names a file that exists and has the extension. *)
Definition accepted (w : World) (line : string) : bool :=
  bool_decide (is_Some (files w !! path_answer line))
  && endswith (path_answer line) ".dspreset".

Definition rejected (w : World) (line : string) : bool :=
  negb (is_exit line) && negb (accepted w line).



(** A step of a session that writes no file and reads lines only from the
    front of the input. *)
Definition quiet (t t' : Terminal) : Prop :=
  files (world t') = files (world t)
  ∧ readonly (world t') = readonly (world t)
  ∧ stdin t' `suffix_of` stdin t.

(** The world after printing some lines. *)
Definition printed (w : World) (lines : list string) : World :=
  {| files := files w; readonly := readonly w; stdout := stdout w ++ lines |}.


(** *** Samples for the further properties *)

(** A platform that parses either empty preset to the empty layout. *)
Definition empty_platform (name : PyText.os_name) : Platform :=
  table_platform [(lf_bytes, root empty_self); (crlf_bytes, root empty_self)] name.

(** A preset that is not UTF-8. *)
Definition garbled_world : World := preset_world [Byte.xff].

(** The record of the knob "gain" of the sample layout, for given offsets. *)
Definition gain_change (dx dy dw dh : float) : Change :=
  {| c_id := "gain"; c_type := "knob";
     c_old := {| r_x := 10; r_y := 20; r_width := 30; r_height := 30 |};
     c_new := offset {| r_x := 10; r_y := 20; r_width := 30; r_height := 30 |}
                dx dy dw dh;
     c_element := [0; 0; 0] |}.

(** A terminal at the sample world with some lines typed ahead. *)
Definition demo_terminal (lines : list string) : Terminal :=
  {| world := demo_world; stdin := lines; prompts := [] |}.

(** A session that moves the knobs of the sample layout by 5 to the right
    and confirms. *)
Definition demo_lines : list string :=
  ["demo.dspreset"; "y"; "n"; "n"; "5"; "0"; "0"; "0"; "Y"; "left over"]%string.
(** * Properties *)

(** ** Dictionaries *)

Lemma dict_get_set_eq {V} k (v : V) d : dict_get k (dict_set k v d) = Some v.
Proof.
  induction d as [|[k' v'] d IH]; simpl.
  - by rewrite String.eqb_refl.
  - destruct (String.eqb_spec k' k) as [->|Hne]; simpl.
    + by rewrite String.eqb_refl.
    + by destruct (String.eqb_spec k' k).
Qed.

Lemma dict_get_set_ne {V} k k' (v : V) d :
  k ≠ k' → dict_get k' (dict_set k v d) = dict_get k' d.
Proof.
  intros Hne. induction d as [|[k0 v0] d IH]; simpl.
  - by destruct (String.eqb_spec k k').
  - destruct (String.eqb_spec k0 k) as [->|Hk]; simpl.
    + by destruct (String.eqb_spec k k').
    + by rewrite IH.
Qed.

(** ** The element tree *)

Lemma get_at_attrib e p k :
  get_at e p k = attrib_at e p ≫= dict_get k.
Proof. unfold get_at, attrib_at. by destruct (elem_at e p). Qed.

Lemma tag_set_at e p k v q :
  tag <$> elem_at (set_at e p k v) q = tag <$> elem_at e q.
Proof.
  revert e q. induction p as [|i p IH]; intros e q.
  - by destruct q.
  - simpl. destruct (children e !! i) as [c|] eqn:Hc; [|done].
    destruct q as [|j q]; [done|]. simpl.
    destruct (decide (i = j)) as [->|Hij].
    + rewrite list_lookup_insert_eq by (by eapply lookup_lt_Some).
      rewrite Hc. apply IH.
    + by rewrite list_lookup_insert_ne.
Qed.

Lemma attrib_set_at_eq e p k v :
  attrib_at (set_at e p k v) p = dict_set k v <$> attrib_at e p.
Proof.
  unfold attrib_at. revert e. induction p as [|i p IH]; intros e; [done|].
  simpl. destruct (children e !! i) as [c|] eqn:Hc; simpl.
  - rewrite list_lookup_insert_eq by (by eapply lookup_lt_Some). apply IH.
  - by rewrite Hc.
Qed.

Lemma attrib_set_at_ne e p k v q :
  p ≠ q → attrib_at (set_at e p k v) q = attrib_at e q.
Proof.
  unfold attrib_at. revert e q. induction p as [|i p IH]; intros e q Hpq.
  - by destruct q.
  - simpl. destruct (children e !! i) as [c|] eqn:Hc; [|done].
    destruct q as [|j q]; [done|]. simpl.
    destruct (decide (i = j)) as [->|Hij].
    + rewrite list_lookup_insert_eq by (by eapply lookup_lt_Some).
      rewrite Hc. apply IH. congruence.
    + by rewrite list_lookup_insert_ne.
Qed.

Lemma iter_children_insert below n cs i c c' :
  cs !! i = Some c → below c' = below c →
  iter_children below n (<[i := c']> cs) = iter_children below n cs.
Proof.
  revert n i. induction cs as [|c0 cs IH]; intros n i Hi Hb; [done|].
  destruct i as [|i]; simpl in *.
  - injection Hi as ->. by rewrite Hb.
  - do 2 f_equal. by apply IH.
Qed.

Lemma iter_below_set_at e p k v : iter_below (set_at e p k v) = iter_below e.
Proof.
  revert e. induction p as [|i p IH]; intros [t a tx tl cs]; [done|].
  simpl. destruct (cs !! i) as [c|] eqn:Hc; [|done].
  simpl. by apply iter_children_insert with c.
Qed.

Lemma findall_set_at t e p k v : findall t (set_at e p k v) = findall t e.
Proof.
  unfold findall. rewrite iter_below_set_at.
  apply list_filter_iff. intros q. unfold has_tag. by rewrite tag_set_at.
Qed.

(** The paths of [iter_children] start at a child and stay below it. *)
Lemma elem_of_iter_children below n cs p :
  p ∈ iter_children below n cs ↔
  ∃ i c p', p = (n + i) :: p' ∧ cs !! i = Some c ∧ (p' = [] ∨ p' ∈ below c).
Proof.
  revert n. induction cs as [|c cs IH]; intros n; simpl.
  - rewrite elem_of_nil. split; [done|]. by intros (i & c & p' & _ & ? & _).
  - rewrite elem_of_cons, elem_of_app, list_elem_of_fmap, IH. split.
    + intros [->|[(p' & -> & Hp')|(i & c' & p' & -> & Hi & Hp')]].
      * exists 0, c, []. rewrite Nat.add_0_r. auto.
      * exists 0, c, p'. rewrite Nat.add_0_r. auto.
      * exists (S i), c', p'. split; [f_equal; lia|]. auto.
    + intros (i & c' & p' & -> & Hi & Hp'). destruct i as [|i]; simpl in Hi.
      * injection Hi as ->. rewrite Nat.add_0_r.
        destruct Hp' as [->|Hp']; [by left|]. right. left. by exists p'.
      * right. right. exists i, c', p'. split; [f_equal; lia|]. auto.
Qed.

(** [iter_below] lists the references to the elements below the root. *)
Lemma elem_of_iter_below e p :
  p ∈ iter_below e ↔ p ≠ [] ∧ is_Some (elem_at e p).
Proof.
  revert p. induction e as [t a tx tl cs IH] using Element_ind. intros p. simpl.
  rewrite elem_of_iter_children. split.
  - intros (i & c & p' & -> & Hi & Hp'). split; [done|]. simpl. rewrite Hi.
    destruct Hp' as [->|Hp']; [by eexists|].
    rewrite Forall_forall in IH.
    by apply (IH c (list_elem_of_lookup_2 _ _ _ Hi)).
  - intros [Hne Hp]. destruct p as [|i p']; [done|]. simpl in Hp.
    destruct (cs !! i) as [c|] eqn:Hi; [|by destruct Hp].
    exists i, c, p'. split; [done|]. split; [done|].
    destruct p' as [|j p'']; [by left|]. right.
    rewrite Forall_forall in IH.
    by apply (IH c (list_elem_of_lookup_2 _ _ _ Hi)).
Qed.

Lemma NoDup_iter_children n cs :
  Forall (λ c, NoDup (iter_below c)) cs →
  NoDup (iter_children iter_below n cs).
Proof.
  revert n. induction cs as [|c cs IH]; intros n Hcs; simpl.
  - constructor.
  - apply Forall_cons in Hcs as [Hc Hcs].
    assert (Hlater : ∀ q, n :: q ∉ iter_children iter_below (S n) cs).
    { intros q (i & c' & p' & Heq & _)%elem_of_iter_children.
      injection Heq as Heq _. lia. }
    apply NoDup_cons. split.
    + rewrite elem_of_app, list_elem_of_fmap.
      intros [(p' & Heq & Hp')|Hin]; [|by eapply Hlater].
      injection Heq as <-. by apply elem_of_iter_below in Hp' as [? _].
    + apply NoDup_app. split; [|split].
      * apply NoDup_fmap_2; [|done]. by intros ?? [=].
      * intros p (p' & -> & _)%list_elem_of_fmap. apply Hlater.
      * by apply IH.
Qed.

Lemma NoDup_iter_below e : NoDup (iter_below e).
Proof.
  induction e as [t a tx tl cs IH] using Element_ind. simpl.
  by apply NoDup_iter_children.
Qed.

Lemma NoDup_findall t e : NoDup (findall t e).
Proof. apply NoDup_filter, NoDup_iter_below. Qed.

Lemma elem_of_findall t e p :
  p ∈ findall t e ↔ p ≠ [] ∧ has_tag t e p.
Proof.
  unfold findall. rewrite list_elem_of_filter, elem_of_iter_below.
  unfold has_tag. split; [by intros (? & ? & _)|].
  intros [? Ht]. split; [done|]. split; [done|].
  by destruct (elem_at e p).
Qed.

(** Counting the matches below the children of one element. *)
Lemma length_filter_fmap {A B} (f : A → B) (P : B → Prop)
    `{∀ b, Decision (P b)} (l : list A) :
  length (filter P (f <$> l)) = length (filter (P ∘ f) l).
Proof.
  induction l as [|a l IH]; [done|]. rewrite fmap_cons, !filter_cons. simpl.
  destruct (decide (P (f a))); simpl; by rewrite IH.
Qed.

Lemma length_findall_children t t' a tx tl pre cs :
  Forall (λ c, length (findall t c) + (if String.eqb (tag c) t then 1 else 0)
               = count_tag t c) cs →
  length (filter (has_tag t (mkElement t' a tx tl (pre ++ cs)))
            (iter_children iter_below (length pre) cs))
  = sum_list_with (count_tag t) cs.
Proof.
  revert pre. induction cs as [|c cs IH]; intros pre Hcs; [done|].
  apply Forall_cons in Hcs as [Hc Hcs]. simpl.
  assert (Hhere : ∀ q, has_tag t (mkElement t' a tx tl (pre ++ c :: cs)) (length pre :: q)
                       ↔ has_tag t c q).
  { intros q. unfold has_tag. simpl.
    by rewrite lookup_app_r, Nat.sub_diag by lia. }
  specialize (IH (pre ++ [c])). rewrite <-app_assoc, length_app in IH.
  simpl in IH. rewrite Nat.add_1_r in IH. rewrite <-Hc.
  assert (Hrest :
    length (filter (has_tag t (mkElement t' a tx tl (pre ++ c :: cs)))
              ((cons (length pre) <$> iter_below c) ++
               iter_children iter_below (S (length pre)) cs))
    = length (findall t c) + sum_list_with (count_tag t) cs).
  { rewrite filter_app, length_app, length_filter_fmap, IH by done.
    unfold findall.
    by rewrite (list_filter_iff _ (has_tag t c)) by (intros q; apply Hhere). }
  rewrite filter_cons.
  case_decide as Ht;
    rewrite ?length_cons, Hrest; rewrite Hhere in Ht;
    unfold has_tag in Ht; simpl in Ht.
  - injection Ht as ->. rewrite String.eqb_refl. lia.
  - destruct (String.eqb_spec (tag c) t) as [Heq|_]; [by rewrite Heq in Ht|lia].
Qed.

(** [findall] returns as many references as the tree has elements with that
    tag below its root. *)
Lemma length_findall t e :
  length (findall t e) + (if String.eqb (tag e) t then 1 else 0) = count_tag t e.
Proof.
  induction e as [t' a tx tl cs IH] using Element_ind. simpl.
  pose proof (length_findall_children t t' a tx tl [] cs IH) as H. simpl in H.
  unfold findall. simpl. rewrite H. lia.
Qed.

(** ** The transformer *)

Section Transformer.

Context {py : Builtins}.

Lemma change_at_element rt sel dx dy dw dh p c :
  change_at rt sel dx dy dw dh p = Some c → c_element c = p.
Proof.
  unfold change_at. intros H.
  destruct (elem_at rt p); [|done].
  destruct (type_in _ _); [|done].
  destruct (read_rect _); [done|]. by injection H as <-.
Qed.

Lemma change_at_Some rt sel dx dy dw dh p :
  is_Some (change_at rt sel dx dy dw dh p) ↔ changed_at rt sel p.
Proof.
  unfold change_at, changed_at, matched, rect_at.
  destruct (elem_at rt p) as [control|]; simpl; [|by split; [intros []|]].
  destruct (type_in _ _); simpl; [|by split; [intros []|]].
  destruct (read_rect _); simpl.
  - split; [by intros []|done].
  - split; [done|by eexists].
Qed.

Lemma change_at_None rt sel dx dy dw dh p :
  change_at rt sel dx dy dw dh p = None ↔ ¬ changed_at rt sel p.
Proof. rewrite <-change_at_Some, eq_None_not_Some. done. Qed.

(** The loop over the controls, turn by turn. *)
Lemma scan_fold rt sel dx dy dw dh l acc :
  let r := fold_left (scan_control rt sel dx dy dw dh) l acc in
  s_found r = s_found acc + length (filter (matched rt sel) l)
  ∧ s_skipped r = s_skipped acc + length (filter (skipped_at rt sel) l)
  ∧ s_changes r = s_changes acc ++ omap (change_at rt sel dx dy dw dh) l.
Proof.
  revert acc. induction l as [|p l IH]; intros acc; simpl.
  - rewrite !Nat.add_0_r, app_nil_r. done.
  - destruct (IH (scan_control rt sel dx dy dw dh acc p)) as (Hf & Hs & Hc).
    rewrite Hf, Hs, Hc. clear IH Hf Hs Hc.
    rewrite !filter_cons. simpl omap.
    set (nf := filter (matched rt sel) l).
    set (ns := filter (skipped_at rt sel) l).
    set (cs := omap _ l).
    unfold scan_control, skipped_at, change_at, matched, rect_at.
    destruct (elem_at rt p) as [control|]; simpl; [|done].
    destruct (type_in _ _); simpl; [|done].
    destruct (read_rect _); simpl.
    + repeat split; lia.
    + rewrite <-app_assoc. repeat split; lia.
Qed.

Lemma apply_step_fold cs rt n :
  fold_left apply_step cs (rt, n) = (fold_left apply_change cs rt, n + length cs).
Proof.
  revert rt n. induction cs as [|c cs IH]; intros rt n; simpl.
  - by rewrite Nat.add_0_r.
  - unfold apply_step at 2. simpl. rewrite IH. f_equal. lia.
Qed.

(** What a call returns and leaves, in closed form. *)
Lemma modify_changes self sel dx dy dw dh preview :
  m_changes (modify_controls self sel dx dy dw dh preview)
  = omap (change_at (root self) sel dx dy dw dh) (ui_controls self).
Proof.
  unfold modify_controls.
  pose proof (scan_fold (root self) sel dx dy dw dh (ui_controls self)
    {| s_found := 0; s_skipped := 0; s_changes := []; s_printed := [] |})
    as (_ & _ & Hc). simpl in Hc.
  destruct (if _ : bool then _ else _) as [rt n]. simpl. apply Hc.
Qed.

Lemma modify_found self sel dx dy dw dh preview :
  found (m_stats (modify_controls self sel dx dy dw dh preview))
  = length (filter (matched (root self) sel) (ui_controls self)).
Proof.
  unfold modify_controls.
  pose proof (scan_fold (root self) sel dx dy dw dh (ui_controls self)
    {| s_found := 0; s_skipped := 0; s_changes := []; s_printed := [] |})
    as (Hf & _ & _). simpl in Hf.
  destruct (if _ : bool then _ else _) as [rt n]. simpl. apply Hf.
Qed.

Lemma modify_skipped self sel dx dy dw dh preview :
  skipped (m_stats (modify_controls self sel dx dy dw dh preview))
  = length (filter (skipped_at (root self) sel) (ui_controls self)).
Proof.
  unfold modify_controls.
  pose proof (scan_fold (root self) sel dx dy dw dh (ui_controls self)
    {| s_found := 0; s_skipped := 0; s_changes := []; s_printed := [] |})
    as (_ & Hs & _). simpl in Hs.
  destruct (if _ : bool then _ else _) as [rt n]. simpl. apply Hs.
Qed.

Lemma modify_apply self sel dx dy dw dh preview :
  let r := modify_controls self sel dx dy dw dh preview in
  root (m_self r)
  = (if preview then root self
     else fold_left apply_change (m_changes r) (root self))
  ∧ modified (m_stats r) = (if preview then 0 else length (m_changes r))
  ∧ file_path (m_self r) = file_path self
  ∧ ui_controls (m_self r) = ui_controls self
  ∧ control_types_found (m_self r) = control_types_found self.
Proof.
  unfold modify_controls.
  set (scan := fold_left _ _ _).
  destruct preview; simpl; [done|].
  case_bool_decide as Hnil; simpl.
  - by rewrite Hnil.
  - by rewrite apply_step_fold.
Qed.

(** *** Writing the changes *)

Lemma attrib_apply_change_ne rt c q :
  c_element c ≠ q → attrib_at (apply_change rt c) q = attrib_at rt q.
Proof. intros Hne. unfold apply_change. by rewrite !attrib_set_at_ne. Qed.

Lemma attrib_apply_change_eq rt c :
  attrib_at (apply_change rt c) (c_element c)
  = set_rect (c_new c) <$> attrib_at rt (c_element c).
Proof.
  unfold apply_change, set_rect. rewrite !attrib_set_at_eq.
  by destruct (attrib_at rt (c_element c)).
Qed.

Lemma tag_apply_change rt c q :
  tag <$> elem_at (apply_change rt c) q = tag <$> elem_at rt q.
Proof. unfold apply_change. by rewrite !tag_set_at. Qed.

Lemma findall_apply_changes t cs rt :
  findall t (fold_left apply_change cs rt) = findall t rt.
Proof.
  revert rt. induction cs as [|c cs IH]; intros rt; [done|]. simpl.
  rewrite IH. unfold apply_change. by rewrite !findall_set_at.
Qed.

Lemma tag_apply_changes cs rt q :
  tag <$> elem_at (fold_left apply_change cs rt) q = tag <$> elem_at rt q.
Proof.
  revert rt. induction cs as [|c cs IH]; intros rt; [done|]. simpl.
  by rewrite IH, tag_apply_change.
Qed.

Lemma attrib_apply_changes_notin cs rt q :
  q ∉ c_element <$> cs →
  attrib_at (fold_left apply_change cs rt) q = attrib_at rt q.
Proof.
  revert rt. induction cs as [|c cs IH]; intros rt Hq; [done|]. simpl.
  rewrite fmap_cons, not_elem_of_cons in Hq. destruct Hq as [Hne Hq].
  rewrite IH by done. by apply attrib_apply_change_ne.
Qed.

Lemma attrib_apply_changes_in cs rt c :
  NoDup (c_element <$> cs) → c ∈ cs →
  attrib_at (fold_left apply_change cs rt) (c_element c)
  = set_rect (c_new c) <$> attrib_at rt (c_element c).
Proof.
  revert rt. induction cs as [|c0 cs IH]; intros rt Hnd Hc.
  - by apply elem_of_nil in Hc.
  - rewrite fmap_cons, NoDup_cons in Hnd. destruct Hnd as [Hc0 Hnd].
    simpl. apply elem_of_cons in Hc as [->|Hc].
    + rewrite attrib_apply_changes_notin by done.
      apply attrib_apply_change_eq.
    + rewrite IH by done. f_equal. apply attrib_apply_change_ne.
      intros Heq. apply Hc0. rewrite Heq. by apply list_elem_of_fmap_2.
Qed.

(** The change records refer to the controls that are found and convert,
    in the order of the list. *)
Lemma changes_elements rt sel dx dy dw dh (l : list path) :
  c_element <$> omap (change_at rt sel dx dy dw dh) l
  = filter (changed_at rt sel) l.
Proof.
  induction l as [|p l IH]; [done|]. rewrite filter_cons.
  change (omap ?f (p :: l)) with
    (match f p with Some c => c :: omap f l | None => omap f l end).
  destruct (change_at rt sel dx dy dw dh p) as [c|] eqn:Hc.
  - rewrite decide_True by (apply (change_at_Some rt sel dx dy dw dh); by eexists).
    rewrite fmap_cons, IH. f_equal. by eapply change_at_element.
  - apply change_at_None in Hc. by rewrite decide_False.
Qed.

Lemma loaded_NoDup self : loaded self → NoDup (ui_controls self).
Proof. intros ->. apply NoDup_findall. Qed.

(** A call keeps the tags and the shape of the tree, hence the list of
    controls. *)
Lemma modify_tag self sel dx dy dw dh preview q :
  tag <$> elem_at (root (m_self (modify_controls self sel dx dy dw dh preview))) q
  = tag <$> elem_at (root self) q.
Proof.
  destruct (modify_apply self sel dx dy dw dh preview) as (-> & _).
  destruct preview; [done|]. apply tag_apply_changes.
Qed.

Lemma modify_loaded self sel dx dy dw dh preview :
  loaded self → loaded (m_self (modify_controls self sel dx dy dw dh preview)).
Proof.
  unfold loaded.
  destruct (modify_apply self sel dx dy dw dh preview) as (-> & _ & _ & -> & _).
  intros ->. destruct preview; [done|]. by rewrite findall_apply_changes.
Qed.

(** A control without a change record keeps all its attributes. *)
Lemma modify_attrib_kept self sel dx dy dw dh preview p :
  ¬ changed_at (root self) sel p →
  attrib_at (root (m_self (modify_controls self sel dx dy dw dh preview))) p
  = attrib_at (root self) p.
Proof.
  intros Hp. destruct (modify_apply self sel dx dy dw dh preview) as (-> & _).
  destruct preview; [done|]. apply attrib_apply_changes_notin.
  rewrite modify_changes, changes_elements, list_elem_of_filter. tauto.
Qed.

(** A control with a change record carries its new values after an apply
    pass. *)
Lemma modify_attrib_changed self sel dx dy dw dh p control old :
  NoDup (ui_controls self) → p ∈ ui_controls self →
  elem_at (root self) p = Some control →
  type_in (dict_get "type" (attrib control)) sel = true →
  read_rect control = inr old →
  attrib_at (root (m_self (modify_controls self sel dx dy dw dh false))) p
  = Some (set_rect (offset old dx dy dw dh) (attrib control)).
Proof.
  intros Hnd Hp Hel Hty Hrd.
  destruct (modify_apply self sel dx dy dw dh false) as (-> & _).
  rewrite modify_changes.
  assert (Hc : change_at (root self) sel dx dy dw dh p = Some
    {| c_id := default (default "unnamed" (dict_get "label" (attrib control)))
                       (dict_get "id" (attrib control));
       c_type := default EmptyString (dict_get "type" (attrib control));
       c_old := old; c_new := offset old dx dy dw dh; c_element := p |}).
  { unfold change_at. by rewrite Hel, Hty, Hrd. }
  set (c := {| c_element := p |}) in Hc.
  pose proof (attrib_apply_changes_in
    (omap (change_at (root self) sel dx dy dw dh) (ui_controls self))
    (root self) c) as Hin.
  simpl in Hin. rewrite Hin.
  - unfold attrib_at. by rewrite Hel.
  - rewrite changes_elements. by apply NoDup_filter.
  - apply list_elem_of_omap. by exists p.
Qed.

Lemma modify_report self sel dx dy dw dh preview :
  let r := modify_controls self sel dx dy dw dh preview in
  m_report r = _print_changes (m_changes r) preview.
Proof.
  unfold modify_controls.
  by destruct (if _ : bool then _ else _) as [rt n].
Qed.

Lemma type_in_Some t sel : type_in (Some t) sel = true ↔ t ∈ sel.
Proof.
  simpl. rewrite existsb_exists. split.
  - intros (t' & Hin & ->%String.eqb_eq). by apply list_elem_of_In.
  - intros Hin. exists t. split; [by apply list_elem_of_In|apply String.eqb_refl].
Qed.

Lemma matched_get_type rt sel p :
  matched rt sel p = type_in (get_at rt p "type") sel.
Proof. unfold matched, get_at. by destruct (elem_at rt p). Qed.

Lemma filter_ext_in {A} (P Q : A → Prop) `{∀ a, Decision (P a)}
    `{∀ a, Decision (Q a)} (l : list A) :
  (∀ a, a ∈ l → P a ↔ Q a) → filter P l = filter Q l.
Proof.
  induction l as [|b l IH]; intros Hext; [done|]. rewrite !filter_cons.
  rewrite IH by (intros a Ha; apply Hext; by right).
  destruct (decide (P b)) as [HP|HP].
  - by rewrite decide_True by (by apply Hext; [left|]).
  - rewrite decide_False; [done|]. intros HQ. apply HP. by apply Hext; [left|].
Qed.

(** One member of a duplicate-free list counts once. *)
Lemma length_filter_split {A} `{EqDecision A} (P : A → Prop)
    `{∀ a, Decision (P a)} (l : list A) (a : A) :
  NoDup l → a ∈ l → P a →
  length (filter P l) = 1 + length (filter (λ b, b ≠ a ∧ P b) l).
Proof.
  intros Hnd Ha HP. induction Hnd as [|b l Hb Hnd IH].
  - by apply elem_of_nil in Ha.
  - rewrite !filter_cons. apply elem_of_cons in Ha as [->|Ha].
    + rewrite decide_True, decide_False by tauto. simpl. do 2 f_equal.
      apply filter_ext_in. intros c Hc. split; [|tauto].
      intros HPc. split; [|done]. by intros ->.
    + assert (b ≠ a) by (by intros ->).
      destruct (decide (P b)).
      * rewrite decide_True by tauto. simpl. rewrite IH by done. lia.
      * rewrite decide_False by tauto. by apply IH.
Qed.

Lemma set_rect_get (new_vals : Rect) a :
  dict_get "x" (set_rect new_vals a) = Some (py_str (r_x new_vals))
  ∧ dict_get "y" (set_rect new_vals a) = Some (py_str (r_y new_vals))
  ∧ dict_get "width" (set_rect new_vals a) = Some (py_str (r_width new_vals))
  ∧ dict_get "height" (set_rect new_vals a) = Some (py_str (r_height new_vals)).
Proof.
  unfold set_rect. repeat split;
    by rewrite ?dict_get_set_ne, dict_get_set_eq by done.
Qed.

Lemma set_rect_get_other (new_vals : Rect) a k :
  k ≠ "x" → k ≠ "y" → k ≠ "width" → k ≠ "height" →
  dict_get k (set_rect new_vals a) = dict_get k a.
Proof. intros. unfold set_rect. by rewrite !dict_get_set_ne. Qed.

(** A control that is not matched plays no part in a call. *)
Lemma unmatched_untouched self sel dx dy dw dh preview p :
  matched (root self) sel p = false →
  let r := modify_controls self sel dx dy dw dh preview in
  found (m_stats r)
    = length (filter (λ q, q ≠ p ∧ matched (root self) sel q) (ui_controls self))
  ∧ modified (m_stats r) = (if preview then 0 else length (m_changes r))
  ∧ (∀ c, c ∈ m_changes r → c_element c ≠ p)
  ∧ m_report r = _print_changes (m_changes r) preview
  ∧ attrib_at (root (m_self r)) p = attrib_at (root self) p.
Proof.
  intros Hp r. subst r.
  assert (Hnot : ¬ changed_at (root self) sel p).
  { unfold changed_at. rewrite Hp. simpl. by intros []. }
  split; [|split; [|split; [|split]]].
  - rewrite modify_found. f_equal. apply list_filter_iff. intros q.
    split; [|tauto]. intros Hq. split; [|done]. intros ->.
    by rewrite Hp in Hq.
  - by destruct (modify_apply self sel dx dy dw dh preview) as (_ & -> & _).
  - intros c Hc Heq. rewrite modify_changes in Hc.
    apply list_elem_of_omap in Hc as (q & _ & Hq).
    pose proof (change_at_element _ _ _ _ _ _ _ _ Hq) as Hel.
    apply Hnot. rewrite <-Heq, Hel.
    apply (change_at_Some (root self) sel dx dy dw dh). by eexists.
  - apply modify_report.
  - by apply modify_attrib_kept.
Qed.

(** C1: a call with [preview=True] leaves the object, and with it every
    attribute of every element, as it was and counts nothing as modified; the
    call with [preview=False] and the same arguments that follows builds the
    same change records, that is the same old and new x, y, width and height
    for the same controls, finds and skips the same number of controls, and
    writes those records to the document. *)
Theorem preview_then_apply self sel dx dy dw dh :
  let pre := modify_controls self sel dx dy dw dh true in
  let app := modify_controls (m_self pre) sel dx dy dw dh false in
  m_self pre = self
  ∧ modified (m_stats pre) = 0
  ∧ m_changes app = m_changes pre
  ∧ found (m_stats app) = found (m_stats pre)
  ∧ skipped (m_stats app) = skipped (m_stats pre)
  ∧ root (m_self app) = fold_left apply_change (m_changes pre) (root self).
Proof.
  intros pre app.
  destruct (modify_apply self sel dx dy dw dh true) as (Hr & Hm & Hf & Hu & Hc).
  fold pre in Hr, Hm, Hf, Hu, Hc.
  assert (Hself : m_self pre = self).
  { destruct (m_self pre), self. simpl in *. by subst. }
  split; [done|]. split; [done|].
  subst app. rewrite Hself.
  destruct (modify_apply self sel dx dy dw dh false) as (-> & _).
  subst pre.
  by rewrite !modify_changes, !modify_found, !modify_skipped.
Qed.

(** C7: a control whose type is not a member of [selected_types] is not
    counted in [found] (which counts the matched controls other than it), has
    no change record, so that it is neither counted in [modified] (one per
    change record in apply mode, none in preview mode) nor listed in the
    report (which prints the change records), and keeps all its attributes, in
    either mode. *)
Theorem unselected_never_touched self sel dx dy dw dh preview p t :
  get_at (root self) p "type" = Some t → t ∉ sel →
  let r := modify_controls self sel dx dy dw dh preview in
  found (m_stats r)
    = length (filter (λ q, q ≠ p ∧ matched (root self) sel q) (ui_controls self))
  ∧ modified (m_stats r) = (if preview then 0 else length (m_changes r))
  ∧ (∀ c, c ∈ m_changes r → c_element c ≠ p)
  ∧ m_report r = _print_changes (m_changes r) preview
  ∧ attrib_at (root (m_self r)) p = attrib_at (root self) p.
Proof.
  intros Hty Hsel. apply unmatched_untouched.
  rewrite matched_get_type, Hty. apply not_true_is_false.
  by rewrite type_in_Some.
Qed.

Lemma read_rect_width_fails control w msg :
  dict_get "width" (attrib control) = Some w → py_float w = inl msg →
  ∃ e, read_rect control = inl e.
Proof.
  intros Hw Hf. unfold read_rect.
  destruct (float_attr control "x"); [by eexists|].
  destruct (float_attr control "y"); [by eexists|].
  unfold float_attr at 1. rewrite Hw, Hf. by eexists.
Qed.

(** C3: in apply mode a matched control whose width does not convert adds
    exactly one to [skipped] (the count is one more than that of the other
    skipped controls) and keeps all its attributes, while the call goes on:
    every other control that is matched and converts is rewritten with its new
    values and counted in [modified]. *)
Theorem nonnumeric_width_skipped self sel dx dy dw dh p t w msg :
  loaded self → p ∈ ui_controls self →
  get_at (root self) p "type" = Some t → t ∈ sel →
  get_at (root self) p "width" = Some w → py_float w = inl msg →
  let r := modify_controls self sel dx dy dw dh false in
  skipped (m_stats r)
    = 1 + length (filter (λ q, q ≠ p ∧ skipped_at (root self) sel q)
                    (ui_controls self))
  ∧ attrib_at (root (m_self r)) p = attrib_at (root self) p
  ∧ (∀ q control old,
       q ∈ ui_controls self → elem_at (root self) q = Some control →
       type_in (dict_get "type" (attrib control)) sel = true →
       read_rect control = inr old →
       attrib_at (root (m_self r)) q
       = Some (set_rect (offset old dx dy dw dh) (attrib control)))
  ∧ modified (m_stats r)
    = length (filter (changed_at (root self) sel) (ui_controls self)).
Proof.
  intros Hld Hp Hty Hsel Hw Hf r. subst r.
  pose proof (loaded_NoDup _ Hld) as Hnd.
  assert (Hrect : matched (root self) sel p = true ∧ rect_at (root self) p = None).
  { rewrite matched_get_type, Hty, type_in_Some. split; [done|].
    unfold rect_at, get_at in *. destruct (elem_at (root self) p) as [control|];
      [|done].
    by destruct (read_rect_width_fails control w msg Hw Hf) as [e ->]. }
  destruct Hrect as [Hm Hr].
  split; [|split; [|split]].
  - rewrite modify_skipped. apply length_filter_split; [done..|].
    unfold skipped_at. rewrite Hm, Hr. by rewrite bool_decide_eq_true_2.
  - apply modify_attrib_kept. unfold changed_at. rewrite Hm, Hr. simpl.
    tauto.
  - intros q control old Hq Hel Hsq Hrd. by apply modify_attrib_changed.
  - destruct (modify_apply self sel dx dy dw dh false) as (_ & -> & _).
    by rewrite modify_changes, <-(changes_elements _ _ dx dy dw dh), length_fmap.
Qed.

Lemma read_rect_inr control old :
  read_rect control = inr old ↔
  float_attr control "x" = inr (r_x old)
  ∧ float_attr control "y" = inr (r_y old)
  ∧ float_attr control "width" = inr (r_width old)
  ∧ float_attr control "height" = inr (r_height old).
Proof.
  unfold read_rect. split.
  - intros Hrd.
    destruct (float_attr control "x"); [done|].
    destruct (float_attr control "y"); [done|].
    destruct (float_attr control "width"); [done|].
    destruct (float_attr control "height"); [done|].
    by injection Hrd as <-.
  - intros (-> & -> & -> & ->). by destruct old.
Qed.

Lemma float_attr_absent control k v :
  dict_get k (attrib control) = None → float_attr control k = inr v →
  v = 0%float.
Proof. unfold float_attr. intros ->. by intros [= <-]. Qed.

(** C10: after an apply pass a control that is matched and converts carries
    the four attributes x, y, width and height, each the [str] of a float: its
    old value (0.0 for an attribute that was absent) plus the offset, a zero
    offset included. Its other attributes are as before. *)
Theorem apply_overwrites_all_four self sel dx dy dw dh p control old :
  loaded self → p ∈ ui_controls self →
  elem_at (root self) p = Some control →
  type_in (dict_get "type" (attrib control)) sel = true →
  read_rect control = inr old →
  let rt' := root (m_self (modify_controls self sel dx dy dw dh false)) in
  get_at rt' p "x" = Some (py_str (r_x old + dx))
  ∧ get_at rt' p "y" = Some (py_str (r_y old + dy))
  ∧ get_at rt' p "width" = Some (py_str (r_width old + dw))
  ∧ get_at rt' p "height" = Some (py_str (r_height old + dh))
  ∧ (dict_get "x" (attrib control) = None → r_x old = 0%float)
  ∧ (dict_get "y" (attrib control) = None → r_y old = 0%float)
  ∧ (dict_get "width" (attrib control) = None → r_width old = 0%float)
  ∧ (dict_get "height" (attrib control) = None → r_height old = 0%float)
  ∧ (∀ k, k ≠ "x" → k ≠ "y" → k ≠ "width" → k ≠ "height" →
          get_at rt' p k = dict_get k (attrib control)).
Proof.
  intros Hld Hp Hel Hty Hrd rt'.
  pose proof (modify_attrib_changed self sel dx dy dw dh p control old
    (loaded_NoDup _ Hld) Hp Hel Hty Hrd) as Hat. fold rt' in Hat.
  destruct (set_rect_get (offset old dx dy dw dh) (attrib control))
    as (Hx & Hy & Hw & Hh).
  rewrite !get_at_attrib, Hat. simpl.
  split; [done|]. split; [done|]. split; [done|]. split; [done|].
  apply read_rect_inr in Hrd as (Hfx & Hfy & Hfw & Hfh).
  split; [intros Hk; by eapply float_attr_absent|].
  split; [intros Hk; by eapply float_attr_absent|].
  split; [intros Hk; by eapply float_attr_absent|].
  split; [intros Hk; by eapply float_attr_absent|].
  intros k ????. rewrite get_at_attrib, Hat. simpl.
  by apply set_rect_get_other.
Qed.

Lemma read_rect_set_rect control r a :
  attrib control = set_rect r a → reads_back r → read_rect control = inr r.
Proof.
  intros Ha (Hx & Hy & Hw & Hh).
  destruct (set_rect_get r a) as (Gx & Gy & Gw & Gh).
  apply read_rect_inr. unfold float_attr. rewrite Ha, Gx, Gy, Gw, Gh. done.
Qed.


End Transformer.

(** ** The loader *)

Lemma dict_get_set {V} k k' (v : V) d :
  dict_get k' (dict_set k v d) = if String.eqb k k' then Some v else dict_get k' d.
Proof.
  destruct (String.eqb_spec k k') as [->|Hne].
  - apply dict_get_set_eq.
  - by apply dict_get_set_ne.
Qed.

Lemma total_count_set k v d :
  total_count (dict_set k v d) + default 0 (dict_get k d) = total_count d + v.
Proof.
  unfold total_count. induction d as [|[k' v'] d IH]; simpl; [lia|].
  destruct (String.eqb_spec k' k); simpl; lia.
Qed.

Section Loader.

Context {platform : Platform}.

Lemma count_type_valid rt d p control :
  elem_at rt p = Some control →
  count_type rt d p
  = dict_set (type_key rt p) (default 0 (dict_get (type_key rt p) d) + 1) d.
Proof. unfold count_type, type_key, get_at. by intros ->. Qed.

Lemma total_count_types rt l d :
  Forall (λ p, is_Some (elem_at rt p)) l →
  total_count (fold_left (count_type rt) l d) = total_count d + length l.
Proof.
  intros Hl. revert d. induction Hl as [|p l [control Hp] _ IH]; intros d; simpl.
  - lia.
  - rewrite IH, (count_type_valid _ _ _ _ Hp).
    pose proof (total_count_set (type_key rt p)
      (default 0 (dict_get (type_key rt p) d) + 1) d). lia.
Qed.

Lemma dict_get_count_types rt l d k :
  Forall (λ p, is_Some (elem_at rt p)) l →
  dict_get k (fold_left (count_type rt) l d)
  = bump (dict_get k d) (length (filter (λ q, type_key rt q = k) l)).
Proof.
  intros Hl. revert d. induction Hl as [|p l [control Hp] _ IH]; intros d; [done|].
  simpl. rewrite IH, (count_type_valid _ _ _ _ Hp), dict_get_set, filter_cons.
  destruct (String.eqb_spec (type_key rt p) k) as [Hk|Hk].
  - rewrite decide_True by done. rewrite Hk. simpl.
    destruct (length _); simpl; f_equal; lia.
  - by rewrite decide_False.
Qed.

Lemma findall_valid t e : Forall (λ p, is_Some (elem_at e p)) (findall t e).
Proof.
  apply Forall_forall. intros p [_ Ht]%elem_of_findall.
  unfold has_tag in Ht. by destruct (elem_at e p).
Qed.

(** [_load_file] in closed form. *)
Lemma load_run path w :
  _load_file path w =
  if negb (endswith path ".dspreset") then
    (inl (Exn ValueError "File must have .dspreset extension"), w)
  else
    match files w !! path with
    | None => (inl (Exn FileNotFoundError ("File not found: " ++ path)), w)
    | Some bs =>
        match ET_parse bs with
        | inl msg =>
            (inl (Exn ValueError
               ("Invalid XML format in " ++ path ++ ": " ++ msg)), w)
        | inr rt =>
            if negb (String.eqb (tag rt) "DecentSampler") then (inl StructureError, w)
            else
              (inr {| file_path := path; root := rt;
                      ui_controls := findall "control" rt;
                      control_types_found :=
                        fold_left (count_type rt) (findall "control" rt) [] |},
               match findall "control" rt with
               | [] => {| files := files w; readonly := readonly w;
                          stdout := stdout w ++
                            ["Warning: No control elements found in the preset"] |}
               | _ => w
               end)
        end
    end.
Proof.
  unfold _load_file, ET_parse_file.
  destruct (negb (endswith path ".dspreset")); [done|].
  unfold mbind, Py_bind, bind, os_path_exists, try_except, read_bytes.
  destruct (files w !! path) as [bs|] eqn:Hfile.
  - rewrite bool_decide_eq_true_2 by (by eexists). simpl.
    rewrite Hfile. simpl.
    destruct (ET_parse bs) as [msg|rt]; [done|]. simpl.
    destruct (negb (String.eqb (tag rt) "DecentSampler")); [done|].
    by destruct (findall "control" rt).
  - rewrite bool_decide_eq_false_2 by (by intros []). done.
Qed.

(** What [_load_file] returns when it returns. *)
Lemma load_inv path w self w' :
  _load_file path w = (inr self, w') →
  loaded self
  ∧ control_types_found self
    = fold_left (count_type (root self)) (ui_controls self) [].
Proof.
  rewrite load_run.
  destruct (negb (endswith path ".dspreset")); [done|].
  destruct (files w !! path) as [bs|]; [|done].
  destruct (ET_parse bs) as [msg|rt]; [done|].
  destruct (negb (String.eqb (tag rt) "DecentSampler")); [done|].
  by intros [= <- _].
Qed.

(** C5: for a path that ends in ".dspreset" and names a file that parses, a
    root tag other than "DecentSampler" makes loading fail with the
    [ValueError] of the structure check, whatever else the document holds;
    nothing is printed or written. *)
Theorem wrong_root_fails path w content doc :
  endswith path ".dspreset" = true →
  files w !! path = Some content →
  ET_parse content = inr doc →
  tag doc ≠ "DecentSampler" →
  _load_file path w = (inl StructureError, w).
Proof.
  intros Hext Hfile Hparse Htag.
  rewrite load_run, Hext, Hfile, Hparse. simpl.
  by destruct (String.eqb_spec (tag doc) "DecentSampler").
Qed.

(** C6: for a path that ends in ".dspreset" and names a file that parses
    with the root "DecentSampler", loading succeeds with the parsed tree, and
    the counts of the control-type index (a control without a type under
    "unknown") sum to the number of elements named "control" in the tree. *)
Theorem load_counts_controls path w content doc :
  endswith path ".dspreset" = true →
  files w !! path = Some content →
  ET_parse content = inr doc →
  tag doc = "DecentSampler" →
  ∃ self w',
    _load_file path w = (inr self, w')
    ∧ root self = doc
    ∧ files w' = files w
    ∧ total_count (control_types_found self) = count_tag "control" doc.
Proof.
  intros Hext Hfile Hparse Htag.
  rewrite load_run, Hext, Hfile, Hparse, Htag. simpl.
  eexists _, _. split; [done|]. simpl. split; [done|]. split.
  { by destruct (findall "control" doc). }
  rewrite total_count_types by apply findall_valid.
  pose proof (length_findall "control" doc) as Hlen.
  rewrite Htag in Hlen. simpl in Hlen. unfold total_count. simpl. lia.
Qed.

End Loader.

Section LoadedControls.

Context {py : Builtins} {platform : Platform}.

(** C9: a control without a type attribute is counted by the loader under
    "unknown" (the count of that key is the number of controls whose type is
    absent or "unknown", at least one); [modify_controls] does not count it in
    [found], builds no change record for it and leaves its attributes as they
    are, whatever [selected_types] holds, "unknown" included, in either
    mode. *)
Theorem untyped_control_counted_not_found path w self w' p :
  _load_file path w = (inr self, w') →
  p ∈ ui_controls self →
  get_at (root self) p "type" = None →
  dict_get "unknown" (control_types_found self)
    = Some (length (filter (λ q, type_key (root self) q = "unknown")
                      (ui_controls self)))
  ∧ 1 ≤ length (filter (λ q, type_key (root self) q = "unknown")
                  (ui_controls self))
  ∧ ∀ sel dx dy dw dh preview,
      let r := modify_controls self sel dx dy dw dh preview in
      found (m_stats r)
        = length (filter (λ q, q ≠ p ∧ matched (root self) sel q)
                    (ui_controls self))
      ∧ modified (m_stats r) = (if preview then 0 else length (m_changes r))
      ∧ (∀ c, c ∈ m_changes r → c_element c ≠ p)
      ∧ m_report r = _print_changes (m_changes r) preview
      ∧ attrib_at (root (m_self r)) p = attrib_at (root self) p.
Proof.
  intros Hload Hp Hty.
  destruct (load_inv _ _ _ _ Hload) as [Hld Hctf].
  assert (Hn : 1 ≤ length (filter (λ q, type_key (root self) q = "unknown")
                             (ui_controls self))).
  { assert (Hin : p ∈ filter (λ q, type_key (root self) q = "unknown")
                        (ui_controls self)).
    { apply list_elem_of_filter. split; [|done]. unfold type_key. by rewrite Hty. }
    destruct (filter _ _); [by apply elem_of_nil in Hin|simpl; lia]. }
  split; [|split; [done|]].
  - rewrite Hctf, dict_get_count_types.
    + simpl. destruct (length _); [lia|done].
    + rewrite Hld. apply findall_valid.
  - intros sel dx dy dw dh preview. apply unmatched_untouched.
    by rewrite matched_get_type, Hty.
Qed.

End LoadedControls.

(** ** Persistence *)

Lemma string_length_app (s t : string) :
  String.length (s ++ t) = String.length s + String.length t.
Proof. induction s as [|c s IH]; simpl; [done|]. by rewrite IH. Qed.

Lemma backup_path_ne (p : string) : p ≠ (p ++ ".backup")%string.
Proof.
  intros Heq. apply (f_equal String.length) in Heq.
  rewrite string_length_app in Heq. simpl in Heq. lia.
Qed.

Section Persistence.

Context {platform : Platform}.

(** [create_backup] in closed form: the backup holds the text of the
    file, encoded again. *)
Lemma create_backup_run self w :
  create_backup self w =
  let backup_path := (file_path self ++ ".backup")%string in
  match files w !! file_path self with
  | None =>
      (inl (Exn OSError
         ("Error creating backup: [Errno 2] No such file or directory: '"
          ++ file_path self ++ "'")), w)
  | Some bs =>
      if bool_decide (backup_path ∈ readonly w) then
        (inl (Exn OSError
           ("Error creating backup: [Errno 13] Permission denied: '"
            ++ backup_path ++ "'")), w)
      else
        match PyText.read_text bs with
        | None =>
            (inl (Exn UnicodeDecodeError "'utf-8' codec can't decode"),
             {| files := <[backup_path := []]> (files w);
                readonly := readonly w; stdout := stdout w |})
        | Some text =>
            (inr backup_path,
             {| files := <[backup_path := PyText.write_text os text]> (files w);
                readonly := readonly w;
                stdout := stdout w ++ [("Created backup at: " ++ backup_path)%string] |})
        end
  end.
Proof.
  unfold create_backup, try_except, mbind, Py_bind, bind, read_bytes, open_w.
  simpl. destruct (files w !! file_path self) as [bs|] eqn:Hfile; [|done].
  case_bool_decide as Hro; [done|]. simpl.
  rewrite lookup_insert_ne by (intros Heq; by apply (backup_path_ne (file_path self))).
  rewrite Hfile. destruct (PyText.read_text bs) as [text|]; simpl; [|done].
  unfold write_bytes, print, mret, Py_ret, ret. simpl.
  by rewrite lookup_insert_eq, insert_insert_eq.
Qed.

(** [save] without an output path: the backup comes first, the tree is
    written over the file after it, and a failure of either with an [IOError]
    leaves as an [IOError]. *)
Lemma save_in_place_run self w :
  save self None w =
  match create_backup self w with
  | (inl e, w1) =>
      if is_IOError e
      then (inl (Exn OSError ("Error saving file: " ++ exn_msg e)), w1)
      else (inl e, w1)
  | (inr _, w1) =>
      if bool_decide (file_path self ∈ readonly w1) then
        (inl (Exn OSError
           ("Error saving file: [Errno 13] Permission denied: '"
            ++ file_path self ++ "'")), w1)
      else
        (inr tt,
         {| files := <[file_path self := ET_tostring (root self)]> (files w1);
            readonly := readonly w1;
            stdout := stdout w1 ++
              [("Successfully saved to: " ++ file_path self)%string] |})
  end.
Proof.
  unfold save, try_except, mbind, Py_bind, bind, tree_write. simpl.
  destruct (create_backup self w) as [[e|backup_path] w1]; simpl; [done|].
  unfold open_w, mbind, Py_bind, bind. case_bool_decide as Hro; [done|]. simpl.
  unfold write_bytes, print. simpl.
  by rewrite lookup_insert_eq, insert_insert_eq.
Qed.

(** When the backup cannot be written, [save] fails with an [IOError]
    and the files are as before. *)
Lemma save_backup_denied self w bs :
  files w !! file_path self = Some bs →
  (file_path self ++ ".backup")%string ∈ readonly w →
  ∃ msg, save self None w = (inl (Exn OSError msg), w).
Proof.
  intros Hfile Hro. rewrite save_in_place_run, create_backup_run, Hfile. simpl.
  rewrite bool_decide_eq_true_2 by done. simpl. by eexists.
Qed.

End Persistence.

(** C8: on a POSIX platform the backup of a preset with Windows line ends
    holds Unix line ends, and on Windows the backup of a preset with Unix line
    ends holds Windows line ends, whatever the parser and the serializer are:
    [save] succeeds, and the backup is not the file byte for byte. *)
Theorem backup_not_bytewise parse tostring :
  (∃ w',
     save (platform := Build_Platform parse tostring PyText.posix) empty_self None
       (preset_world crlf_bytes) = (inr tt, w')
     ∧ files w' !! "empty.dspreset.backup"%string = Some lf_bytes
     ∧ lf_bytes ≠ crlf_bytes)
  ∧ (∃ w',
     save (platform := Build_Platform parse tostring PyText.nt) empty_self None
       (preset_world lf_bytes) = (inr tt, w')
     ∧ files w' !! "empty.dspreset.backup"%string = Some crlf_bytes
     ∧ crlf_bytes ≠ lf_bytes).
Proof.
  split.
  - eexists. split; [|split].
    + rewrite save_in_place_run, create_backup_run. vm_compute. reflexivity.
    + vm_compute. reflexivity.
    + intros Heq%(f_equal length). vm_compute in Heq. discriminate.
  - eexists. split; [|split].
    + rewrite save_in_place_run, create_backup_run. vm_compute. reflexivity.
    + vm_compute. reflexivity.
    + intros Heq%(f_equal length). vm_compute in Heq. discriminate.
Qed.

(** ** The example of the specification and the inverse offsets *)

Lemma stats_eq (s : Stats) a b c :
  found s = a → modified s = b → skipped s = c →
  s = {| found := a; modified := b; skipped := c |}.
Proof. destruct s. simpl. by intros -> -> ->. Qed.

(** C4: for a loaded document whose only control is a knob that reads as
    x=10, y=20, width=30, height=30, the call with the selection {"knob"} and
    the offsets (5, -5, 0, 10) in apply mode returns found=1, modified=1,
    skipped=0 and leaves the control with x="15.0", y="15.0", width="30.0",
    height="40.0", which read as 15, 15, 30 and 40. *)
Theorem knob_example self p control :
  loaded self → ui_controls self = [p] →
  elem_at (root self) p = Some control →
  dict_get "type" (attrib control) = Some "knob"%string →
  read_rect (py := cpython) control
    = inr {| r_x := 10; r_y := 20; r_width := 30; r_height := 30 |}%float →
  let r := modify_controls (py := cpython) self ["knob"%string]
             5%float (-5)%float 0%float 10%float false in
  m_stats r = {| found := 1; modified := 1; skipped := 0 |}
  ∧ get_at (root (m_self r)) p "x" = Some "15.0"%string
  ∧ get_at (root (m_self r)) p "y" = Some "15.0"%string
  ∧ get_at (root (m_self r)) p "width" = Some "30.0"%string
  ∧ get_at (root (m_self r)) p "height" = Some "40.0"%string
  ∧ rect_at (py := cpython) (root (m_self r)) p
    = Some {| r_x := 15; r_y := 15; r_width := 30; r_height := 40 |}%float.
Proof.
  intros Hld Hui Hel Hty Hrd r.
  assert (Hsel : type_in (dict_get "type" (attrib control)) ["knob"%string] = true)
    by (by rewrite Hty).
  assert (Hp : p ∈ ui_controls self) by (rewrite Hui; by left).
  pose proof (modify_attrib_changed (py := cpython) self ["knob"%string]
    5%float (-5)%float 0%float 10%float p control _
    (loaded_NoDup _ Hld) Hp Hel Hsel Hrd) as Hat. fold r in Hat.
  assert (Hm : matched (root self) ["knob"%string] p = true)
    by (unfold matched; by rewrite Hel).
  assert (Hs : skipped_at (py := cpython) (root self) ["knob"%string] p = false).
  { unfold skipped_at, rect_at. by rewrite Hm, Hel, Hrd. }
  split.
  - apply stats_eq; subst r.
    + rewrite modify_found, Hui, filter_cons.
      by rewrite decide_True by (by rewrite Hm).
    + destruct (modify_apply (py := cpython) self ["knob"%string]
        5%float (-5)%float 0%float 10%float false) as (_ & -> & _).
      rewrite modify_changes, Hui. simpl. unfold change_at.
      by rewrite Hel, Hsel, Hrd.
    + rewrite modify_skipped, Hui, filter_cons.
      by rewrite decide_False by (rewrite Hs; by intros []).
  - set (new := offset _ _ _ _ _) in Hat.
    destruct (set_rect_get (py := cpython) new (attrib control))
      as (Gx & Gy & Gw & Gh).
    assert (Hback : reads_back (py := cpython) new)
      by (vm_compute; repeat split; reflexivity).
    rewrite !get_at_attrib, Hat. simpl. rewrite Gx, Gy, Gw, Gh.
    split; [by vm_compute|]. split; [by vm_compute|].
    split; [by vm_compute|]. split; [by vm_compute|].
    unfold rect_at, attrib_at in *.
    destruct (elem_at (root (m_self r)) p) as [control'|]; [|done].
    injection Hat as Hat.
    rewrite (read_rect_set_rect (py := cpython) control' _ _ Hat Hback).
    by vm_compute.
Qed.


(** ** The theorems at the sample documents *)


(** The knob with the width 'wide' in the sample layout. *)
Lemma nonnumeric_width_skipped_witness :
  let r := modify_controls (py := cpython) demo_self ["knob"%string]
             5%float (-5)%float 0%float 10%float false in
  (loaded demo_self ∧ [0; 0; 1] ∈ ui_controls demo_self
   ∧ get_at (root demo_self) [0; 0; 1] "type" = Some "knob"%string
   ∧ "knob"%string ∈ ["knob"%string]
   ∧ get_at (root demo_self) [0; 0; 1] "width" = Some "wide"%string
   ∧ py_float (Builtins := cpython) "wide"
     = inl "could not convert string to float: 'wide'"%string)
  ∧ skipped (m_stats r)
    = 1 + length (filter (λ q, q ≠ [0; 0; 1]
                               ∧ skipped_at (py := cpython) (root demo_self)
                                   ["knob"%string] q)
                    (ui_controls demo_self))
  ∧ attrib_at (root (m_self r)) [0; 0; 1] = attrib_at (root demo_self) [0; 0; 1].
Proof.
  intros r.
  assert (H1 : loaded demo_self) by (vm_compute; reflexivity).
  assert (H2 : [0; 0; 1] ∈ ui_controls demo_self) by (right; left).
  assert (H3 : get_at (root demo_self) [0; 0; 1] "type" = Some "knob"%string)
    by (vm_compute; reflexivity).
  assert (H4 : "knob"%string ∈ ["knob"%string]) by (left).
  assert (H5 : get_at (root demo_self) [0; 0; 1] "width" = Some "wide"%string)
    by (vm_compute; reflexivity).
  assert (H6 : py_float (Builtins := cpython) "wide"
               = inl "could not convert string to float: 'wide'"%string)
    by (vm_compute; reflexivity).
  pose proof (nonnumeric_width_skipped (py := cpython) demo_self ["knob"%string]
    5%float (-5)%float 0%float 10%float [0; 0; 1] _ _ _
    H1 H2 H3 H4 H5 H6) as Hthm.
  exact (conj (conj H1 (conj H2 (conj H3 (conj H4 (conj H5 H6)))))
           (conj (proj1 Hthm) (proj1 (proj2 Hthm)))).
Defined.

(** The example of the specification itself. *)
Lemma knob_example_witness :
  let r := modify_controls (py := cpython) knob_self ["knob"%string]
             5%float (-5)%float 0%float 10%float false in
  (loaded knob_self ∧ ui_controls knob_self = [[0; 0]]
   ∧ elem_at (root knob_self) [0; 0] = Some knob_control
   ∧ dict_get "type" (attrib knob_control) = Some "knob"%string
   ∧ read_rect (py := cpython) knob_control
     = inr {| r_x := 10; r_y := 20; r_width := 30; r_height := 30 |}%float)
  ∧ m_stats r = {| found := 1; modified := 1; skipped := 0 |}
  ∧ get_at (root (m_self r)) [0; 0] "x" = Some "15.0"%string
  ∧ get_at (root (m_self r)) [0; 0] "y" = Some "15.0"%string
  ∧ get_at (root (m_self r)) [0; 0] "width" = Some "30.0"%string
  ∧ get_at (root (m_self r)) [0; 0] "height" = Some "40.0"%string.
Proof.
  intros r.
  assert (H1 : loaded knob_self) by (vm_compute; reflexivity).
  assert (H2 : ui_controls knob_self = [[0; 0]]) by reflexivity.
  assert (H3 : elem_at (root knob_self) [0; 0] = Some knob_control)
    by (vm_compute; reflexivity).
  assert (H4 : dict_get "type" (attrib knob_control) = Some "knob"%string)
    by (vm_compute; reflexivity).
  assert (H5 : read_rect (py := cpython) knob_control
               = inr {| r_x := 10; r_y := 20; r_width := 30; r_height := 30 |}%float)
    by (vm_compute; reflexivity).
  pose proof (knob_example knob_self [0; 0] knob_control H1 H2 H3 H4 H5) as Hthm.
  destruct Hthm as (Hs & Hx & Hy & Hw & Hh & _).
  exact (conj (conj H1 (conj H2 (conj H3 (conj H4 H5))))
           (conj Hs (conj Hx (conj Hy (conj Hw Hh))))).
Defined.

(** Loading the document whose root is Sampler. *)
Lemma wrong_root_fails_witness :
  (endswith "other.dspreset" ".dspreset" = true
   ∧ files demo_world !! "other.dspreset"%string = Some other_bytes
   ∧ ET_parse (Platform := demo_platform) other_bytes = inr other_doc
   ∧ tag other_doc ≠ "DecentSampler"%string)
  ∧ _load_file (platform := demo_platform) "other.dspreset" demo_world
    = (inl StructureError, demo_world).
Proof.
  assert (H1 : endswith "other.dspreset" ".dspreset" = true)
    by (vm_compute; reflexivity).
  assert (H2 : files demo_world !! "other.dspreset"%string = Some other_bytes)
    by (vm_compute; reflexivity).
  assert (H3 : ET_parse (Platform := demo_platform) other_bytes = inr other_doc)
    by (vm_compute; reflexivity).
  assert (H4 : tag other_doc ≠ "DecentSampler"%string) by (simpl; discriminate).
  exact (conj (conj H1 (conj H2 (conj H3 H4)))
           (wrong_root_fails (platform := demo_platform) _ _ _ _ H1 H2 H3 H4)).
Defined.

(** Loading the sample layout. *)
Lemma load_counts_controls_witness :
  (endswith "demo.dspreset" ".dspreset" = true
   ∧ files demo_world !! "demo.dspreset"%string = Some demo_bytes
   ∧ ET_parse (Platform := demo_platform) demo_bytes = inr demo_doc
   ∧ tag demo_doc = "DecentSampler"%string)
  ∧ ∃ self w',
      _load_file (platform := demo_platform) "demo.dspreset" demo_world
      = (inr self, w')
      ∧ root self = demo_doc
      ∧ files w' = files demo_world
      ∧ total_count (control_types_found self) = count_tag "control" demo_doc.
Proof.
  assert (H1 : endswith "demo.dspreset" ".dspreset" = true)
    by (vm_compute; reflexivity).
  assert (H2 : files demo_world !! "demo.dspreset"%string = Some demo_bytes)
    by (vm_compute; reflexivity).
  assert (H3 : ET_parse (Platform := demo_platform) demo_bytes = inr demo_doc)
    by (vm_compute; reflexivity).
  assert (H4 : tag demo_doc = "DecentSampler"%string) by reflexivity.
  exact (conj (conj H1 (conj H2 (conj H3 H4)))
           (load_counts_controls (platform := demo_platform) _ _ _ _ H1 H2 H3 H4)).
Defined.

(** The label of the sample layout when knobs are selected. *)
Lemma unselected_never_touched_witness :
  let r := modify_controls (py := cpython) demo_self ["knob"%string]
             5%float (-5)%float 0%float 10%float false in
  (get_at (root demo_self) [0; 0; 2] "type" = Some "label"%string
   ∧ "label"%string ∉ ["knob"%string])
  ∧ (∀ c, c ∈ m_changes r → c_element c ≠ [0; 0; 2])
  ∧ attrib_at (root (m_self r)) [0; 0; 2] = attrib_at (root demo_self) [0; 0; 2].
Proof.
  intros r.
  assert (H1 : get_at (root demo_self) [0; 0; 2] "type" = Some "label"%string)
    by (vm_compute; reflexivity).
  assert (H2 : "label"%string ∉ ["knob"%string]).
  { intros Hin. apply list_elem_of_singleton in Hin. discriminate Hin. }
  pose proof (unselected_never_touched (py := cpython) demo_self ["knob"%string]
    5%float (-5)%float 0%float 10%float false [0; 0; 2] _ H1 H2) as Hthm.
  destruct Hthm as (_ & _ & Hc & _ & Ha).
  exact (conj (conj H1 H2) (conj Hc Ha)).
Defined.

(** The control without a type in the sample layout, with 'unknown' selected. *)
Lemma untyped_control_counted_not_found_witness :
  let r := modify_controls (py := cpython) demo_self ["unknown"%string]
             5%float (-5)%float 0%float 10%float false in
  (_load_file (platform := demo_platform) "demo.dspreset" demo_world
     = (inr demo_self, demo_world)
   ∧ [0; 0; 3] ∈ ui_controls demo_self
   ∧ get_at (root demo_self) [0; 0; 3] "type" = None)
  ∧ 1 ≤ length (filter (λ q, type_key (root demo_self) q = "unknown"%string)
                  (ui_controls demo_self))
  ∧ (∀ c, c ∈ m_changes r → c_element c ≠ [0; 0; 3])
  ∧ attrib_at (root (m_self r)) [0; 0; 3] = attrib_at (root demo_self) [0; 0; 3].
Proof.
  intros r.
  assert (H1 : _load_file (platform := demo_platform) "demo.dspreset" demo_world
               = (inr demo_self, demo_world)) by (vm_compute; reflexivity).
  assert (H2 : [0; 0; 3] ∈ ui_controls demo_self)
    by (right; right; right; left).
  assert (H3 : get_at (root demo_self) [0; 0; 3] "type" = None)
    by (vm_compute; reflexivity).
  pose proof (untyped_control_counted_not_found (py := cpython)
    (platform := demo_platform) _ _ _ _ [0; 0; 3] H1 H2 H3) as Hthm.
  destruct Hthm as (_ & Hn & Hm).
  destruct (Hm ["unknown"%string] 5%float (-5)%float 0%float 10%float false)
    as (_ & _ & Hc & _ & Ha).
  exact (conj (conj H1 (conj H2 H3)) (conj Hn (conj Hc Ha))).
Defined.

(** The label of the sample layout, which has an x and nothing else. *)
Lemma apply_overwrites_all_four_witness :
  let old := {| r_x := 4; r_y := 0; r_width := 0; r_height := 0 |}%float in
  let rt' := root (m_self (modify_controls (py := cpython) demo_self
               ["label"%string] 5%float (-5)%float 0%float 10%float false)) in
  (loaded demo_self ∧ [0; 0; 2] ∈ ui_controls demo_self
   ∧ elem_at (root demo_self) [0; 0; 2] = Some demo_label
   ∧ type_in (dict_get "type" (attrib demo_label)) ["label"%string] = true
   ∧ read_rect (py := cpython) demo_label = inr old)
  ∧ get_at rt' [0; 0; 2] "x" = Some (py_str (Builtins := cpython) (4 + 5))
  ∧ get_at rt' [0; 0; 2] "y" = Some (py_str (Builtins := cpython) (0 + -5))
  ∧ get_at rt' [0; 0; 2] "width" = Some (py_str (Builtins := cpython) (0 + 0))
  ∧ get_at rt' [0; 0; 2] "height" = Some (py_str (Builtins := cpython) (0 + 10)).
Proof.
  intros old rt'.
  assert (H1 : loaded demo_self) by (vm_compute; reflexivity).
  assert (H2 : [0; 0; 2] ∈ ui_controls demo_self) by (right; right; left).
  assert (H3 : elem_at (root demo_self) [0; 0; 2] = Some demo_label)
    by (vm_compute; reflexivity).
  assert (H4 : type_in (dict_get "type" (attrib demo_label)) ["label"%string] = true)
    by (vm_compute; reflexivity).
  assert (H5 : read_rect (py := cpython) demo_label = inr old)
    by (vm_compute; reflexivity).
  pose proof (apply_overwrites_all_four (py := cpython) demo_self ["label"%string]
    5%float (-5)%float 0%float 10%float [0; 0; 2] demo_label old
    H1 H2 H3 H4 H5) as Hthm.
  destruct Hthm as (Hx & Hy & Hw & Hh & _).
  exact (conj (conj H1 (conj H2 (conj H3 (conj H4 H5))))
           (conj Hx (conj Hy (conj Hw Hh)))).
Defined.

(** * Further properties of the code *)

(** ** The loader: every outcome *)

Section LoaderOutcomes.

Context {platform : Platform}.

(** X1: loading succeeds exactly when the path ends in ".dspreset", names
    a file, the file parses and the root of the tree is "DecentSampler". *)
Theorem load_succeeds_iff path w :
  (∃ self w', _load_file path w = (inr self, w'))
  ↔ endswith path ".dspreset" = true
    ∧ ∃ bs rt, files w !! path = Some bs ∧ ET_parse bs = inr rt
               ∧ tag rt = "DecentSampler"%string.
Proof.
  rewrite load_run.
  destruct (endswith path ".dspreset"); simpl.
  2: { split; [by intros (? & ? & ?)|by intros [? _]]. }
  destruct (files w !! path) as [bs|].
  2: { split; [by intros (? & ? & ?)|by intros (_ & ? & ? & ? & _)]. }
  destruct (ET_parse bs) as [msg|rt] eqn:Hparse.
  { split; [by intros (? & ? & ?)|].
    intros (_ & bs' & rt & [= <-] & Hp & _). congruence. }
  destruct (String.eqb_spec (tag rt) "DecentSampler") as [Htag|Htag]; simpl.
  - split; [|by eexists _, _]. intros _. split; [done|]. by exists bs, rt.
  - split; [by intros (? & ? & ?)|].
    intros (_ & bs' & rt' & [= <-] & Hp & Ht). congruence.
Qed.


(** X3: loading never writes a file or changes what can be written; it
    prints one line, the warning, exactly when it succeeds on a tree without
    controls, and nothing otherwise. *)
Theorem load_reads_only path w res w' :
  _load_file path w = (res, w') →
  files w' = files w
  ∧ readonly w' = readonly w
  ∧ stdout w' = stdout w ++
      match res with
      | inr self =>
          match ui_controls self with
          | [] => [no_controls_warning]
          | _ => []
          end
      | inl _ => []
      end.
Proof.
  rewrite load_run.
  destruct (negb (endswith path ".dspreset")).
  { intros [= <- <-]. by rewrite app_nil_r. }
  destruct (files w !! path) as [bs|].
  2: { intros [= <- <-]. by rewrite app_nil_r. }
  destruct (ET_parse bs) as [msg|rt].
  { intros [= <- <-]. by rewrite app_nil_r. }
  destruct (negb (String.eqb (tag rt) "DecentSampler")).
  { intros [= <- <-]. by rewrite app_nil_r. }
  intros [= <- <-]. simpl.
  destruct (findall "control" rt); simpl; [done|]. by rewrite app_nil_r.
Qed.

(** X4: the object that a load returns remembers the path, and its list of
    controls holds each element named "control" below the root, and nothing
    else, exactly once. *)
Theorem load_lists_controls path w self w' :
  _load_file path w = (inr self, w') →
  file_path self = path
  ∧ NoDup (ui_controls self)
  ∧ ∀ p, p ∈ ui_controls self
         ↔ p ≠ [] ∧ tag <$> elem_at (root self) p = Some "control"%string.
Proof.
  intros Hload. destruct (load_inv _ _ _ _ Hload) as [Hld _].
  split; [|split].
  - revert Hload. rewrite load_run.
    destruct (negb (endswith path ".dspreset")); [done|].
    destruct (files w !! path) as [bs|]; [|done].
    destruct (ET_parse bs) as [msg|rt]; [done|].
    destruct (negb (String.eqb (tag rt) "DecentSampler")); [done|].
    by intros [= <- _].
  - by apply loaded_NoDup.
  - intros p. rewrite Hld. apply elem_of_findall.
Qed.

Lemma dict_set_key_old {V} k k' (v : V) d :
  k' ≠ k → k' ∈ fst <$> dict_set k v d → k' ∈ fst <$> d.
Proof.
  intros Hne. induction d as [|[k0 v0] d IH]; simpl.
  - intros Hin%list_elem_of_singleton. congruence.
  - destruct (String.eqb_spec k0 k) as [->|Hk0]; simpl.
    + intros [Hin|Hin]%elem_of_cons; [congruence|by right].
    + intros [->|Hin]%elem_of_cons; [by left|]. right. by apply IH.
Qed.

Lemma dict_set_keys {V} k (v : V) d :
  NoDup (fst <$> d) → NoDup (fst <$> dict_set k v d).
Proof.
  induction d as [|[k' v'] d IH]; simpl; intros Hnd.
  - apply NoDup_singleton.
  - apply NoDup_cons in Hnd as [Hk' Hnd].
    destruct (String.eqb_spec k' k) as [->|Hne]; simpl.
    + by apply NoDup_cons.
    + apply NoDup_cons. split; [|by apply IH].
      intros Hin. apply Hk'. by eapply dict_set_key_old.
Qed.

Lemma count_types_keys rt l d :
  NoDup (fst <$> d) → NoDup (fst <$> fold_left (count_type rt) l d).
Proof.
  revert d. induction l as [|p l IH]; intros d Hnd; [done|]. simpl.
  apply IH. unfold count_type. destruct (elem_at rt p); [|done].
  by apply dict_set_keys.
Qed.

(** X5: in the index that a load builds every type is listed once; a type
    that [n > 0] controls carry (a control without a type carries "unknown")
    is listed with the count [n], and a type that no control carries is not
    listed. *)
Theorem load_index_counts path w self w' k :
  _load_file path w = (inr self, w') →
  let n := length (filter (λ q, type_key (root self) q = k) (ui_controls self)) in
  NoDup (fst <$> control_types_found self)
  ∧ (n = 0 → dict_get k (control_types_found self) = None)
  ∧ (0 < n → dict_get k (control_types_found self) = Some n).
Proof.
  intros Hload n. destruct (load_inv _ _ _ _ Hload) as [Hld Hctf].
  split.
  - rewrite Hctf. apply count_types_keys. constructor.
  - assert (Hget : dict_get k (control_types_found self) = bump None n).
    { rewrite Hctf. apply dict_get_count_types. rewrite Hld. apply findall_valid. }
    rewrite Hget. split; [by intros ->|]. intros Hn.
    destruct n; [lia|done].
Qed.

End LoaderOutcomes.

(** ** The transformer: counts, edge cases and what a call keeps *)

Section TransformerFacts.

Context {py : Builtins}.

Lemma matched_cases rt sel p :
  matched rt sel p = changed_at rt sel p || skipped_at rt sel p.
Proof.
  unfold changed_at, skipped_at. destruct (matched rt sel p); [|done].
  by destruct (rect_at rt p).
Qed.

Lemma changed_not_skipped rt sel p :
  changed_at rt sel p = true → skipped_at rt sel p = false.
Proof.
  unfold changed_at, skipped_at. destruct (matched rt sel p); [|done].
  by destruct (rect_at rt p).
Qed.

Lemma length_matched rt sel (l : list path) :
  length (filter (matched rt sel) l)
  = length (filter (changed_at rt sel) l) + length (filter (skipped_at rt sel) l).
Proof.
  induction l as [|p l IH]; [done|]. rewrite !filter_cons, matched_cases.
  destruct (changed_at rt sel p) eqn:Hc; simpl.
  - rewrite (changed_not_skipped _ _ _ Hc). simpl. lia.
  - destruct (skipped_at rt sel p); simpl; lia.
Qed.

Lemma scan_printed rt sel dx dy dw dh l acc :
  length (s_printed (fold_left (scan_control rt sel dx dy dw dh) l acc))
  = length (s_printed acc) + length (filter (skipped_at rt sel) l).
Proof.
  revert acc. induction l as [|p l IH]; intros acc; simpl; [lia|].
  rewrite IH, filter_cons. clear IH.
  set (ns := filter (skipped_at rt sel) l).
  unfold scan_control, skipped_at, matched, rect_at.
  destruct (elem_at rt p) as [control|]; simpl; [|done].
  destruct (type_in _ _); simpl; [|done].
  destruct (read_rect _); simpl; [|done].
  rewrite length_app. simpl. lia.
Qed.

Lemma modify_warnings self sel dx dy dw dh preview :
  length (m_warnings (modify_controls self sel dx dy dw dh preview))
  = length (filter (skipped_at (root self) sel) (ui_controls self)).
Proof.
  unfold modify_controls.
  destruct (if _ : bool then _ else _) as [rt n]. simpl.
  by rewrite scan_printed.
Qed.

Lemma modify_stats self sel dx dy dw dh preview :
  found (m_stats (modify_controls self sel dx dy dw dh preview))
  = length (m_changes (modify_controls self sel dx dy dw dh preview))
    + skipped (m_stats (modify_controls self sel dx dy dw dh preview))
  ∧ modified (m_stats (modify_controls self sel dx dy dw dh preview))
    = (if preview then 0
       else length (m_changes (modify_controls self sel dx dy dw dh preview)))
  ∧ length (m_warnings (modify_controls self sel dx dy dw dh preview))
    = skipped (m_stats (modify_controls self sel dx dy dw dh preview)).
Proof.
  destruct (modify_apply self sel dx dy dw dh preview) as (_ & Hm & _).
  split; [|split].
  - rewrite modify_found, modify_skipped, modify_changes, length_matched.
    by rewrite <-(changes_elements _ _ dx dy dw dh), length_fmap.
  - done.
  - by rewrite modify_warnings, modify_skipped.
Qed.

(** X6: a call finds as many controls as it records and skips together;
    in apply mode every recorded control is counted as modified, so that
    found = modified + skipped, and in preview mode none is; each skipped
    control gets one warning line. *)
Theorem stats_add_up self sel dx dy dw dh preview :
  let r := modify_controls self sel dx dy dw dh preview in
  found (m_stats r) = length (m_changes r) + skipped (m_stats r)
  ∧ modified (m_stats r) = (if preview then 0 else length (m_changes r))
  ∧ found (m_stats r)
    = (if preview then length (m_changes r) else modified (m_stats r))
      + skipped (m_stats r)
  ∧ length (m_warnings r) = skipped (m_stats r).
Proof.
  intros r. subst r.
  destruct (modify_stats self sel dx dy dw dh preview) as (Hf & Hm & Hw).
  split; [done|]. split; [done|]. split; [|done].
  rewrite Hm. by destruct preview.
Qed.

Lemma self_eta (a b : DSPresetModifier) :
  file_path a = file_path b → root a = root b →
  ui_controls a = ui_controls b →
  control_types_found a = control_types_found b → a = b.
Proof. destruct a, b. simpl. by intros -> -> -> ->. Qed.

Lemma no_changes_self self sel dx dy dw dh preview :
  m_changes (modify_controls self sel dx dy dw dh preview) = [] →
  m_self (modify_controls self sel dx dy dw dh preview) = self.
Proof.
  intros Hnil.
  destruct (modify_apply self sel dx dy dw dh preview) as (Hr & _ & Hf & Hu & Hc).
  apply self_eta; [done| |done..].
  rewrite Hr, Hnil. by destruct preview.
Qed.

(** X7: with an empty selection a call finds, modifies and skips nothing,
    prints no warning, leaves the object as it was and reports the notice
    that nothing is selected, in either mode. *)
Theorem empty_selection self dx dy dw dh preview :
  let r := modify_controls self [] dx dy dw dh preview in
  m_self r = self
  ∧ m_stats r = {| found := 0; modified := 0; skipped := 0 |}
  ∧ m_changes r = []
  ∧ m_warnings r = []
  ∧ m_report r = [no_changes_notice].
Proof.
  intros r. subst r.
  assert (Hun : ∀ q, matched (root self) [] q = false).
  { intros q. unfold matched. destruct (elem_at (root self) q) as [c|]; [|done].
    by destruct (dict_get "type" (attrib c)). }
  assert (Hch : m_changes (modify_controls self [] dx dy dw dh preview) = []).
  { rewrite modify_changes. induction (ui_controls self) as [|p l IH]; [done|].
    simpl. unfold change_at at 1.
    pose proof (Hun p) as Hp. unfold matched in Hp.
    destruct (elem_at (root self) p); [|done]. by rewrite Hp. }
  assert (Hfilter : ∀ (P : path → bool) (l : list path),
            (∀ q, P q = false) → filter P l = []).
  { intros P l HP. induction l as [|q l IH]; [done|].
    rewrite filter_cons, HP. done. }
  destruct (modify_stats self [] dx dy dw dh preview) as (Hf & Hm & Hw).
  assert (Hs : skipped (m_stats (modify_controls self [] dx dy dw dh preview)) = 0).
  { rewrite modify_skipped, Hfilter; [done|].
    intros q. unfold skipped_at. by rewrite Hun. }
  split; [by apply no_changes_self|]. split; [|split; [done|split]].
  - apply stats_eq.
    + by rewrite Hf, Hch, Hs.
    + rewrite Hm, Hch. by destruct preview.
    + done.
  - rewrite Hs in Hw. by destruct (m_warnings _).
  - by rewrite modify_report, Hch.
Qed.

(** X8: when no control both matches and converts, a call leaves the
    object as it was and counts nothing as modified, and its report is the
    notice that no controls are selected, also when controls were found and
    skipped. *)
Theorem no_records_nothing_written self sel dx dy dw dh preview :
  m_changes (modify_controls self sel dx dy dw dh preview) = [] →
  let r := modify_controls self sel dx dy dw dh preview in
  m_self r = self
  ∧ modified (m_stats r) = 0
  ∧ found (m_stats r) = skipped (m_stats r)
  ∧ m_report r = [no_changes_notice].
Proof.
  intros Hch r. subst r.
  destruct (modify_stats self sel dx dy dw dh preview) as (Hf & Hm & _).
  split; [by apply no_changes_self|]. split; [|split].
  - rewrite Hm, Hch. by destruct preview.
  - by rewrite Hf, Hch.
  - by rewrite modify_report, Hch.
Qed.

(** *** What [Element.set] keeps *)

Lemma shape_set_at e p k v q :
  node_shape <$> elem_at (set_at e p k v) q = node_shape <$> elem_at e q.
Proof.
  revert e q. induction p as [|i p IH]; intros e q.
  - by destruct q.
  - simpl. destruct (children e !! i) as [c|] eqn:Hc; [|done].
    destruct q as [|j q].
    + simpl. unfold node_shape. simpl. by rewrite length_insert.
    + simpl. destruct (decide (i = j)) as [->|Hij].
      * rewrite list_lookup_insert_eq by (by eapply lookup_lt_Some).
        rewrite Hc. apply IH.
      * by rewrite list_lookup_insert_ne.
Qed.

Lemma shape_apply_changes cs rt q :
  node_shape <$> elem_at (fold_left (apply_change) cs rt) q
  = node_shape <$> elem_at rt q.
Proof.
  revert rt. induction cs as [|c cs IH]; intros rt; [done|]. simpl.
  rewrite IH. unfold apply_change. by rewrite !shape_set_at.
Qed.

Lemma get_apply_change_other rt c q k :
  k ≠ "x"%string → k ≠ "y"%string → k ≠ "width"%string → k ≠ "height"%string →
  get_at (apply_change rt c) q k = get_at rt q k.
Proof.
  intros Hx Hy Hw Hh. rewrite !get_at_attrib.
  destruct (decide (c_element c = q)) as [<-|Hne].
  - rewrite attrib_apply_change_eq.
    destruct (attrib_at rt (c_element c)); [|done]. simpl.
    by apply set_rect_get_other.
  - by rewrite attrib_apply_change_ne.
Qed.

Lemma get_apply_changes_other cs rt q k :
  k ≠ "x"%string → k ≠ "y"%string → k ≠ "width"%string → k ≠ "height"%string →
  get_at (fold_left apply_change cs rt) q k = get_at rt q k.
Proof.
  intros Hx Hy Hw Hh. revert rt.
  induction cs as [|c cs IH]; intros rt; [done|]. simpl.
  rewrite IH. by apply get_apply_change_other.
Qed.

(** X9: a call creates, removes and renames nothing: the object keeps its
    path, its list of controls and its index, the tree keeps its controls, and
    every element keeps its tag, its text, its tail, the number of its
    children and every attribute other than x, y, width and height. *)
Theorem call_keeps_structure self sel dx dy dw dh preview q k :
  k ≠ "x"%string → k ≠ "y"%string → k ≠ "width"%string → k ≠ "height"%string →
  let r := modify_controls self sel dx dy dw dh preview in
  file_path (m_self r) = file_path self
  ∧ ui_controls (m_self r) = ui_controls self
  ∧ control_types_found (m_self r) = control_types_found self
  ∧ findall "control" (root (m_self r)) = findall "control" (root self)
  ∧ node_shape <$> elem_at (root (m_self r)) q
    = node_shape <$> elem_at (root self) q
  ∧ get_at (root (m_self r)) q k = get_at (root self) q k.
Proof.
  intros Hx Hy Hw Hh r. subst r.
  destruct (modify_apply self sel dx dy dw dh preview) as (Hr & _ & Hf & Hu & Hc).
  rewrite Hr. split; [done|]. split; [done|]. split; [done|].
  destruct preview; [done|]. split; [|split].
  - apply findall_apply_changes.
  - apply shape_apply_changes.
  - by apply get_apply_changes_other.
Qed.

Lemma matched_after self sel dx dy dw dh preview sel' q :
  matched (root (m_self (modify_controls self sel dx dy dw dh preview))) sel' q
  = matched (root self) sel' q.
Proof.
  rewrite !matched_get_type. f_equal.
  destruct (modify_apply self sel dx dy dw dh preview) as (-> & _).
  destruct preview; [done|]. by apply get_apply_changes_other.
Qed.

(** X10: a call does not change which controls a later call finds: after
    any call, a call with a selection finds as many controls as it would have
    found before. *)
Theorem later_call_finds_the_same
    self sel dx dy dw dh preview sel' dx' dy' dw' dh' preview' :
  let r := modify_controls self sel dx dy dw dh preview in
  found (m_stats (modify_controls (m_self r) sel' dx' dy' dw' dh' preview'))
  = found (m_stats (modify_controls self sel' dx' dy' dw' dh' preview')).
Proof.
  intros r. subst r. rewrite !modify_found.
  destruct (modify_apply self sel dx dy dw dh preview) as (_ & _ & _ & -> & _).
  f_equal. apply list_filter_iff. intros q. by rewrite matched_after.
Qed.

(** X11: a control whose attributes do not convert is left as it is by
    every call, matched or not, and so does not convert afterwards either: a
    control that is skipped once is skipped by every later call that finds
    it. *)
Theorem unconvertible_stays self sel dx dy dw dh preview q :
  rect_at (root self) q = None →
  let r := modify_controls self sel dx dy dw dh preview in
  attrib_at (root (m_self r)) q = attrib_at (root self) q
  ∧ rect_at (root (m_self r)) q = None
  ∧ ∀ sel', skipped_at (root (m_self r)) sel' q = skipped_at (root self) sel' q.
Proof.
  intros Hr r. subst r.
  assert (Ha : attrib_at (root (m_self (modify_controls self sel dx dy dw dh preview))) q
               = attrib_at (root self) q).
  { apply modify_attrib_kept. unfold changed_at. rewrite Hr. simpl.
    rewrite andb_false_r. by intros []. }
  assert (Hr' : rect_at (root (m_self (modify_controls self sel dx dy dw dh preview))) q
                = None).
  { unfold rect_at, attrib_at in *.
    destruct (elem_at (root (m_self _)) q) as [c'|]; [|done].
    destruct (elem_at (root self) q) as [c|]; [|done].
    injection Ha as Ha. unfold read_rect, float_attr in *. by rewrite Ha. }
  split; [done|]. split; [done|].
  intros sel'. unfold skipped_at. by rewrite matched_after, Hr, Hr'.
Qed.

(** X12: two apply calls compose: a control that the first call modified
    and whose written values read back carries, after a second call with the
    same selection, the [str] of its old values plus the first and then the
    second offsets. *)
Theorem offsets_compose self sel dx dy dw dh dx' dy' dw' dh' p control old :
  loaded self → p ∈ ui_controls self →
  elem_at (root self) p = Some control →
  type_in (dict_get "type" (attrib control)) sel = true →
  read_rect control = inr old →
  reads_back (offset old dx dy dw dh) →
  let first := modify_controls self sel dx dy dw dh false in
  let second := modify_controls (m_self first) sel dx' dy' dw' dh' false in
  get_at (root (m_self second)) p "x" = Some (py_str (r_x old + dx + dx'))
  ∧ get_at (root (m_self second)) p "y" = Some (py_str (r_y old + dy + dy'))
  ∧ get_at (root (m_self second)) p "width"
    = Some (py_str (r_width old + dw + dw'))
  ∧ get_at (root (m_self second)) p "height"
    = Some (py_str (r_height old + dh + dh')).
Proof.
  intros Hld Hp Hel Hty Hrd Hnew first second.
  set (new := offset old dx dy dw dh) in *.
  pose proof (modify_attrib_changed self sel dx dy dw dh p control old
    (loaded_NoDup _ Hld) Hp Hel Hty Hrd) as H1. fold first new in H1.
  pose proof (modify_loaded self sel dx dy dw dh false Hld) as Hld1.
  fold first in Hld1.
  assert (Hp1 : p ∈ ui_controls (m_self first)).
  { subst first.
    by destruct (modify_apply self sel dx dy dw dh false) as (_ & _ & _ & -> & _). }
  unfold attrib_at in H1.
  destruct (elem_at (root (m_self first)) p) as [control1|] eqn:Hel1; [|done].
  injection H1 as Ha1.
  assert (Hty1 : type_in (dict_get "type" (attrib control1)) sel = true).
  { by rewrite Ha1, set_rect_get_other. }
  pose proof (read_rect_set_rect control1 new _ Ha1 Hnew) as Hrd1.
  pose proof (modify_attrib_changed (m_self first) sel dx' dy' dw' dh' p control1 new
    (loaded_NoDup _ Hld1) Hp1 Hel1 Hty1 Hrd1) as H2.
  fold second in H2.
  destruct (set_rect_get (offset new dx' dy' dw' dh') (attrib control1))
    as (Gx & Gy & Gw & Gh).
  rewrite !get_at_attrib, H2. simpl. by rewrite Gx, Gy, Gw, Gh.
Qed.

(** X13: every change record belongs to a listed control whose type is
    selected; it holds that type, the values the control reads as, those
    values plus the offsets, and as identity the id of the control, else its
    label, else "unnamed". The records follow the order of the list, one for
    each control that matches and converts. *)
Theorem change_records self sel dx dy dw dh preview c :
  c ∈ m_changes (modify_controls self sel dx dy dw dh preview) →
  c_element c ∈ ui_controls self
  ∧ get_at (root self) (c_element c) "type" = Some (c_type c)
  ∧ c_type c ∈ sel
  ∧ rect_at (root self) (c_element c) = Some (c_old c)
  ∧ c_new c = offset (c_old c) dx dy dw dh
  ∧ c_id c = default (default "unnamed"%string
                        (get_at (root self) (c_element c) "label"))
                     (get_at (root self) (c_element c) "id")
  ∧ c_element <$> m_changes (modify_controls self sel dx dy dw dh preview)
    = filter (changed_at (root self) sel) (ui_controls self).
Proof.
  rewrite modify_changes. intros (p & Hp & Hc)%list_elem_of_omap.
  pose proof (change_at_element _ _ _ _ _ _ _ _ Hc) as Hel.
  rewrite Hel. split; [done|].
  rewrite changes_elements.
  unfold change_at in Hc. unfold get_at, rect_at.
  destruct (elem_at (root self) p) as [control|]; [|done].
  destruct (dict_get "type" (attrib control)) as [t|] eqn:Ht; [|done].
  destruct (type_in (Some t) sel) eqn:Hin; [|done].
  destruct (read_rect control) as [e|old]; [done|].
  injection Hc as <-. simpl.
  repeat split; try done. by apply type_in_Some.
Qed.

End TransformerFacts.

(** ** Text files: the codec and the newline translation *)

Module TextFacts.
Import PyText.
Local Open Scope N_scope.

Lemma divmod_unique (x b q r : N) :
  r < b → x = b * q + r → x / b = q ∧ x mod b = r.
Proof.
  intros Hr Hx. split; symmetry;
    [apply (N.div_unique x b q r)|apply (N.mod_unique x b q r)]; assumption.
Qed.

Lemma byte_of_to_N b : byte_of (Byte.to_N b) = b.
Proof. unfold byte_of. by rewrite Byte.of_to_N. Qed.

Lemma to_N_byte_of n : n < 256 → Byte.to_N (byte_of n) = n.
Proof.
  intros Hn. unfold byte_of.
  destruct (Byte.of_N n) as [b|] eqn:Hb.
  - by apply Byte.to_of_N.
  - apply Byte.of_N_None_iff in Hb. lia.
Qed.

Lemma cont_Some b c :
  cont b = Some c → 128 ≤ Byte.to_N b ∧ Byte.to_N b < 192 ∧ c = Byte.to_N b - 128.
Proof.
  unfold cont.
  destruct (128 <=? Byte.to_N b) eqn:H1; [|done].
  destruct (Byte.to_N b <? 192) eqn:H2; [|done]. simpl. intros [= <-].
  apply N.leb_le in H1. apply N.ltb_lt in H2. done.
Qed.

Lemma scalar_true least cp :
  scalar least cp = true →
  least ≤ cp ∧ cp ≤ 1114111 ∧ ¬ (55296 ≤ cp ∧ cp ≤ 57343).
Proof.
  unfold scalar. rewrite !andb_true_iff, negb_true_iff, andb_false_iff.
  rewrite !N.leb_le, !N.leb_gt. lia.
Qed.

(** One step of the decoder, read backwards. *)
Lemma decode_cons b0 r0 t :
  decode (b0 :: r0) = Some t →
  (Byte.to_N b0 < 128
   ∧ ∃ t', decode r0 = Some t' ∧ t = Byte.to_N b0 :: t')
  ∨ (192 ≤ Byte.to_N b0 ∧ Byte.to_N b0 < 224
     ∧ ∃ b1 r1 c1 t',
         r0 = b1 :: r1 ∧ cont b1 = Some c1
         ∧ scalar 128 ((Byte.to_N b0 - 192) * 64 + c1) = true
         ∧ decode r1 = Some t'
         ∧ t = ((Byte.to_N b0 - 192) * 64 + c1) :: t')
  ∨ (224 ≤ Byte.to_N b0 ∧ Byte.to_N b0 < 240
     ∧ ∃ b1 b2 r2 c1 c2 t',
         r0 = b1 :: b2 :: r2 ∧ cont b1 = Some c1 ∧ cont b2 = Some c2
         ∧ scalar 2048 (((Byte.to_N b0 - 224) * 64 + c1) * 64 + c2) = true
         ∧ decode r2 = Some t'
         ∧ t = (((Byte.to_N b0 - 224) * 64 + c1) * 64 + c2) :: t')
  ∨ (240 ≤ Byte.to_N b0 ∧ Byte.to_N b0 < 248
     ∧ ∃ b1 b2 b3 r3 c1 c2 c3 t',
         r0 = b1 :: b2 :: b3 :: r3
         ∧ cont b1 = Some c1 ∧ cont b2 = Some c2 ∧ cont b3 = Some c3
         ∧ scalar 65536
             ((((Byte.to_N b0 - 240) * 64 + c1) * 64 + c2) * 64 + c3) = true
         ∧ decode r3 = Some t'
         ∧ t = ((((Byte.to_N b0 - 240) * 64 + c1) * 64 + c2) * 64 + c3) :: t').
Proof.
  cbn [decode]. cbv zeta. set (n0 := Byte.to_N b0).
  destruct (n0 <? 128) eqn:H1.
  { apply N.ltb_lt in H1. destruct (decode r0) as [t'|] eqn:Hd; [|done].
    cbn [fmap option_fmap option_map]. intros [= <-]. left. split; [done|]. by exists t'. }
  apply N.ltb_ge in H1.
  destruct (n0 <? 192) eqn:H2; [done|]. apply N.ltb_ge in H2.
  destruct (n0 <? 224) eqn:H3.
  { apply N.ltb_lt in H3. destruct r0 as [|b1 r1]; [done|].
    destruct (cont b1) as [c1|] eqn:Hc1; [|done].
    destruct (scalar 128 _) eqn:Hs; [|done].
    destruct (decode r1) as [t'|] eqn:Hd; [|done].
    cbn [fmap option_fmap option_map]. intros [= <-].
    right. left. split; [done|]. split; [done|]. by exists b1, r1, c1, t'. }
  apply N.ltb_ge in H3.
  destruct (n0 <? 240) eqn:H4.
  { apply N.ltb_lt in H4. destruct r0 as [|b1 [|b2 r2]]; [done..|].
    destruct (cont b1) as [c1|] eqn:Hc1; [|done].
    destruct (cont b2) as [c2|] eqn:Hc2; [|done].
    destruct (scalar 2048 _) eqn:Hs; [|done].
    destruct (decode r2) as [t'|] eqn:Hd; [|done].
    cbn [fmap option_fmap option_map]. intros [= <-].
    right. right. left. split; [done|]. split; [done|].
    by exists b1, b2, r2, c1, c2, t'. }
  apply N.ltb_ge in H4.
  destruct (n0 <? 248) eqn:H5; [|done].
  apply N.ltb_lt in H5. destruct r0 as [|b1 [|b2 [|b3 r3]]]; [done..|].
  destruct (cont b1) as [c1|] eqn:Hc1; [|done].
  destruct (cont b2) as [c2|] eqn:Hc2; [|by destruct (cont b3)].
  destruct (cont b3) as [c3|] eqn:Hc3; [|done].
  destruct (scalar 65536 _) eqn:Hs; [|done].
  destruct (decode r3) as [t'|] eqn:Hd; [|done].
    cbn [fmap option_fmap option_map]. intros [= <-].
  right. right. right. split; [done|]. split; [done|].
  by exists b1, b2, b3, r3, c1, c2, c3, t'.
Qed.

Lemma encode1_1 n : n < 128 → encode1 n = [byte_of n].
Proof. intros Hn. unfold encode1. by rewrite (proj2 (N.ltb_lt _ _) Hn). Qed.

Lemma encode1_2 a c1 :
  a < 32 → c1 < 64 → 128 ≤ a * 64 + c1 →
  encode1 (a * 64 + c1) = [byte_of (192 + a); byte_of (128 + c1)].
Proof.
  intros Ha Hc Hcp. unfold encode1.
  rewrite (proj2 (N.ltb_ge _ _) Hcp).
  rewrite (proj2 (N.ltb_lt (a * 64 + c1) 2048)) by lia.
  destruct (divmod_unique (a * 64 + c1) 64 a c1) as [-> ->]; [lia..|]. done.
Qed.

Lemma encode1_3 a c1 c2 :
  a < 16 → c1 < 64 → c2 < 64 → 2048 ≤ (a * 64 + c1) * 64 + c2 →
  encode1 ((a * 64 + c1) * 64 + c2)
  = [byte_of (224 + a); byte_of (128 + c1); byte_of (128 + c2)].
Proof.
  intros Ha H1 H2 Hcp. unfold encode1.
  rewrite (proj2 (N.ltb_ge _ 128)) by lia.
  rewrite (proj2 (N.ltb_ge _ 2048)) by lia.
  rewrite (proj2 (N.ltb_lt _ 65536)) by lia.
  destruct (divmod_unique ((a * 64 + c1) * 64 + c2) 4096 a (c1 * 64 + c2))
    as [-> _]; [lia..|].
  destruct (divmod_unique ((a * 64 + c1) * 64 + c2) 64 (a * 64 + c1) c2)
    as [-> ->]; [lia..|].
  destruct (divmod_unique (a * 64 + c1) 64 a c1) as [_ ->]; [lia..|]. done.
Qed.

Lemma encode1_4 a c1 c2 c3 :
  a < 8 → c1 < 64 → c2 < 64 → c3 < 64 →
  65536 ≤ ((a * 64 + c1) * 64 + c2) * 64 + c3 →
  encode1 (((a * 64 + c1) * 64 + c2) * 64 + c3)
  = [byte_of (240 + a); byte_of (128 + c1); byte_of (128 + c2);
     byte_of (128 + c3)].
Proof.
  intros Ha H1 H2 H3 Hcp. unfold encode1.
  set (cp := ((a * 64 + c1) * 64 + c2) * 64 + c3) in *.
  rewrite (proj2 (N.ltb_ge cp 128)) by lia.
  rewrite (proj2 (N.ltb_ge cp 2048)) by lia.
  rewrite (proj2 (N.ltb_ge cp 65536)) by lia.
  destruct (divmod_unique cp 262144 a ((c1 * 64 + c2) * 64 + c3))
    as [-> _]; [lia..|].
  destruct (divmod_unique cp 4096 (a * 64 + c1) (c2 * 64 + c3))
    as [-> _]; [lia..|].
  destruct (divmod_unique cp 64 ((a * 64 + c1) * 64 + c2) c3)
    as [-> ->]; [lia..|].
  destruct (divmod_unique (a * 64 + c1) 64 a c1) as [_ ->]; [lia..|].
  destruct (divmod_unique ((a * 64 + c1) * 64 + c2) 64 (a * 64 + c1) c2)
    as [_ ->]; [lia..|]. done.
Qed.

Lemma cont_byte b c : cont b = Some c → c < 64 ∧ byte_of (128 + c) = b.
Proof.
  intros (H1 & H2 & ->)%cont_Some. split; [lia|].
  replace (128 + (Byte.to_N b - 128)) with (Byte.to_N b) by lia.
  apply byte_of_to_N.
Qed.

(** Encoding what the decoder returned gives the bytes back. *)
Lemma decode_encode bs t : decode bs = Some t → encode t = bs.
Proof.
  remember (length bs) as n eqn:Hn. revert bs t Hn.
  induction (lt_wf n) as [n _ IH]. intros bs t -> Hd.
  destruct bs as [|b0 r0]; [by injection Hd as <-|].
  apply decode_cons in Hd
    as [(H0 & t' & Hd & ->)
       |[(Hlo & Hhi & b1 & r1 & c1 & t' & -> & Hc1 & Hs & Hd & ->)
        |[(Hlo & Hhi & b1 & b2 & r2 & c1 & c2 & t' & -> & Hc1 & Hc2 & Hs & Hd & ->)
         |(Hlo & Hhi & b1 & b2 & b3 & r3 & c1 & c2 & c3 & t'
           & -> & Hc1 & Hc2 & Hc3 & Hs & Hd & ->)]]].
  - change (encode (Byte.to_N b0 :: t')) with (encode1 (Byte.to_N b0) ++ encode t').
    rewrite encode1_1, byte_of_to_N by done. simpl. f_equal.
    eapply IH; [|done..]. simpl. lia.
  - apply scalar_true in Hs as (Hs & _).
    apply cont_byte in Hc1 as [Hc1 Hb1].
    change (encode (?cp :: t')) with (encode1 cp ++ encode t').
    rewrite encode1_2 by lia.
    replace (192 + (Byte.to_N b0 - 192)) with (Byte.to_N b0) by lia.
    rewrite byte_of_to_N, Hb1. simpl. do 2 f_equal.
    eapply IH; [|done..]. simpl. lia.
  - apply scalar_true in Hs as (Hs & _).
    apply cont_byte in Hc1 as [Hc1 Hb1]. apply cont_byte in Hc2 as [Hc2 Hb2].
    change (encode (?cp :: t')) with (encode1 cp ++ encode t').
    rewrite encode1_3 by lia.
    replace (224 + (Byte.to_N b0 - 224)) with (Byte.to_N b0) by lia.
    rewrite byte_of_to_N, Hb1, Hb2. simpl. do 3 f_equal.
    eapply IH; [|done..]. simpl. lia.
  - apply scalar_true in Hs as (Hs & _).
    apply cont_byte in Hc1 as [Hc1 Hb1]. apply cont_byte in Hc2 as [Hc2 Hb2].
    apply cont_byte in Hc3 as [Hc3 Hb3].
    change (encode (?cp :: t')) with (encode1 cp ++ encode t').
    rewrite encode1_4 by lia.
    replace (240 + (Byte.to_N b0 - 240)) with (Byte.to_N b0) by lia.
    rewrite byte_of_to_N, Hb1, Hb2, Hb3. simpl. do 4 f_equal.
    eapply IH; [|done..]. simpl. lia.
Qed.

Lemma encode_cons cp t : encode (cp :: t) = encode1 cp ++ encode t.
Proof. reflexivity. Qed.

(** A file without a carriage-return byte decodes to a text without a
    carriage return. *)
Lemma decode_no_cr bs t : decode bs = Some t → Byte.x0d ∉ bs → 13 ∉ t.
Proof.
  intros Hd%decode_encode Hn Hin. apply Hn. rewrite <-Hd.
  apply list_elem_of_In, in_flat_map. exists 13.
  split; [by apply list_elem_of_In|]. by left.
Qed.

Lemma translate_in_crlf r : translate_in (13 :: 10 :: r) = 10 :: translate_in r.
Proof. reflexivity. Qed.

Lemma translate_in_cr_nil : translate_in [13] = [10].
Proof. reflexivity. Qed.

Lemma translate_in_other c r :
  c ≠ 13 → translate_in (c :: r) = c :: translate_in r.
Proof.
  intros Hc. destruct c as [|p]; [done|].
  do 4 (try (destruct p as [p|p|]; try done)).
Qed.

Lemma translate_in_cr c r :
  c ≠ 10 → translate_in (13 :: c :: r) = 10 :: translate_in (c :: r).
Proof.
  intros Hc. destruct c as [|p]; [done|].
  do 4 (try (destruct p as [p|p|]; try done)).
Qed.

Lemma translate_in_id t : 13 ∉ t → translate_in t = t.
Proof.
  induction t as [|c r IH]; [done|]. intros Hn.
  rewrite translate_in_other by (intros ->; apply Hn; left).
  f_equal. apply IH. intros Hin. apply Hn. by right.
Qed.

Lemma translate_in_no_cr t : 13 ∉ translate_in t.
Proof.
  remember (length t) as n eqn:Hn. revert t Hn.
  induction (lt_wf n) as [n _ IH]. intros t ->.
  destruct t as [|c r]; [by intros ?%elem_of_nil|].
  destruct (decide (c = 13)) as [->|Hc].
  - destruct r as [|d r].
    + rewrite translate_in_cr_nil. by intros [=]%list_elem_of_singleton.
    + destruct (decide (d = 10)) as [->|Hd].
      * rewrite translate_in_crlf. intros [[=]|Hin]%elem_of_cons.
        revert Hin. eapply IH; [|done]. simpl. lia.
      * rewrite translate_in_cr by done. intros [[=]|Hin]%elem_of_cons.
        revert Hin. eapply IH; [|done]. simpl. lia.
  - rewrite translate_in_other by done. intros [?|Hin]%elem_of_cons; [done|].
    revert Hin. eapply IH; [|done]. simpl. lia.
Qed.

Lemma elem_of_translate_in c t : c ∈ translate_in t → c ∈ t ∨ c = 10.
Proof.
  remember (length t) as n eqn:Hn. revert t Hn.
  induction (lt_wf n) as [n _ IH]. intros t ->.
  destruct t as [|d r]; [by intros ?%elem_of_nil|].
  destruct (decide (d = 13)) as [->|Hd].
  - destruct r as [|d r].
    + rewrite translate_in_cr_nil. intros ->%list_elem_of_singleton. by right.
    + destruct (decide (d = 10)) as [->|Hd].
      * rewrite translate_in_crlf. intros [->|Hin]%elem_of_cons; [by right|].
        destruct (IH (length r) ltac:(simpl; lia) r eq_refl Hin) as [Hr| ->];
          [|by right].
        rewrite !elem_of_cons. auto.
      * rewrite translate_in_cr by done. intros [->|Hin]%elem_of_cons; [by right|].
        destruct (IH (length (d :: r)) ltac:(simpl; lia) (d :: r) eq_refl Hin)
          as [Hr| ->]; [|by right].
        rewrite elem_of_cons. auto.
  - rewrite translate_in_other by done. intros [->|Hin]%elem_of_cons.
    + left. by left.
    + destruct (IH (length r) ltac:(simpl; lia) r eq_refl Hin) as [Hr| ->];
        [|by right].
      rewrite elem_of_cons. auto.
Qed.

Lemma translate_out_cons os c t :
  translate_out os (c :: t)
  = (if c =? 10 then linesep os else [c]) ++ translate_out os t.
Proof. reflexivity. Qed.

Lemma translate_out_posix t : translate_out posix t = t.
Proof.
  induction t as [|c r IH]; [done|]. rewrite translate_out_cons, IH.
  destruct (c =? 10) eqn:Hc; [|done]. apply N.eqb_eq in Hc as ->. done.
Qed.

Lemma elem_of_translate_out os c t :
  c ∈ translate_out os t → c ∈ t ∨ c = 13 ∨ c = 10.
Proof.
  induction t as [|d r IH]; [by intros ?%elem_of_nil|].
  rewrite translate_out_cons. intros [Hin|Hin]%elem_of_app.
  - destruct (d =? 10).
    + right. destruct os; simpl in Hin.
      * apply list_elem_of_singleton in Hin. by right.
      * apply elem_of_cons in Hin as [->|Hin]; [by left|].
        apply list_elem_of_singleton in Hin. by right.
    + apply list_elem_of_singleton in Hin as ->. left. by left.
  - apply IH in Hin as [Hin|Hin]; [|by right]. left. by right.
Qed.

(** What was written is read back unchanged when it holds no carriage
    return, on either platform. *)
Lemma translate_in_out os u : 13 ∉ u → translate_in (translate_out os u) = u.
Proof.
  induction u as [|c r IH]; [done|]. intros Hn.
  assert (Hc : c ≠ 13) by (intros ->; apply Hn; left).
  assert (Hr : 13 ∉ r) by (intros Hin; apply Hn; by right).
  rewrite translate_out_cons. destruct (c =? 10) eqn:Hc10.
  - apply N.eqb_eq in Hc10 as ->. destruct os; simpl linesep; simpl app.
    + rewrite translate_in_other by done. by rewrite IH.
    + rewrite translate_in_crlf. by rewrite IH.
  - simpl app. rewrite translate_in_other by done. by rewrite IH.
Qed.

Lemma crlf_only_crlf r : crlf_only (13 :: 10 :: r) = crlf_only r.
Proof. reflexivity. Qed.

Lemma crlf_only_lf r : crlf_only (10 :: r) = false.
Proof. reflexivity. Qed.

Lemma crlf_only_cr_nil : crlf_only [13] = false.
Proof. reflexivity. Qed.

Lemma crlf_only_cr c r : c ≠ 10 → crlf_only (13 :: c :: r) = false.
Proof.
  intros Hc. destruct c as [|p]; [done|].
  do 4 (try (destruct p as [p|p|]; try done)).
Qed.

Lemma crlf_only_other c r :
  c ≠ 13 → c ≠ 10 → crlf_only (c :: r) = crlf_only r.
Proof.
  intros Hc Hc'. destruct c as [|p]; [done|].
  do 4 (try (destruct p as [p|p|]; try done)).
Qed.

(** A text with Windows line ends only is written back as it was read on
    Windows. *)
Lemma translate_out_in_nt t :
  crlf_only t = true → translate_out nt (translate_in t) = t.
Proof.
  remember (length t) as n eqn:Hn. revert t Hn.
  induction (lt_wf n) as [n _ IH]. intros t ->.
  destruct t as [|c r]; [done|].
  destruct (decide (c = 13)) as [->|Hc].
  - destruct r as [|d r]; [by rewrite crlf_only_cr_nil|].
    destruct (decide (d = 10)) as [->|Hd]; [|by rewrite crlf_only_cr].
    rewrite crlf_only_crlf, translate_in_crlf, translate_out_cons. intros Hr.
    simpl. do 2 f_equal. eapply IH; [|done..]. simpl. lia.
  - destruct (decide (c = 10)) as [->|Hc']; [by rewrite crlf_only_lf|].
    rewrite crlf_only_other, translate_in_other, translate_out_cons by done.
    intros Hr. rewrite (proj2 (N.eqb_neq c 10)) by done.
    simpl. f_equal. eapply IH; [|done..]. simpl. lia.
Qed.

Lemma scalar_intro least cp :
  least ≤ cp → cp ≤ 1114111 → ¬ (55296 ≤ cp ∧ cp ≤ 57343) →
  scalar least cp = true.
Proof.
  intros H1 H2 H3. unfold scalar.
  rewrite !andb_true_iff, negb_true_iff, andb_false_iff.
  rewrite !N.leb_le, !N.leb_gt. lia.
Qed.

Lemma cont_byte_of c : c < 64 → cont (byte_of (128 + c)) = Some c.
Proof.
  intros Hc. unfold cont. rewrite to_N_byte_of by lia.
  rewrite (proj2 (N.leb_le 128 (128 + c))) by lia.
  rewrite (proj2 (N.ltb_lt (128 + c) 192)) by lia.
  simpl. f_equal. lia.
Qed.

Lemma split64 x : ∃ q r, x = q * 64 + r ∧ r < 64.
Proof.
  exists (x / 64), (x mod 64). split.
  - rewrite N.mul_comm. by apply N.div_mod.
  - by apply N.mod_lt.
Qed.

Lemma decode_1 n bs :
  n < 128 → decode (byte_of n :: bs) = cons n <$> decode bs.
Proof.
  intros Hn. cbn [decode]. cbv zeta. rewrite to_N_byte_of by lia.
  by rewrite (proj2 (N.ltb_lt n 128)) by lia.
Qed.

Lemma decode_2 a c1 bs :
  a < 32 → c1 < 64 → scalar 128 (a * 64 + c1) = true →
  decode (byte_of (192 + a) :: byte_of (128 + c1) :: bs)
  = cons (a * 64 + c1) <$> decode bs.
Proof.
  intros Ha H1 Hs. cbn [decode]. cbv zeta. rewrite to_N_byte_of by lia.
  rewrite (proj2 (N.ltb_ge (192 + a) 128)) by lia.
  rewrite (proj2 (N.ltb_ge (192 + a) 192)) by lia.
  rewrite (proj2 (N.ltb_lt (192 + a) 224)) by lia.
  rewrite cont_byte_of by done.
  replace (192 + a - 192) with a by lia. by rewrite Hs.
Qed.

Lemma decode_3 a c1 c2 bs :
  a < 16 → c1 < 64 → c2 < 64 →
  scalar 2048 ((a * 64 + c1) * 64 + c2) = true →
  decode (byte_of (224 + a) :: byte_of (128 + c1) :: byte_of (128 + c2) :: bs)
  = cons ((a * 64 + c1) * 64 + c2) <$> decode bs.
Proof.
  intros Ha H1 H2 Hs. cbn [decode]. cbv zeta. rewrite to_N_byte_of by lia.
  rewrite (proj2 (N.ltb_ge (224 + a) 128)) by lia.
  rewrite (proj2 (N.ltb_ge (224 + a) 192)) by lia.
  rewrite (proj2 (N.ltb_ge (224 + a) 224)) by lia.
  rewrite (proj2 (N.ltb_lt (224 + a) 240)) by lia.
  rewrite !cont_byte_of by done.
  replace (224 + a - 224) with a by lia. by rewrite Hs.
Qed.

Lemma decode_4 a c1 c2 c3 bs :
  a < 8 → c1 < 64 → c2 < 64 → c3 < 64 →
  scalar 65536 (((a * 64 + c1) * 64 + c2) * 64 + c3) = true →
  decode (byte_of (240 + a) :: byte_of (128 + c1) :: byte_of (128 + c2)
          :: byte_of (128 + c3) :: bs)
  = cons (((a * 64 + c1) * 64 + c2) * 64 + c3) <$> decode bs.
Proof.
  intros Ha H1 H2 H3 Hs. cbn [decode]. cbv zeta. rewrite to_N_byte_of by lia.
  rewrite (proj2 (N.ltb_ge (240 + a) 128)) by lia.
  rewrite (proj2 (N.ltb_ge (240 + a) 192)) by lia.
  rewrite (proj2 (N.ltb_ge (240 + a) 224)) by lia.
  rewrite (proj2 (N.ltb_ge (240 + a) 240)) by lia.
  rewrite (proj2 (N.ltb_lt (240 + a) 248)) by lia.
  rewrite !cont_byte_of by done.
  replace (240 + a - 240) with a by lia. by rewrite Hs.
Qed.

(** Decoding the bytes of one code point gives it back. *)
Lemma decode_encode1 cp bs :
  scalar 0 cp = true → decode (encode1 cp ++ bs) = cons cp <$> decode bs.
Proof.
  intros (_ & Hmax & Hsur)%scalar_true.
  destruct (decide (cp < 128)) as [H1|H1].
  { rewrite encode1_1 by done. by apply decode_1. }
  destruct (split64 cp) as (q1 & c1 & -> & Hc1).
  destruct (decide (q1 < 32)) as [H2|H2].
  { rewrite encode1_2 by lia. apply decode_2; [done..|].
    apply scalar_intro; lia. }
  destruct (split64 q1) as (q2 & c2 & -> & Hc2).
  destruct (decide (q2 < 16)) as [H3|H3].
  { rewrite encode1_3 by lia. apply decode_3; [done..|].
    apply scalar_intro; lia. }
  destruct (split64 q2) as (q3 & c3 & -> & Hc3).
  rewrite encode1_4 by lia. apply decode_4; [lia|done..|].
  apply scalar_intro; lia.
Qed.

Lemma encode_decode u :
  Forall (λ cp, scalar 0 cp = true) u → decode (encode u) = Some u.
Proof.
  induction 1 as [|cp u Hcp _ IH]; [done|].
  by rewrite encode_cons, decode_encode1, IH.
Qed.

(** The decoder returns code points only. *)
Lemma decode_scalars bs t :
  decode bs = Some t → Forall (λ cp, scalar 0 cp = true) t.
Proof.
  remember (length bs) as n eqn:Hn. revert bs t Hn.
  induction (lt_wf n) as [n _ IH]. intros bs t -> Hd.
  destruct bs as [|b0 r0]; [injection Hd as <-; constructor|].
  apply decode_cons in Hd
    as [(H0 & t' & Hd & ->)
       |[(Hlo & Hhi & b1 & r1 & c1 & t' & -> & Hc1 & Hs & Hd & ->)
        |[(Hlo & Hhi & b1 & b2 & r2 & c1 & c2 & t' & -> & Hc1 & Hc2 & Hs & Hd & ->)
         |(Hlo & Hhi & b1 & b2 & b3 & r3 & c1 & c2 & c3 & t'
           & -> & Hc1 & Hc2 & Hc3 & Hs & Hd & ->)]]];
    (constructor; [|eapply IH; [|done..]; simpl; lia]).
  - apply scalar_intro; lia.
  - apply scalar_true in Hs. apply scalar_intro; lia.
  - apply scalar_true in Hs. apply scalar_intro; lia.
  - apply scalar_true in Hs. apply scalar_intro; lia.
Qed.

Lemma scalars_translate os t :
  Forall (λ cp, scalar 0 cp = true) t →
  Forall (λ cp, scalar 0 cp = true) (translate_out os (translate_in t)).
Proof.
  rewrite !Forall_forall. intros Ht c [Hc|[->| ->]]%elem_of_translate_out;
    [|done..].
  apply elem_of_translate_in in Hc as [Hc| ->]; [|done]. by apply Ht.
Qed.

Lemma encode_inj u v :
  Forall (λ cp, scalar 0 cp = true) u → Forall (λ cp, scalar 0 cp = true) v →
  encode u = encode v → u = v.
Proof.
  intros Hu%encode_decode Hv%encode_decode Heq.
  rewrite Heq, Hv in Hu. by injection Hu.
Qed.

(** A text that was read can be written and read again, on either
    platform, and is the same text then. *)
Lemma read_write_text os bs text :
  read_text bs = Some text → read_text (write_text os text) = Some text.
Proof.
  unfold read_text, write_text.
  destruct (decode bs) as [t|] eqn:Hd; [|done]. intros [= <-].
  rewrite encode_decode by (by eapply scalars_translate, decode_scalars).
  simpl. f_equal. apply translate_in_out, translate_in_no_cr.
Qed.

Lemma byte_of_cr n : n < 256 → byte_of n = Byte.x0d → n = 13.
Proof. intros Hn Hb. apply (f_equal Byte.to_N) in Hb. by rewrite to_N_byte_of in Hb. Qed.

Lemma encode1_no_cr cp :
  scalar 0 cp = true → cp ≠ 13 → Byte.x0d ∉ encode1 cp.
Proof.
  intros (_ & Hmax & _)%scalar_true Hcp.
  destruct (decide (cp < 128)) as [H1|H1].
  { rewrite encode1_1 by done. intros Hin%list_elem_of_singleton.
    symmetry in Hin. apply byte_of_cr in Hin; lia. }
  destruct (split64 cp) as (q1 & c1 & -> & Hc1).
  destruct (decide (q1 < 32)) as [H2|H2].
  { rewrite encode1_2 by lia. rewrite !elem_of_cons, elem_of_nil.
    intros [Hin|[Hin|[]]]; symmetry in Hin; apply byte_of_cr in Hin; lia. }
  destruct (split64 q1) as (q2 & c2 & -> & Hc2).
  destruct (decide (q2 < 16)) as [H3|H3].
  { rewrite encode1_3 by lia. rewrite !elem_of_cons, elem_of_nil.
    intros [Hin|[Hin|[Hin|[]]]]; symmetry in Hin; apply byte_of_cr in Hin; lia. }
  destruct (split64 q2) as (q3 & c3 & -> & Hc3).
  rewrite encode1_4 by lia. rewrite !elem_of_cons, elem_of_nil.
  intros [Hin|[Hin|[Hin|[Hin|[]]]]]; symmetry in Hin; apply byte_of_cr in Hin; lia.
Qed.

Lemma encode_no_cr t :
  Forall (λ cp, scalar 0 cp = true) t → 13 ∉ t → Byte.x0d ∉ encode t.
Proof.
  induction 1 as [|cp t Hcp _ IH]; [by intros _ ?%elem_of_nil|].
  intros Hn. rewrite encode_cons. intros [Hin|Hin]%elem_of_app.
  - revert Hin. apply encode1_no_cr; [done|]. intros ->. apply Hn. left.
  - revert Hin. apply IH. intros Hin. apply Hn. by right.
Qed.

(** On POSIX the text that is written for a text that was read encodes to
    the bytes that were read exactly when these hold no carriage return. *)
Lemma write_read_posix bs text :
  read_text bs = Some text → write_text posix text = bs ↔ Byte.x0d ∉ bs.
Proof.
  unfold read_text, write_text.
  destruct (decode bs) as [t|] eqn:Hd; [|done]. intros [= <-].
  rewrite translate_out_posix. split.
  - intros Heq. rewrite <-(decode_encode _ _ Hd) in Heq |- *.
    pose proof (decode_scalars _ _ Hd) as Hv.
    apply encode_inj in Heq; [|by rewrite <-(translate_out_posix (translate_in t));
                                 apply scalars_translate|done].
    apply encode_no_cr; [done|]. rewrite <-Heq. apply translate_in_no_cr.
  - intros Hn. rewrite translate_in_id by (by eapply decode_no_cr).
    by apply decode_encode.
Qed.

Lemma translate_out_in_nt_inv t :
  translate_out nt (translate_in t) = t → crlf_only t = true.
Proof.
  remember (length t) as n eqn:Hn. revert t Hn.
  induction (lt_wf n) as [n _ IH]. intros t ->.
  destruct t as [|c r]; [done|].
  destruct (decide (c = 13)) as [->|Hc].
  - destruct r as [|d r]; [by rewrite translate_in_cr_nil|].
    destruct (decide (d = 10)) as [->|Hd].
    + rewrite crlf_only_crlf, translate_in_crlf, translate_out_cons.
      simpl. intros [= Hr]. eapply IH; [|done..]. simpl. lia.
    + rewrite translate_in_cr, translate_out_cons by done. simpl.
      intros [= Hd' _]. done.
  - destruct (decide (c = 10)) as [->|Hc'].
    + rewrite translate_in_other, translate_out_cons by done. simpl. by intros [=].
    + rewrite crlf_only_other, translate_in_other, translate_out_cons by done.
      rewrite (proj2 (N.eqb_neq c 10)) by done. simpl. intros [= Hr].
      eapply IH; [|done..]. simpl. lia.
Qed.

(** On Windows the text that is written for a text that was read encodes
    to the bytes that were read exactly when every line of the text that was
    decoded ends with "\r\n". *)
Lemma write_read_nt bs t :
  decode bs = Some t →
  write_text nt (translate_in t) = bs ↔ crlf_only t = true.
Proof.
  intros Hd. unfold write_text. split.
  - intros Heq. rewrite <-(decode_encode _ _ Hd) in Heq.
    pose proof (decode_scalars _ _ Hd) as Hv.
    apply encode_inj in Heq; [|by apply scalars_translate|done].
    by apply translate_out_in_nt_inv.
  - intros Hc. rewrite translate_out_in_nt by done. by apply decode_encode.
Qed.

End TextFacts.

(** ** Backups and saving: every outcome *)

Section PersistenceFacts.

Context {platform : Platform}.

Lemma create_backup_ok self w bs text :
  files w !! file_path self = Some bs →
  PyText.read_text bs = Some text →
  (file_path self ++ ".backup")%string ∉ readonly w →
  create_backup self w
  = (inr (file_path self ++ ".backup")%string,
     {| files := <[(file_path self ++ ".backup")%string
                   := PyText.write_text os text]> (files w);
        readonly := readonly w;
        stdout := stdout w
                  ++ [("Created backup at: " ++ file_path self ++ ".backup")%string] |}).
Proof.
  intros Hfile Htext Hro. rewrite create_backup_run, Hfile. simpl.
  rewrite bool_decide_eq_false_2 by done. by rewrite Htext.
Qed.

Lemma save_falsy self out w :
  truthy out = false → save self out w = save self None w.
Proof. by destruct out as [[|a s]|]. Qed.

Lemma save_to_run self p w :
  p ≠ EmptyString →
  save self (Some p) w =
  if bool_decide (p ∈ readonly w) then
    (inl (Exn OSError
       ("Error saving file: [Errno 13] Permission denied: '" ++ p ++ "'")), w)
  else
    (inr tt,
     {| files := <[p := ET_tostring (root self)]> (files w);
        readonly := readonly w;
        stdout := stdout w ++ [("Successfully saved to: " ++ p)%string] |}).
Proof.
  intros Hp. destruct p as [|a s]; [done|].
  unfold save, try_except, mbind, Py_bind, bind, tree_write. simpl.
  unfold open_w, mbind, Py_bind, bind. case_bool_decide as Hro; [done|]. simpl.
  unfold write_bytes, print. simpl.
  by rewrite lookup_insert_eq, insert_insert_eq.
Qed.

(** X14: on POSIX the backup of a preset that is valid UTF-8 is the
    preset byte for byte exactly when the preset holds no carriage-return
    byte; the call returns the backup path either way. *)
Theorem backup_identical_posix self w bs :
  os = PyText.posix →
  files w !! file_path self = Some bs →
  is_Some (PyText.decode bs) →
  (file_path self ++ ".backup")%string ∉ readonly w →
  ∃ w' bs',
    create_backup self w = (inr (file_path self ++ ".backup")%string, w')
    ∧ files w' !! (file_path self ++ ".backup")%string = Some bs'
    ∧ (bs' = bs ↔ Byte.x0d ∉ bs).
Proof.
  intros Hos Hfile [t Hd] Hro.
  assert (Htext : PyText.read_text bs = Some (PyText.translate_in t))
    by (unfold PyText.read_text; by rewrite Hd).
  eexists _, _. split; [by eapply create_backup_ok|].
  simpl. rewrite lookup_insert_eq, Hos. split; [done|].
  by apply TextFacts.write_read_posix.
Qed.

(** X15: on Windows the backup of a preset that is valid UTF-8 is the
    preset byte for byte exactly when every line end of its text is "\r\n":
    no "\n" without a "\r" before it and no "\r" without a "\n" after it. *)
Theorem backup_identical_nt self w bs t :
  os = PyText.nt →
  files w !! file_path self = Some bs →
  PyText.decode bs = Some t →
  (file_path self ++ ".backup")%string ∉ readonly w →
  ∃ w' bs',
    create_backup self w = (inr (file_path self ++ ".backup")%string, w')
    ∧ files w' !! (file_path self ++ ".backup")%string = Some bs'
    ∧ (bs' = bs ↔ crlf_only t = true).
Proof.
  intros Hos Hfile Hd Hro.
  assert (Htext : PyText.read_text bs = Some (PyText.translate_in t))
    by (unfold PyText.read_text; by rewrite Hd).
  eexists _, _. split; [by eapply create_backup_ok|].
  simpl. rewrite lookup_insert_eq, Hos. split; [done|].
  by apply TextFacts.write_read_nt.
Qed.

(** X16: on either platform the backup of a preset that is valid UTF-8
    reads, opened as the preset was, as the same text; the preset and every
    other file stay as they were. *)
Theorem backup_reads_the_same self w bs text :
  files w !! file_path self = Some bs →
  PyText.read_text bs = Some text →
  (file_path self ++ ".backup")%string ∉ readonly w →
  ∃ w' bs',
    create_backup self w = (inr (file_path self ++ ".backup")%string, w')
    ∧ files w' !! (file_path self ++ ".backup")%string = Some bs'
    ∧ PyText.read_text bs' = Some text
    ∧ ∀ q, q ≠ (file_path self ++ ".backup")%string →
           files w' !! q = files w !! q.
Proof.
  intros Hfile Htext Hro.
  eexists _, _. split; [by eapply create_backup_ok|].
  simpl. rewrite lookup_insert_eq. split; [done|]. split.
  - by eapply TextFacts.read_write_text.
  - intros q Hq. by rewrite lookup_insert_ne.
Qed.

(** X17: [save] with an output path writes the tree to that path and
    nothing else: no backup is made and no other file changes, also when the
    path is the preset's own.  It fails only when the path cannot be written,
    with the [IOError] of [save], and the world is as before then. *)
Theorem save_to_output_path self p w res w' :
  p ≠ EmptyString →
  save self (Some p) w = (res, w') →
  (∀ q, q ≠ p → files w' !! q = files w !! q)
  ∧ readonly w' = readonly w
  ∧ match res with
    | inr _ =>
        (p ∉ readonly w)
        ∧ files w' !! p = Some (ET_tostring (root self))
        ∧ stdout w' = stdout w ++ [("Successfully saved to: " ++ p)%string]
    | inl e =>
        p ∈ readonly w ∧ w' = w
        ∧ e = Exn OSError
                ("Error saving file: [Errno 13] Permission denied: '" ++ p ++ "'")
    end.
Proof.
  intros Hp. rewrite save_to_run by done.
  case_bool_decide as Hro; intros [= <- <-]; simpl.
  - done.
  - split; [|by rewrite lookup_insert_eq].
    intros q Hq. by rewrite lookup_insert_ne.
Qed.

(** X18: [save] without an output path (or with an empty one) touches
    only the preset and its backup.  When it succeeds the preset was valid
    UTF-8, the backup holds its text written again and the preset holds the
    serialized tree; when it fails the preset is as it was. *)
Theorem save_in_place self out w res w' :
  truthy out = false →
  save self out w = (res, w') →
  (∀ q, q ≠ file_path self → q ≠ (file_path self ++ ".backup")%string →
        files w' !! q = files w !! q)
  ∧ readonly w' = readonly w
  ∧ match res with
    | inr _ =>
        ∃ bs text,
          files w !! file_path self = Some bs
          ∧ PyText.read_text bs = Some text
          ∧ files w' !! (file_path self ++ ".backup")%string
            = Some (PyText.write_text os text)
          ∧ files w' !! file_path self = Some (ET_tostring (root self))
          ∧ stdout w' = stdout w
              ++ [("Created backup at: " ++ file_path self ++ ".backup")%string;
                  ("Successfully saved to: " ++ file_path self)%string]
    | inl _ => files w' !! file_path self = files w !! file_path self
    end.
Proof.
  intros Hout. rewrite save_falsy, save_in_place_run, create_backup_run by done.
  simpl.
  assert (Hne : (file_path self ++ ".backup")%string ≠ file_path self)
    by (intros Heq; by apply (backup_path_ne (file_path self))).
  destruct (files w !! file_path self) as [bs|] eqn:Hfile; simpl.
  2: { intros [= <- <-]. by rewrite Hfile. }
  case_bool_decide as Hro; simpl.
  { intros [= <- <-]. by rewrite Hfile. }
  destruct (PyText.read_text bs) as [text|] eqn:Htext; simpl.
  2: { intros [= <- <-]. simpl. split; [|split; [done|]].
       - intros q _ Hq. by rewrite lookup_insert_ne.
       - by rewrite lookup_insert_ne. }
  case_bool_decide as Hro'; simpl.
  { intros [= <- <-]. simpl. split; [|split; [done|]].
    - intros q _ Hq. by rewrite lookup_insert_ne.
    - by rewrite lookup_insert_ne. }
  intros [= <- <-]. simpl. split; [|split; [done|]].
  - intros q Hq Hq'. by rewrite !lookup_insert_ne.
  - exists bs, text. split; [done|]. split; [done|].
    rewrite lookup_insert_ne, !lookup_insert_eq by done.
    by rewrite <-app_assoc.
Qed.

(** X19: the failures of [save] without an output path, in their order:
    the preset is missing, or the backup cannot be written (an [IOError] that
    quotes the error of the backup; the world is as before); the preset is
    not valid UTF-8 (the [UnicodeDecodeError] leaves [save] as it is, and the
    backup file is left empty); or the preset cannot be written (an
    [IOError]; the backup has been made). *)
Theorem save_in_place_failures self out w e w' :
  truthy out = false →
  save self out w = (inl e, w') →
  (files w !! file_path self = None ∧ w' = w
   ∧ e = Exn OSError
       ("Error saving file: Error creating backup: [Errno 2] No such file or directory: '"
        ++ file_path self ++ "'"))
  ∨ (is_Some (files w !! file_path self)
     ∧ (file_path self ++ ".backup")%string ∈ readonly w ∧ w' = w
     ∧ e = Exn OSError
         ("Error saving file: Error creating backup: [Errno 13] Permission denied: '"
          ++ (file_path self ++ ".backup") ++ "'"))
  ∨ (((file_path self ++ ".backup")%string ∉ readonly w)
     ∧ (∃ bs, files w !! file_path self = Some bs ∧ PyText.decode bs = None)
     ∧ files w' = <[(file_path self ++ ".backup")%string := []]> (files w)
     ∧ stdout w' = stdout w
     ∧ exn_type e = UnicodeDecodeError)
  ∨ (((file_path self ++ ".backup")%string ∉ readonly w)
     ∧ file_path self ∈ readonly w
     ∧ (∃ bs text, files w !! file_path self = Some bs
                   ∧ PyText.read_text bs = Some text
                   ∧ files w' = <[(file_path self ++ ".backup")%string
                                  := PyText.write_text os text]> (files w))
     ∧ e = Exn OSError
         ("Error saving file: [Errno 13] Permission denied: '"
          ++ file_path self ++ "'")).
Proof.
  intros Hout. rewrite save_falsy, save_in_place_run, create_backup_run by done.
  simpl.
  destruct (files w !! file_path self) as [bs|] eqn:Hfile; simpl.
  2: { intros [= <- <-]. by left. }
  case_bool_decide as Hro; simpl.
  { intros [= <- <-]. right. left. split; [done|]. split; [done|]. done. }
  destruct (PyText.read_text bs) as [text|] eqn:Htext; simpl.
  2: { intros [= <- <-]. right. right. left. simpl. split; [done|].
       split; [|done]. exists bs. split; [done|].
       unfold PyText.read_text in Htext. by destruct (PyText.decode bs). }
  case_bool_decide as Hro'; simpl; [|done].
  intros [= <- <-]. right. right. right. simpl. split; [done|]. split; [done|].
  split; [|done]. by exists bs, text.
Qed.

End PersistenceFacts.

(** ** The report *)

Section ReportFacts.

Context {py : Builtins}.

Lemma preview_self self sel dx dy dw dh :
  m_self (modify_controls self sel dx dy dw dh true) = self.
Proof.
  destruct (modify_apply self sel dx dy dw dh true) as (Hr & _ & Hf & Hu & Hc).
  by apply self_eta.
Qed.

Lemma warnings_any_mode self sel dx dy dw dh p1 p2 :
  m_warnings (modify_controls self sel dx dy dw dh p1)
  = m_warnings (modify_controls self sel dx dy dw dh p2).
Proof.
  unfold modify_controls.
  by do 2 destruct (if _ : bool then _ else _) as [? ?].
Qed.

(** X20: the preview prints what the apply call after it prints: the
    same warnings and the same report, apart from the heading, which reads
    "Preview of changes:" in the one and "Applied changes:" in the other when
    there is a change record; without one both print the same notice. *)
Theorem preview_report_matches self sel dx dy dw dh :
  let pre := modify_controls self sel dx dy dw dh true in
  let app := modify_controls (m_self pre) sel dx dy dw dh false in
  m_warnings app = m_warnings pre
  ∧ drop 1 (m_report app) = drop 1 (m_report pre)
  ∧ match m_changes pre with
    | [] => m_report app = m_report pre
    | _ => head (m_report pre) = Some (nl ++ "Preview of changes:")%string
           ∧ head (m_report app) = Some (nl ++ "Applied changes:")%string
    end.
Proof.
  intros pre app. subst app pre. rewrite preview_self.
  split; [apply warnings_any_mode|].
  pose proof (modify_report self sel dx dy dw dh true) as Hp.
  pose proof (modify_report self sel dx dy dw dh false) as Ha.
  cbv zeta in Hp, Ha. rewrite Hp, Ha, !modify_changes.
  by destruct (omap _ _).
Qed.

Lemma add_zero_eqb (x z : float) :
  (z =? 0)%float = true → (x =? x + z)%float = negb (is_nan x).
Proof.
  unfold is_nan. rewrite !FloatAxioms.eqb_spec, FloatAxioms.add_spec.
  replace (Prim2SF 0) with (S754_zero false) by (vm_compute; reflexivity).
  unfold SF64add, SFeqb.
  destruct (Prim2SF z) as [sz|sz| |sz mz ez]; simpl; [|by destruct sz|done|by destruct sz].
  intros _.
  destruct (Prim2SF x) as [sx|sx| |sx mx ex]; simpl.
  - by destruct sx, sz.
  - by destruct sx.
  - done.
  - by rewrite negb_involutive.
Qed.

Lemma attr_line_zero a (x z : float) :
  (z =? 0)%float = true → attr_line a x (x + z) = [] ↔ is_nan x = false.
Proof.
  intros Hz. unfold attr_line. rewrite add_zero_eqb by done.
  by destruct (is_nan x).
Qed.

(** X21: when the four offsets are zero, the report shows for a change
    record only its heading and its rule, without a line for an attribute,
    exactly when none of the four old values is a NaN: a NaN differs from
    itself and is reported as changed. *)
Theorem zero_offsets_report self sel dx dy dw dh preview c :
  (dx =? 0)%float = true → (dy =? 0)%float = true →
  (dw =? 0)%float = true → (dh =? 0)%float = true →
  c ∈ m_changes (modify_controls self sel dx dy dw dh preview) →
  change_lines c
  = [("Control ID: " ++ c_id c ++ " (Type: " ++ c_type c ++ ")")%string; dashes 30]
  ↔ is_nan (r_x (c_old c)) = false ∧ is_nan (r_y (c_old c)) = false
    ∧ is_nan (r_width (c_old c)) = false ∧ is_nan (r_height (c_old c)) = false.
Proof.
  intros Hx Hy Hw Hh. rewrite modify_changes.
  intros (p & _ & Hc)%list_elem_of_omap.
  assert (Hnew : c_new c = offset (c_old c) dx dy dw dh).
  { unfold change_at in Hc. destruct (elem_at _ _); [|done].
    destruct (type_in _ _); [|done]. destruct (read_rect _); [done|].
    by injection Hc as <-. }
  unfold change_lines. rewrite Hnew. simpl.
  rewrite <-(attr_line_zero "x" _ dx), <-(attr_line_zero "y" _ dy),
    <-(attr_line_zero "width" _ dw), <-(attr_line_zero "height" _ dh) by done.
  split.
  - intros Heq. apply (f_equal length) in Heq. simpl in Heq.
    rewrite !length_app in Heq. simpl in Heq.
    repeat split; apply nil_length_inv; lia.
  - by intros (-> & -> & -> & ->).
Qed.

End ReportFacts.

(** ** The session *)

Section MainFacts.

Context {py : Builtins} {platform : Platform}.

Lemma quiet_refl t : quiet t t.
Proof. done. Qed.

Lemma quiet_trans t1 t2 t3 : quiet t1 t2 → quiet t2 t3 → quiet t1 t3.
Proof.
  intros (H1 & H2 & H3) (H4 & H5 & H6). split; [congruence|].
  split; [congruence|]. by etrans.
Qed.

Lemma lift_print s t :
  lift (print s) t
  = (inr tt, {| world := printed (world t) [s]; stdin := stdin t;
                prompts := prompts t |}).
Proof. done. Qed.

Lemma print_all_run lines w : print_all lines w = (inr tt, printed w lines).
Proof.
  revert w. induction lines as [|l lines IH]; intros w.
  - unfold printed. rewrite app_nil_r. by destruct w.
  - simpl. unfold mbind, Py_bind, bind, print. simpl. rewrite IH.
    unfold printed. simpl. by rewrite <-app_assoc.
Qed.

Lemma lift_print_all lines t :
  lift (print_all lines) t
  = (inr tt, {| world := printed (world t) lines; stdin := stdin t;
                prompts := prompts t |}).
Proof. unfold lift. by rewrite print_all_run. Qed.

Lemma input_nil prompt t :
  stdin t = [] →
  input prompt t
  = (inl EOFError,
     {| world := world t; stdin := []; prompts := prompts t ++ [prompt] |}).
Proof. unfold input. by intros ->. Qed.

Lemma input_cons prompt t line rest :
  stdin t = line :: rest →
  input prompt t
  = (inr line,
     {| world := world t; stdin := rest; prompts := prompts t ++ [prompt] |}).
Proof. unfold input. by intros ->. Qed.

Lemma input_quiet prompt t res t' :
  input prompt t = (res, t') →
  quiet t t' ∧ ∀ line, res = inr line → line ∈ stdin t.
Proof.
  unfold input. destruct (stdin t) as [|l rest] eqn:Hin; intros [= <- <-].
  - split; [|done]. unfold quiet. simpl. by rewrite Hin.
  - split.
    + unfold quiet. simpl. rewrite Hin. split; [done|]. split; [done|].
      by apply suffix_cons_r.
    + intros line [= <-]. left.
Qed.

(** *** The path loop *)

Lemma path_loop_nil fuel t :
  stdin t = [] →
  path_loop fuel t
  = (inl EOFError,
     {| world := world t; stdin := []; prompts := prompts t ++ [path_prompt] |}).
Proof.
  intros Hin. destruct fuel; simpl; unfold mbind, Tty_bind;
    by rewrite input_nil.
Qed.

Lemma path_loop_exit fuel t line rest :
  stdin t = line :: rest → is_exit line = true →
  path_loop fuel t
  = (inr None,
     {| world := world t; stdin := rest; prompts := prompts t ++ [path_prompt] |}).
Proof.
  intros Hin Hexit. unfold is_exit, path_answer in Hexit.
  destruct fuel; simpl; unfold mbind, Tty_bind;
    rewrite (input_cons _ _ _ _ Hin), Hexit; done.
Qed.

Lemma path_loop_accept fuel t line rest :
  stdin t = line :: rest → is_exit line = false → accepted (world t) line = true →
  path_loop fuel t
  = (inr (Some (path_answer line)),
     {| world := world t; stdin := rest; prompts := prompts t ++ [path_prompt] |}).
Proof.
  intros Hin Hexit Hacc. unfold is_exit, accepted, path_answer in *.
  destruct fuel; simpl; unfold mbind, Tty_bind;
    rewrite (input_cons _ _ _ _ Hin), Hexit; unfold lift, os_path_exists;
    simpl; rewrite Hacc; done.
Qed.

Lemma path_loop_reject fuel t line rest :
  stdin t = line :: rest → rejected (world t) line = true →
  path_loop (S fuel) t
  = path_loop fuel
      {| world := printed (world t) [path_error]; stdin := rest;
         prompts := prompts t ++ [path_prompt] |}.
Proof.
  intros Hin [Hexit Hacc]%andb_true_iff.
  apply negb_true_iff in Hexit, Hacc. unfold is_exit, accepted, path_answer in *.
  simpl. unfold mbind at 1. unfold Tty_bind at 1.
  rewrite (input_cons _ _ _ _ Hin), Hexit.
  unfold mbind at 1. unfold Tty_bind at 1. unfold lift at 1, os_path_exists.
  simpl. rewrite Hacc. unfold mbind at 1. unfold Tty_bind at 1.
  rewrite lift_print. done.
Qed.

Lemma printed_nil w : printed w [] = w.
Proof. unfold printed. rewrite app_nil_r. by destruct w. Qed.

Lemma printed_printed w a b : printed (printed w a) b = printed w (a ++ b).
Proof. unfold printed. simpl. by rewrite app_assoc. Qed.

Lemma path_loop_skip bad fuel t rest :
  stdin t = bad ++ rest →
  Forall (λ l, rejected (world t) l = true) bad →
  path_loop (length bad + fuel) t
  = path_loop fuel
      {| world := printed (world t) (replicate (length bad) path_error);
         stdin := rest;
         prompts := prompts t ++ replicate (length bad) path_prompt |}.
Proof.
  revert t. induction bad as [|l bad IH]; intros t Hin Hbad.
  - simpl. rewrite printed_nil, app_nil_r. simpl in Hin. rewrite <-Hin.
    by destruct t.
  - apply Forall_cons in Hbad as [Hl Hbad].
    change (length (l :: bad) + fuel) with (S (length bad + fuel)).
    rewrite (path_loop_reject _ _ l (bad ++ rest)) by done.
    rewrite IH by done. cbn [world stdin prompts length replicate].
    by rewrite printed_printed, <-app_assoc.
Qed.

Lemma main_run t :
  main t
  = match path_loop (length (stdin t))
            {| world := printed (world t) banner; stdin := stdin t;
               prompts := prompts t |} with
    | (inl r, t') => (inl r, t')
    | (inr None, t') => (inr tt, t')
    | (inr (Some file_path), t') =>
        match session file_path t' with
        | (inl e, t'') =>
            (inr tt, {| world := printed (world t'') [("Error: " ++ str_of e)%string];
                        stdin := stdin t''; prompts := prompts t'' |})
        | (inr _, t'') => (inr tt, t'')
        end
    end.
Proof.
  unfold main. unfold mbind at 1. unfold Tty_bind at 1.
  rewrite lift_print_all. unfold mbind at 1. unfold Tty_bind at 1. simpl.
  destruct (path_loop _ _) as [[r|[fp|]] t']; [done| |done].
  unfold except_Exception.
  destruct (session fp t') as [[e|[]] t'']; [|done]. by rewrite lift_print.
Qed.

(** X22: lines that name no preset are answered with the error line and
    the prompt again, one after the other; at the first line that reads
    "exit", in any case and also between quotes, [main] returns.  Nothing
    but the heading and the error lines is printed, no file is touched and
    the lines after "exit" are left unread. *)
Theorem main_exit t bad line rest :
  stdin t = bad ++ line :: rest →
  Forall (λ l, rejected (world t) l = true) bad →
  is_exit line = true →
  main t
  = (inr tt,
     {| world := printed (world t) (banner ++ replicate (length bad) path_error);
        stdin := rest;
        prompts := prompts t ++ replicate (S (length bad)) path_prompt |}).
Proof.
  intros Hin Hbad Hexit. rewrite main_run, Hin.
  rewrite length_app. simpl length.
  rewrite (path_loop_skip bad _ _ (line :: rest)) by done.
  erewrite path_loop_exit by done. simpl.
  rewrite printed_printed, <-app_assoc.
  by rewrite <-replicate_cons_app.
Qed.

Lemma first_taken (w : World) (lines : list string) :
  ∃ bad rest,
    lines = bad ++ rest
    ∧ Forall (λ l, rejected w l = true) bad
    ∧ match rest with
      | [] => True
      | line :: _ => rejected w line = false
      end.
Proof.
  induction lines as [|l lines (bad & rest & -> & Hbad & Hrest)].
  - by exists [], [].
  - destruct (rejected w l) eqn:Hl.
    + exists (l :: bad), rest. by repeat constructor.
    + by exists [], (l :: bad ++ rest).
Qed.

(** X23: the only exception that leaves [main] is the [EOFError] of the
    path prompt, and it does exactly when every line of the input is turned
    down: each is answered with the error line, and no file is touched.
    Once a line is taken as a path, whatever is raised is caught. *)
Theorem main_raises t r t' :
  main t = (inl r, t')
  ↔ r = EOFError
    ∧ Forall (λ l, rejected (world t) l = true) (stdin t)
    ∧ t' = {| world := printed (world t)
                         (banner ++ replicate (length (stdin t)) path_error);
              stdin := [];
              prompts := prompts t
                         ++ replicate (S (length (stdin t))) path_prompt |}.
Proof.
  rewrite main_run.
  destruct (first_taken (world t) (stdin t)) as (bad & rest & Hin & Hbad & Hrest).
  rewrite Hin at 1. rewrite length_app.
  rewrite (path_loop_skip bad _ _ rest) by done.
  destruct rest as [|line rest].
  - rewrite path_loop_nil by done. simpl.
    rewrite printed_printed, <-app_assoc, <-replicate_cons_app.
    rewrite app_nil_r in Hin. rewrite Hin. split.
    + by intros [= <- <-].
    + by intros (-> & _ & ->).
  - assert (Hnot : ¬ Forall (λ l, rejected (world t) l = true) (stdin t)).
    { rewrite Hin, Forall_app, Forall_cons. intros (_ & Hl & _). congruence. }
    apply andb_false_iff in Hrest.
    destruct (is_exit line) eqn:Hexit.
    + erewrite path_loop_exit by done. split; [done|]. by intros (_ & ? & _).
    + destruct Hrest as [Hrest|Hrest]; [done|].
      apply negb_false_iff in Hrest.
      erewrite path_loop_accept by done.
      destruct (session _ _) as [[e|?] t'']; (split; [done|]; by intros (_ & ? & _)).
Qed.

(** *** The steps of a session *)

Lemma bind_inv {A B} (c : Tty A) (k : A → Tty B) t res t' :
  mbind k c t = (res, t') →
  (∃ r, c t = (inl r, t') ∧ res = inl r)
  ∨ (∃ a t1, c t = (inr a, t1) ∧ k a t1 = (res, t')).
Proof.
  unfold mbind, Tty_bind. destruct (c t) as [[r|a] t1].
  - intros [= <- <-]. left. by exists r.
  - intros Hk. right. by exists a, t1.
Qed.

Lemma lift_quiet {A} (c : Py A) t res t' :
  (∀ w r w', c w = (r, w') → files w' = files w ∧ readonly w' = readonly w) →
  lift c t = (res, t') → quiet t t'.
Proof.
  intros Hc. unfold lift. destruct (c (world t)) as [r w'] eqn:Hrun.
  intros [= <- <-]. destruct (Hc _ _ _ Hrun) as [Hf Hr]. done.
Qed.

Lemma load_frame path w res w' :
  _load_file path w = (res, w') →
  files w' = files w ∧ readonly w' = readonly w.
Proof.
  rewrite load_run.
  destruct (negb (endswith path ".dspreset")); [by intros [= <- <-]|].
  destruct (files w !! path) as [bs|]; [|by intros [= <- <-]].
  destruct (ET_parse bs) as [msg|rt]; [by intros [= <- <-]|].
  destruct (negb (String.eqb (tag rt) "DecentSampler")); [by intros [= <- <-]|].
  intros [= <- <-]. by destruct (findall "control" rt).
Qed.

Lemma load_path path w self w' :
  _load_file path w = (inr self, w') → file_path self = path.
Proof.
  rewrite load_run.
  destruct (negb (endswith path ".dspreset")); [done|].
  destruct (files w !! path) as [bs|]; [|done].
  destruct (ET_parse bs) as [msg|rt]; [done|].
  destruct (negb (String.eqb (tag rt) "DecentSampler")); [done|].
  by intros [= <- <-].
Qed.

Lemma float_input_quiet prompt t res t' :
  float_input prompt t = (res, t') → quiet t t'.
Proof.
  unfold float_input. intros [(r & Hin & ->)|(l & t1 & Hin & Hk)]%bind_inv.
  - by apply input_quiet in Hin as [? _].
  - apply input_quiet in Hin as [Hq _].
    destruct (py_float l); injection Hk as <- <-; done.
Qed.

Lemma select_types_quiet types sel t res t' :
  select_types types sel t = (res, t') → quiet t t'.
Proof.
  revert sel t. induction types as [|ty types IH]; intros sel t.
  - by intros [= <- <-].
  - simpl. intros [(r & Hin & ->)|(l & t1 & Hin & Hk)]%bind_inv.
    + by apply input_quiet in Hin as [? _].
    + apply input_quiet in Hin as [Hq _]. apply IH in Hk.
      by eapply quiet_trans.
Qed.


Lemma save_in_place_frame self w res w' :
  save self None w = (res, w') →
  readonly w' = readonly w
  ∧ ∀ q, q ≠ file_path self → q ≠ (file_path self ++ ".backup")%string →
         files w' !! q = files w !! q.
Proof.
  rewrite save_in_place_run, create_backup_run. simpl.
  destruct (files w !! file_path self) as [bs|]; simpl; [|by intros [= <- <-]].
  case_bool_decide; simpl; [by intros [= <- <-]|].
  destruct (PyText.read_text bs) as [text|]; simpl.
  2: { intros [= <- <-]. split; [done|]. intros q _ Hq. simpl.
       by rewrite lookup_insert_ne. }
  case_bool_decide; simpl; intros [= <- <-]; (split; [done|]); intros q Hq Hq';
    simpl; by rewrite ?lookup_insert_ne.
Qed.

Lemma lift_load_quiet fp t res t' :
  lift (_load_file fp) t = (res, t') → quiet t t'.
Proof. apply lift_quiet, load_frame. Qed.

Lemma lift_print_quiet s t res t' :
  lift (print s) t = (res, t') → quiet t t'.
Proof. rewrite lift_print. by intros [= <- <-]. Qed.

Lemma lift_print_all_quiet lines t res t' :
  lift (print_all lines) t = (res, t') → quiet t t'.
Proof. rewrite lift_print_all. by intros [= <- <-]. Qed.

Lemma input_line prompt t line t' :
  input prompt t = (inr line, t') → line ∈ stdin t.
Proof. intros Hin. by apply (input_quiet _ _ _ _ Hin). Qed.

Lemma input_step prompt t res t' : input prompt t = (res, t') → quiet t t'.
Proof. intros Hin. by apply (input_quiet _ _ _ _ Hin). Qed.

Lemma quiet_elem t t' line : quiet t t' → line ∈ stdin t' → line ∈ stdin t.
Proof.
  intros (_ & _ & [pre ->]) Hin. apply elem_of_app. by right.
Qed.

Lemma session_path self sel dx dy dw dh :
  file_path
    (m_self (modify_controls
               (m_self (modify_controls self sel dx dy dw dh true))
               sel dx dy dw dh false))
  = file_path self.
Proof.
  destruct (modify_apply (m_self (modify_controls self sel dx dy dw dh true))
              sel dx dy dw dh false) as (_ & _ & -> & _).
  by destruct (modify_apply self sel dx dy dw dh true) as (_ & _ & -> & _).
Qed.

(** What a session does to the files: nothing, unless a line of the input
    reads "y" or "Y", and then only to the preset and its backup. *)
Lemma session_effect fp t res t' :
  session fp t = (res, t') →
  readonly (world t') = readonly (world t)
  ∧ (files (world t') = files (world t)
     ∨ ∃ line, line ∈ stdin t ∧ PyStr.lower line = "y"%string
         ∧ ∀ q, q ≠ fp → q ≠ (fp ++ ".backup")%string →
                files (world t') !! q = files (world t) !! q).
Proof.
  assert (Hdone : ∀ t1, quiet t t1 →
            readonly (world t1) = readonly (world t)
            ∧ (files (world t1) = files (world t)
               ∨ ∃ line, line ∈ stdin t ∧ PyStr.lower line = "y"%string
                   ∧ ∀ q, q ≠ fp → q ≠ (fp ++ ".backup")%string →
                          files (world t1) !! q = files (world t) !! q)).
  { intros t1 (Hf & Hr & _). split; [done|]. by left. }
  unfold session.
  intros [(r & Hl & ->)|(modifier & t1 & Hl & Hk)]%bind_inv.
  { apply lift_load_quiet in Hl. by apply Hdone. }
  assert (Hfp : file_path modifier = fp).
  { unfold lift in Hl. destruct (_load_file fp (world t)) as [[e|m] w1] eqn:Hrun;
      [done|]. injection Hl as -> _. by eapply load_path. }
  apply lift_load_quiet in Hl. revert Hk.
  intros [(r & Hs & ->)|([] & t2 & Hs & Hk)]%bind_inv;
    apply lift_print_quiet in Hs;
    pose proof (quiet_trans _ _ _ Hl Hs) as Q2; [by apply Hdone|].
  clear Hs. revert Hk.
  intros [(r & Hs & ->)|([] & t3 & Hs & Hk)]%bind_inv;
    apply lift_print_all_quiet in Hs;
    pose proof (quiet_trans _ _ _ Q2 Hs) as Q3; [by apply Hdone|].
  clear Hs. revert Hk.
  intros [(r & Hs & ->)|([] & t4 & Hs & Hk)]%bind_inv;
    apply lift_print_quiet in Hs;
    pose proof (quiet_trans _ _ _ Q3 Hs) as Q4; [by apply Hdone|].
  clear Hs. revert Hk.
  intros [(r & Hs & ->)|(sel & t5 & Hs & Hk)]%bind_inv;
    apply select_types_quiet in Hs;
    pose proof (quiet_trans _ _ _ Q4 Hs) as Q5; [by apply Hdone|].
  clear Hs. destruct sel as [|s sel].
  { apply lift_print_quiet in Hk. apply Hdone. by eapply quiet_trans. }
  revert Hk.
  intros [(r & Hs & ->)|([] & t6 & Hs & Hk)]%bind_inv;
    apply lift_print_quiet in Hs;
    pose proof (quiet_trans _ _ _ Q5 Hs) as Q6; [by apply Hdone|].
  clear Hs. revert Hk.
  intros [(r & Hs & ->)|(dx & t7 & Hs & Hk)]%bind_inv;
    apply float_input_quiet in Hs;
    pose proof (quiet_trans _ _ _ Q6 Hs) as Q7; [by apply Hdone|].
  clear Hs. revert Hk.
  intros [(r & Hs & ->)|(dy & t8 & Hs & Hk)]%bind_inv;
    apply float_input_quiet in Hs;
    pose proof (quiet_trans _ _ _ Q7 Hs) as Q8; [by apply Hdone|].
  clear Hs. revert Hk.
  intros [(r & Hs & ->)|(dw & t9 & Hs & Hk)]%bind_inv;
    apply float_input_quiet in Hs;
    pose proof (quiet_trans _ _ _ Q8 Hs) as Q9; [by apply Hdone|].
  clear Hs. revert Hk.
  intros [(r & Hs & ->)|(dh & t10 & Hs & Hk)]%bind_inv;
    apply float_input_quiet in Hs;
    pose proof (quiet_trans _ _ _ Q9 Hs) as Q10; [by apply Hdone|].
  clear Hs. revert Hk. cbv zeta.
  intros [(r & Hs & ->)|([] & t11 & Hs & Hk)]%bind_inv;
    apply lift_print_all_quiet in Hs;
    pose proof (quiet_trans _ _ _ Q10 Hs) as Q11; [by apply Hdone|].
  clear Hs. destruct (found _ =? 0).
  { apply lift_print_quiet in Hk. apply Hdone. by eapply quiet_trans. }
  revert Hk.
  intros [(r & Hs & ->)|(c & t12 & Hs & Hk)]%bind_inv.
  { apply input_step in Hs. apply Hdone. by eapply quiet_trans. }
  pose proof (input_line _ _ _ _ Hs) as Hline. apply input_step in Hs.
  pose proof (quiet_trans _ _ _ Q11 Hs) as Q12.
  destruct (String.eqb_spec (PyStr.lower c) "y") as [Hy'|Hy'].
  2: { injection Hk as <- <-. by apply Hdone. }
  clear Hs. revert Hk.
  intros [(r & Hs & ->)|([] & t13 & Hs & Hk)]%bind_inv;
    apply lift_print_all_quiet in Hs;
    pose proof (quiet_trans _ _ _ Q12 Hs) as Q13; [by apply Hdone|].
  unfold lift in Hk.
  destruct (save _ None _) as [r w'] eqn:Hsave. injection Hk as <- <-.
  apply save_in_place_frame in Hsave as [Hro Hframe]. simpl.
  rewrite session_path, Hfp in Hframe.
  destruct Q13 as (Hf13 & Hr13 & Hs13). split; [congruence|]. right.
  exists c. split; [by apply (quiet_elem _ _ _ Q11)|]. split; [done|].
  intros q Hq Hq'. by rewrite Hframe, Hf13.
Qed.

Lemma path_loop_reject_last t line rest :
  stdin t = line :: rest → rejected (world t) line = true →
  path_loop 0 t
  = (inl EOFError,
     {| world := printed (world t) [path_error]; stdin := rest;
        prompts := prompts t ++ [path_prompt] |}).
Proof.
  intros Hin [Hexit Hacc]%andb_true_iff.
  apply negb_true_iff in Hexit, Hacc. unfold is_exit, accepted, path_answer in *.
  simpl. unfold mbind at 1. unfold Tty_bind at 1.
  rewrite (input_cons _ _ _ _ Hin), Hexit.
  unfold mbind at 1. unfold Tty_bind at 1. unfold lift at 1, os_path_exists.
  simpl. rewrite Hacc. unfold mbind at 1. unfold Tty_bind at 1.
  rewrite lift_print. done.
Qed.

Lemma path_loop_effect fuel t res t1 :
  path_loop fuel t = (res, t1) →
  quiet t t1
  ∧ ∀ fp, res = inr (Some fp) →
          ∃ line, line ∈ stdin t ∧ fp = path_answer line
                  ∧ accepted (world t) line = true.
Proof.
  revert t. induction fuel as [|fuel IH]; intros t;
    (destruct (stdin t) as [|line rest] eqn:Hin;
     [rewrite path_loop_nil by done; intros [= <- <-];
      split; [|done]; unfold quiet; simpl; by rewrite Hin|]);
    (destruct (is_exit line) eqn:Hexit;
     [erewrite path_loop_exit by done; intros [= <- <-];
      split; [|done]; unfold quiet; simpl; rewrite Hin;
      split; [done|]; split; [done|]; by apply suffix_cons_r|]);
    (destruct (accepted (world t) line) eqn:Hacc;
     [erewrite path_loop_accept by done; intros [= <- <-]; split;
      [unfold quiet; simpl; rewrite Hin;
       split; [done|]; split; [done|]; by apply suffix_cons_r
      |intros fp [= <-]; exists line; split; [left|done]]|]);
    assert (Hrej : rejected (world t) line = true)
      by (unfold rejected; by rewrite Hexit, Hacc).
  - erewrite path_loop_reject_last by done. intros [= <- <-].
    split; [|done]. unfold quiet. simpl. rewrite Hin.
    split; [done|]. split; [done|]. by apply suffix_cons_r.
  - erewrite path_loop_reject by done. intros Hrun.
    apply IH in Hrun as [(Hf & Hr & Hs) Hfp]. simpl in *. split.
    + unfold quiet. rewrite Hin. split; [done|]. split; [done|].
      by apply suffix_cons_r.
    + intros fp Hres. destruct (Hfp fp Hres) as (l & Hl & -> & Hacc').
      exists l. split; [by right|done].
Qed.

(** What [main] does to the files. *)
Lemma main_effect t res t' :
  main t = (res, t') →
  readonly (world t') = readonly (world t)
  ∧ (files (world t') = files (world t)
     ∨ ∃ line yes,
         line ∈ stdin t ∧ accepted (world t) line = true
         ∧ yes ∈ stdin t ∧ PyStr.lower yes = "y"%string
         ∧ ∀ q, q ≠ path_answer line →
                q ≠ (path_answer line ++ ".backup")%string →
                files (world t') !! q = files (world t) !! q).
Proof.
  rewrite main_run.
  destruct (path_loop _ _) as [[r|[fp|]] t1] eqn:Hloop;
    apply path_loop_effect in Hloop as [(Hf & Hr & Hs) Hfp]; simpl in *.
  - intros [= <- <-]. split; [done|]. by left.
  - destruct (Hfp fp eq_refl) as (line & Hline & -> & Hacc).
    destruct (session _ t1) as [[e|[]] t2] eqn:Hses;
      apply session_effect in Hses as [Hr2 Hf2]; intros [= <- <-]; simpl;
      (split; [congruence|]);
      (destruct Hf2 as [Hf2|(yes & Hyes & Hy & Hframe)];
       [left; congruence|right]);
      exists line, yes;
      (split; [done|]); (split; [done|]);
      (split; [destruct Hs as [pre ->]; apply elem_of_app; by right|]);
      (split; [done|]); intros q Hq Hq'; by rewrite Hframe, Hf.
  - intros [= <- <-]. split; [done|]. by left.
Qed.

(** X24: unless a line of the input reads "y" or "Y", [main] changes no
    file and nothing about what can be written, however it ends. *)
Theorem main_writes_only_on_yes t res t' :
  (∀ line, line ∈ stdin t → PyStr.lower line ≠ "y"%string) →
  main t = (res, t') →
  files (world t') = files (world t)
  ∧ readonly (world t') = readonly (world t).
Proof.
  intros Hno [Hr [Hf|(line & yes & _ & _ & Hyes & Hy & _)]]%main_effect.
  - done.
  - by destruct (Hno yes Hyes).
Qed.

(** X25: a file that [main] changes is the preset that a line of the
    input names, a file that exists and has the extension, or the backup of
    that preset; no other file is created, changed or removed. *)
Theorem main_touches_only_preset t res t' q :
  main t = (res, t') →
  files (world t') !! q ≠ files (world t) !! q →
  ∃ line, line ∈ stdin t ∧ accepted (world t) line = true
          ∧ (q = path_answer line ∨ q = (path_answer line ++ ".backup")%string).
Proof.
  intros [_ [Hf|(line & yes & Hline & Hacc & _ & _ & Hframe)]]%main_effect Hq.
  - by rewrite Hf in Hq.
  - exists line. split; [done|]. split; [done|].
    destruct (decide (q = path_answer line)) as [|Hne]; [by left|].
    destruct (decide (q = (path_answer line ++ ".backup")%string)) as [|Hne'];
      [by right|].
    destruct Hq. by apply Hframe.
Qed.

(** The fuel of the path loop is never used up: any amount above the
    number of lines gives what that number gives. *)
Lemma path_loop_fuel fuel t :
  length (stdin t) ≤ fuel →
  path_loop fuel t = path_loop (length (stdin t)) t.
Proof.
  intros Hfuel.
  destruct (first_taken (world t) (stdin t)) as (bad & rest & Hin & Hbad & Hrest).
  rewrite Hin in Hfuel |- *. rewrite length_app in Hfuel |- *.
  replace fuel with (length bad + (fuel - length bad)) by lia.
  rewrite !(path_loop_skip bad _ _ rest) by done.
  destruct rest as [|line rest]; [by rewrite !path_loop_nil|].
  apply andb_false_iff in Hrest.
  destruct (is_exit line) eqn:Hexit.
  - by rewrite !(path_loop_exit _ _ line rest).
  - destruct Hrest as [Hrest|Hrest]; [done|]. apply negb_false_iff in Hrest.
    by rewrite !(path_loop_accept _ _ line rest).
Qed.

(** *** A session from the path to the saved file *)






End MainFacts.

(** ** The further properties at the sample documents *)


Lemma load_reads_only_witness :
  _load_file (platform := empty_platform PyText.posix) "empty.dspreset"
    (preset_world lf_bytes)
  = (inr empty_self, printed (preset_world lf_bytes) [no_controls_warning])
  ∧ files (printed (preset_world lf_bytes) [no_controls_warning])
    = files (preset_world lf_bytes).
Proof.
  assert (H1 : _load_file (platform := empty_platform PyText.posix)
                 "empty.dspreset" (preset_world lf_bytes)
               = (inr empty_self,
                  printed (preset_world lf_bytes) [no_controls_warning]))
    by (vm_compute; reflexivity).
  pose proof (load_reads_only (platform := empty_platform PyText.posix)
    _ _ _ _ H1) as Hthm.
  exact (conj H1 (proj1 Hthm)).
Defined.

Lemma load_lists_controls_witness :
  _load_file (platform := demo_platform) "demo.dspreset" demo_world
  = (inr demo_self, demo_world)
  ∧ file_path demo_self = "demo.dspreset"%string
  ∧ NoDup (ui_controls demo_self)
  ∧ ∀ p, p ∈ ui_controls demo_self
         ↔ p ≠ [] ∧ tag <$> elem_at (root demo_self) p = Some "control"%string.
Proof.
  assert (H1 : _load_file (platform := demo_platform) "demo.dspreset" demo_world
               = (inr demo_self, demo_world))
    by (vm_compute; reflexivity).
  exact (conj H1 (load_lists_controls (platform := demo_platform) _ _ _ _ H1)).
Defined.

Lemma load_index_counts_witness :
  (_load_file (platform := demo_platform) "demo.dspreset" demo_world
   = (inr demo_self, demo_world))
  ∧ NoDup (fst <$> control_types_found demo_self)
  ∧ dict_get "knob" (control_types_found demo_self)
    = Some (length (filter (λ q, type_key (root demo_self) q = "knob"%string)
                      (ui_controls demo_self))).
Proof.
  assert (H1 : _load_file (platform := demo_platform) "demo.dspreset" demo_world
               = (inr demo_self, demo_world))
    by (vm_compute; reflexivity).
  assert (H2 : 0 < length (filter (λ q, type_key (root demo_self) q = "knob"%string)
                             (ui_controls demo_self)))
    by (vm_compute; lia).
  pose proof (load_index_counts (platform := demo_platform) _ _ _ _ "knob"%string H1)
    as Hthm.
  exact (conj H1 (conj (proj1 Hthm) (proj2 (proj2 Hthm) H2))).
Defined.

Lemma no_records_nothing_written_witness :
  let r := modify_controls (py := cpython) demo_self ["unknown"%string]
             5%float 0%float 0%float 0%float false in
  m_changes r = []
  ∧ m_self r = demo_self
  ∧ modified (m_stats r) = 0
  ∧ found (m_stats r) = skipped (m_stats r)
  ∧ m_report r = [no_changes_notice].
Proof.
  intros r.
  assert (H1 : m_changes r = []) by (vm_compute; reflexivity).
  exact (conj H1 (no_records_nothing_written (py := cpython) demo_self
           ["unknown"%string] 5%float 0%float 0%float 0%float false H1)).
Defined.

Lemma call_keeps_structure_witness :
  let r := modify_controls (py := cpython) demo_self ["knob"%string]
             5%float 0%float 0%float 0%float false in
  ("id"%string ≠ "x"%string ∧ "id"%string ≠ "y"%string
   ∧ "id"%string ≠ "width"%string ∧ "id"%string ≠ "height"%string)
  ∧ findall "control" (root (m_self r)) = findall "control" (root demo_self)
  ∧ get_at (root (m_self r)) [0; 0; 0] "id" = get_at (root demo_self) [0; 0; 0] "id".
Proof.
  intros r.
  assert (H1 : "id"%string ≠ "x"%string) by discriminate.
  assert (H2 : "id"%string ≠ "y"%string) by discriminate.
  assert (H3 : "id"%string ≠ "width"%string) by discriminate.
  assert (H4 : "id"%string ≠ "height"%string) by discriminate.
  pose proof (call_keeps_structure (py := cpython) demo_self ["knob"%string]
    5%float 0%float 0%float 0%float false [0; 0; 0] "id"%string H1 H2 H3 H4) as Hthm.
  destruct Hthm as (_ & _ & _ & Hf & _ & Hg).
  exact (conj (conj H1 (conj H2 (conj H3 H4))) (conj Hf Hg)).
Defined.

Lemma unconvertible_stays_witness :
  let r := modify_controls (py := cpython) demo_self ["knob"%string]
             5%float 0%float 0%float 0%float false in
  rect_at (py := cpython) (root demo_self) [0; 0; 1] = None
  ∧ attrib_at (root (m_self r)) [0; 0; 1] = attrib_at (root demo_self) [0; 0; 1]
  ∧ rect_at (py := cpython) (root (m_self r)) [0; 0; 1] = None.
Proof.
  intros r.
  assert (H1 : rect_at (py := cpython) (root demo_self) [0; 0; 1] = None)
    by (vm_compute; reflexivity).
  pose proof (unconvertible_stays (py := cpython) demo_self ["knob"%string]
    5%float 0%float 0%float 0%float false [0; 0; 1] H1) as Hthm.
  destruct Hthm as (Ha & Hr & _).
  exact (conj H1 (conj Ha Hr)).
Defined.

Lemma offsets_compose_witness :
  let old := {| r_x := 10; r_y := 20; r_width := 30; r_height := 30 |}%float in
  let first := modify_controls (py := cpython) knob_self ["knob"%string]
                 5%float (-5)%float 0%float 10%float false in
  let second := modify_controls (py := cpython) (m_self first) ["knob"%string]
                  1%float 2%float 3%float 4%float false in
  (loaded knob_self ∧ [0; 0] ∈ ui_controls knob_self
   ∧ elem_at (root knob_self) [0; 0] = Some knob_control
   ∧ type_in (dict_get "type" (attrib knob_control)) ["knob"%string] = true
   ∧ read_rect (py := cpython) knob_control = inr old
   ∧ reads_back (py := cpython) (offset old 5 (-5) 0 10))
  ∧ get_at (root (m_self second)) [0; 0] "x"
    = Some (py_str (Builtins := cpython) (10 + 5 + 1))
  ∧ get_at (root (m_self second)) [0; 0] "height"
    = Some (py_str (Builtins := cpython) (30 + 10 + 4)).
Proof.
  intros old first second.
  assert (H1 : loaded knob_self) by (vm_compute; reflexivity).
  assert (H2 : [0; 0] ∈ ui_controls knob_self) by (left).
  assert (He : elem_at (root knob_self) [0; 0] = Some knob_control)
    by (vm_compute; reflexivity).
  assert (Ht : type_in (dict_get "type" (attrib knob_control)) ["knob"%string] = true)
    by (vm_compute; reflexivity).
  assert (Hr : read_rect (py := cpython) knob_control = inr old)
    by (vm_compute; reflexivity).
  assert (H3 : reads_back (py := cpython) (offset old 5 (-5) 0 10))
    by (vm_compute; repeat split; reflexivity).
  pose proof (offsets_compose (py := cpython) knob_self ["knob"%string]
    5%float (-5)%float 0%float 10%float 1%float 2%float 3%float 4%float
    [0; 0] knob_control old H1 H2 He Ht Hr H3) as Hthm.
  destruct Hthm as (Hx & _ & _ & Hh).
  exact (conj (conj H1 (conj H2 (conj He (conj Ht (conj Hr H3))))) (conj Hx Hh)).
Defined.

Lemma change_records_witness :
  let r := modify_controls (py := cpython) demo_self ["knob"%string]
             5%float 0%float 0%float 0%float true in
  gain_change 5 0 0 0 ∈ m_changes r
  ∧ c_element (gain_change 5 0 0 0) ∈ ui_controls demo_self
  ∧ get_at (root demo_self) (c_element (gain_change 5 0 0 0)) "type"
    = Some (c_type (gain_change 5 0 0 0))
  ∧ c_element <$> m_changes r
    = filter (changed_at (py := cpython) (root demo_self) ["knob"%string])
        (ui_controls demo_self).
Proof.
  intros r.
  assert (Hm : m_changes r = [gain_change 5 0 0 0]) by (vm_compute; reflexivity).
  assert (H1 : gain_change 5 0 0 0 ∈ m_changes r).
  { apply (eq_ind_r (λ l, gain_change 5 0 0 0 ∈ l) (list_elem_of_here _ _) Hm). }
  pose proof (change_records (py := cpython) demo_self ["knob"%string]
    5%float 0%float 0%float 0%float true _ H1) as Hthm.
  destruct Hthm as (He & Ht & _ & _ & _ & _ & Hl).
  exact (conj H1 (conj He (conj Ht Hl))).
Defined.

Lemma backup_identical_posix_witness :
  (os (Platform := empty_platform PyText.posix) = PyText.posix
   ∧ files (preset_world lf_bytes) !! file_path empty_self = Some lf_bytes
   ∧ is_Some (PyText.decode lf_bytes)
   ∧ (file_path empty_self ++ ".backup")%string ∉ readonly (preset_world lf_bytes))
  ∧ ∃ w' bs',
      create_backup (platform := empty_platform PyText.posix) empty_self
        (preset_world lf_bytes)
      = (inr (file_path empty_self ++ ".backup")%string, w')
      ∧ files w' !! (file_path empty_self ++ ".backup")%string = Some bs'
      ∧ (bs' = lf_bytes ↔ Byte.x0d ∉ lf_bytes).
Proof.
  assert (H1 : os (Platform := empty_platform PyText.posix) = PyText.posix)
    by reflexivity.
  assert (H2 : files (preset_world lf_bytes) !! file_path empty_self = Some lf_bytes)
    by (vm_compute; reflexivity).
  assert (H3 : is_Some (PyText.decode lf_bytes))
    by (vm_compute; eexists; reflexivity).
  assert (H4 : (file_path empty_self ++ ".backup")%string
               ∉ readonly (preset_world lf_bytes))
    by (apply not_elem_of_empty).
  exact (conj (conj H1 (conj H2 (conj H3 H4)))
           (backup_identical_posix (platform := empty_platform PyText.posix)
              empty_self (preset_world lf_bytes) lf_bytes H1 H2 H3 H4)).
Defined.

Lemma backup_identical_nt_witness :
  let t := default [] (PyText.decode crlf_bytes) in
  (os (Platform := empty_platform PyText.nt) = PyText.nt
   ∧ files (preset_world crlf_bytes) !! file_path empty_self = Some crlf_bytes
   ∧ PyText.decode crlf_bytes = Some t
   ∧ (file_path empty_self ++ ".backup")%string
     ∉ readonly (preset_world crlf_bytes))
  ∧ ∃ w' bs',
      create_backup (platform := empty_platform PyText.nt) empty_self
        (preset_world crlf_bytes)
      = (inr (file_path empty_self ++ ".backup")%string, w')
      ∧ files w' !! (file_path empty_self ++ ".backup")%string = Some bs'
      ∧ (bs' = crlf_bytes ↔ crlf_only t = true).
Proof.
  intros t.
  assert (H1 : os (Platform := empty_platform PyText.nt) = PyText.nt)
    by reflexivity.
  assert (H2 : files (preset_world crlf_bytes) !! file_path empty_self
               = Some crlf_bytes)
    by (vm_compute; reflexivity).
  assert (H3 : PyText.decode crlf_bytes = Some t) by (vm_compute; reflexivity).
  assert (H4 : (file_path empty_self ++ ".backup")%string
               ∉ readonly (preset_world crlf_bytes))
    by (apply not_elem_of_empty).
  exact (conj (conj H1 (conj H2 (conj H3 H4)))
           (backup_identical_nt (platform := empty_platform PyText.nt)
              empty_self (preset_world crlf_bytes) crlf_bytes t H1 H2 H3 H4)).
Defined.

Lemma backup_reads_the_same_witness :
  let text := default [] (PyText.read_text crlf_bytes) in
  (files (preset_world crlf_bytes) !! file_path empty_self = Some crlf_bytes
   ∧ PyText.read_text crlf_bytes = Some text
   ∧ (file_path empty_self ++ ".backup")%string
     ∉ readonly (preset_world crlf_bytes))
  ∧ ∃ w' bs',
      create_backup (platform := empty_platform PyText.posix) empty_self
        (preset_world crlf_bytes)
      = (inr (file_path empty_self ++ ".backup")%string, w')
      ∧ files w' !! (file_path empty_self ++ ".backup")%string = Some bs'
      ∧ PyText.read_text bs' = Some text
      ∧ ∀ q, q ≠ (file_path empty_self ++ ".backup")%string →
             files w' !! q = files (preset_world crlf_bytes) !! q.
Proof.
  intros text.
  assert (H1 : files (preset_world crlf_bytes) !! file_path empty_self
               = Some crlf_bytes)
    by (vm_compute; reflexivity).
  assert (H2 : PyText.read_text crlf_bytes = Some text)
    by (vm_compute; reflexivity).
  assert (H3 : (file_path empty_self ++ ".backup")%string
               ∉ readonly (preset_world crlf_bytes))
    by (apply not_elem_of_empty).
  exact (conj (conj H1 (conj H2 H3))
           (backup_reads_the_same (platform := empty_platform PyText.posix)
              empty_self (preset_world crlf_bytes) crlf_bytes text H1 H2 H3)).
Defined.

Lemma save_to_output_path_witness :
  let w' := {| files := <["out.dspreset"%string := xml_declaration]> (files demo_world);
               readonly := readonly demo_world;
               stdout := stdout demo_world ++ ["Successfully saved to: out.dspreset"%string] |} in
  ("out.dspreset"%string ≠ EmptyString
   ∧ save (platform := demo_platform) demo_self (Some "out.dspreset"%string) demo_world
     = (inr tt, w'))
  ∧ (∀ q, q ≠ "out.dspreset"%string → files w' !! q = files demo_world !! q)
  ∧ files w' !! "out.dspreset"%string
    = Some (ET_tostring (Platform := demo_platform) (root demo_self)).
Proof.
  intros w'.
  assert (H1 : "out.dspreset"%string ≠ EmptyString) by discriminate.
  assert (H2 : save (platform := demo_platform) demo_self
                 (Some "out.dspreset"%string) demo_world = (inr tt, w'))
    by (vm_compute; reflexivity).
  pose proof (save_to_output_path (platform := demo_platform) demo_self
    "out.dspreset"%string demo_world (inr tt) w' H1 H2) as Hthm.
  destruct Hthm as (Hq & _ & _ & Hp & _).
  exact (conj (conj H1 H2) (conj Hq Hp)).
Defined.

Lemma save_in_place_witness :
  let w' := snd (save (platform := demo_platform) demo_self None demo_world) in
  (truthy None = false
   ∧ save (platform := demo_platform) demo_self None demo_world = (inr tt, w'))
  ∧ (∀ q, q ≠ file_path demo_self → q ≠ (file_path demo_self ++ ".backup")%string →
          files w' !! q = files demo_world !! q)
  ∧ ∃ bs text,
      files demo_world !! file_path demo_self = Some bs
      ∧ PyText.read_text bs = Some text
      ∧ files w' !! (file_path demo_self ++ ".backup")%string
        = Some (PyText.write_text (os (Platform := demo_platform)) text)
      ∧ files w' !! file_path demo_self
        = Some (ET_tostring (Platform := demo_platform) (root demo_self))
      ∧ stdout w' = stdout demo_world
          ++ [("Created backup at: " ++ file_path demo_self ++ ".backup")%string;
              ("Successfully saved to: " ++ file_path demo_self)%string].
Proof.
  intros w'.
  assert (H1 : truthy None = false) by reflexivity.
  assert (H2 : save (platform := demo_platform) demo_self None demo_world
               = (inr tt, w'))
    by (vm_compute; reflexivity).
  pose proof (save_in_place (platform := demo_platform) demo_self None
    demo_world (inr tt) w' H1 H2) as Hthm.
  destruct Hthm as (Hq & _ & Hok).
  exact (conj (conj H1 H2) (conj Hq Hok)).
Defined.

Lemma save_in_place_failures_witness :
  let e := Exn UnicodeDecodeError "'utf-8' codec can't decode" in
  let w' := {| files := <["empty.dspreset.backup"%string := []]> (files garbled_world);
               readonly := readonly garbled_world;
               stdout := stdout garbled_world |} in
  (truthy (Some EmptyString) = false
   ∧ save (platform := empty_platform PyText.posix) empty_self
       (Some EmptyString) garbled_world = (inl e, w'))
  ∧ ((files garbled_world !! file_path empty_self = None ∧ w' = garbled_world
      ∧ e = Exn OSError
          ("Error saving file: Error creating backup: [Errno 2] No such file or directory: '"
           ++ file_path empty_self ++ "'"))
     ∨ (is_Some (files garbled_world !! file_path empty_self)
        ∧ (file_path empty_self ++ ".backup")%string ∈ readonly garbled_world
        ∧ w' = garbled_world
        ∧ e = Exn OSError
            ("Error saving file: Error creating backup: [Errno 13] Permission denied: '"
             ++ (file_path empty_self ++ ".backup") ++ "'"))
     ∨ (((file_path empty_self ++ ".backup")%string ∉ readonly garbled_world)
        ∧ (∃ bs, files garbled_world !! file_path empty_self = Some bs
                 ∧ PyText.decode bs = None)
        ∧ files w'
          = <[(file_path empty_self ++ ".backup")%string := []]> (files garbled_world)
        ∧ stdout w' = stdout garbled_world
        ∧ exn_type e = UnicodeDecodeError)
     ∨ (((file_path empty_self ++ ".backup")%string ∉ readonly garbled_world)
        ∧ file_path empty_self ∈ readonly garbled_world
        ∧ (∃ bs text, files garbled_world !! file_path empty_self = Some bs
                      ∧ PyText.read_text bs = Some text
                      ∧ files w'
                        = <[(file_path empty_self ++ ".backup")%string
                            := PyText.write_text
                                 (os (Platform := empty_platform PyText.posix)) text]>
                            (files garbled_world))
        ∧ e = Exn OSError
            ("Error saving file: [Errno 13] Permission denied: '"
             ++ file_path empty_self ++ "'"))).
Proof.
  intros e w'.
  assert (H1 : truthy (Some EmptyString) = false) by reflexivity.
  assert (H2 : save (platform := empty_platform PyText.posix) empty_self
                 (Some EmptyString) garbled_world = (inl e, w'))
    by (vm_compute; reflexivity).
  exact (conj (conj H1 H2)
           (save_in_place_failures (platform := empty_platform PyText.posix)
              empty_self (Some EmptyString) garbled_world e w' H1 H2)).
Defined.

Lemma zero_offsets_report_witness :
  let r := modify_controls (py := cpython) demo_self ["knob"%string]
             0%float (-0)%float 0%float 0%float true in
  ((0 =? 0)%float = true ∧ (-0 =? 0)%float = true
   ∧ gain_change 0 (-0) 0 0 ∈ m_changes r)
  ∧ (change_lines (py := cpython) (gain_change 0 (-0) 0 0)
     = [("Control ID: " ++ c_id (gain_change 0 (-0) 0 0)
         ++ " (Type: " ++ c_type (gain_change 0 (-0) 0 0) ++ ")")%string;
        dashes 30]
     ↔ is_nan (r_x (c_old (gain_change 0 (-0) 0 0))) = false
       ∧ is_nan (r_y (c_old (gain_change 0 (-0) 0 0))) = false
       ∧ is_nan (r_width (c_old (gain_change 0 (-0) 0 0))) = false
       ∧ is_nan (r_height (c_old (gain_change 0 (-0) 0 0))) = false).
Proof.
  intros r.
  assert (H0 : (0 =? 0)%float = true) by (vm_compute; reflexivity).
  assert (H1 : (-0 =? 0)%float = true) by (vm_compute; reflexivity).
  assert (Hm : m_changes r = [gain_change 0 (-0) 0 0]) by (vm_compute; reflexivity).
  assert (H2 : gain_change 0 (-0) 0 0 ∈ m_changes r).
  { apply (eq_ind_r (λ l, gain_change 0 (-0) 0 0 ∈ l) (list_elem_of_here _ _) Hm). }
  exact (conj (conj H0 (conj H1 H2))
           (zero_offsets_report (py := cpython) demo_self ["knob"%string]
              0%float (-0)%float 0%float 0%float true _ H0 H1 H0 H0 H2)).
Defined.

Lemma main_exit_witness :
  (stdin (demo_terminal ["x"; "Exit"; "left over"]%string)
   = ["x"%string] ++ "Exit"%string :: ["left over"%string]
   ∧ Forall (λ l, rejected (world (demo_terminal ["x"; "Exit"; "left over"]%string)) l
                  = true) ["x"%string]
   ∧ is_exit "Exit" = true)
  ∧ main (py := cpython) (platform := demo_platform)
      (demo_terminal ["x"; "Exit"; "left over"]%string)
    = (inr tt,
       {| world := printed (world (demo_terminal ["x"; "Exit"; "left over"]%string))
                     (banner ++ replicate (length ["x"%string]) path_error);
          stdin := ["left over"%string];
          prompts := prompts (demo_terminal ["x"; "Exit"; "left over"]%string)
                     ++ replicate (S (length ["x"%string])) path_prompt |}).
Proof.
  assert (H1 : stdin (demo_terminal ["x"; "Exit"; "left over"]%string)
               = ["x"%string] ++ "Exit"%string :: ["left over"%string])
    by reflexivity.
  assert (Hx : rejected (world (demo_terminal ["x"; "Exit"; "left over"]%string))
                 "x" = true)
    by (vm_compute; reflexivity).
  assert (H2 : Forall (λ l, rejected
                 (world (demo_terminal ["x"; "Exit"; "left over"]%string)) l = true)
                 ["x"%string])
    by (constructor; [exact Hx|constructor]).
  assert (H3 : is_exit "Exit" = true) by (vm_compute; reflexivity).
  exact (conj (conj H1 (conj H2 H3))
           (main_exit (py := cpython) (platform := demo_platform)
              _ _ _ _ H1 H2 H3)).
Defined.

Lemma main_writes_only_on_yes_witness :
  let t := demo_terminal ["demo.dspreset"; " y"; "n"; "n"; "5"; "0"; "0"; "0"; "yes"]%string in
  let t' := snd (main (py := cpython) (platform := demo_platform) t) in
  ((∀ line, line ∈ stdin t → PyStr.lower line ≠ "y"%string)
   ∧ main (py := cpython) (platform := demo_platform) t = (inr tt, t'))
  ∧ files (world t') = files (world t)
  ∧ readonly (world t') = readonly (world t).
Proof.
  intros t t'.
  assert (H1 : ∀ line, line ∈ stdin t → PyStr.lower line ≠ "y"%string).
  { intros line Hin.
    repeat (apply elem_of_cons in Hin as [->|Hin]; [vm_compute; discriminate|]).
    by apply elem_of_nil in Hin. }
  assert (H2 : main (py := cpython) (platform := demo_platform) t = (inr tt, t'))
    by (vm_compute; reflexivity).
  exact (conj (conj H1 H2)
           (main_writes_only_on_yes (py := cpython) (platform := demo_platform)
              t (inr tt) t' H1 H2)).
Defined.

Lemma main_touches_only_preset_witness :
  let t := demo_terminal demo_lines in
  let t' := snd (main (py := cpython) (platform := demo_platform) t) in
  (main (py := cpython) (platform := demo_platform) t = (inr tt, t')
   ∧ files (world t') !! "demo.dspreset.backup"%string
     ≠ files (world t) !! "demo.dspreset.backup"%string)
  ∧ ∃ line, line ∈ stdin t ∧ accepted (world t) line = true
      ∧ ("demo.dspreset.backup"%string = path_answer line
         ∨ "demo.dspreset.backup"%string = (path_answer line ++ ".backup")%string).
Proof.
  intros t t'.
  assert (H1 : main (py := cpython) (platform := demo_platform) t = (inr tt, t'))
    by (vm_compute; reflexivity).
  assert (H2 : files (world t') !! "demo.dspreset.backup"%string
               ≠ files (world t) !! "demo.dspreset.backup"%string)
    by (vm_compute; discriminate).
  exact (conj (conj H1 H2)
           (main_touches_only_preset (py := cpython) (platform := demo_platform)
              t (inr tt) t' "demo.dspreset.backup"%string H1 H2)).
Defined.

